(** * tokenspy / llmspy: attribution, interception and pricing

    A shallow embedding of the call-attribution engine of the profiler:
    the pricing table and its lookup ([pricing.py]), the interceptor's
    module state ([interceptor.py]), the OpenAI and Google provider patches
    ([providers/openai.py], [providers/google.py]) and the [@profile]
    decorator and [Session] context manager ([profiler.py]); further the
    rule-based hints ([optimizer.py], with the text of a suggestion kept
    as its template and values), the bar of the text report
    ([flamegraph.py]) and the fixture of the tests that resets the module
    state ([tests/conftest.py]). The Tracker ([tracker.py]) and the
    Anthropic provider are not among the sources; they are modelled from
    the specification, and every such definition says so.

    Conventions of the embedding.
    - Python [int] is [Z]; Python [float] is idealised as an exact rational
      [Q] (rounding and overflow of binary64 are outside the model).
    - Python [str] is [string]; [str.lower] is ASCII lower-casing, which is
      what it does on the ASCII names of the pricing table.
    - A [dict] whose iteration order is observed (the pricing table) is an
      association list in insertion order; a dict used only as a map is a
      [gmap].
    - Module globals and the objects they point to live in one [World]
      record; Tracker objects and the interceptor's shared list are held
      by reference. Code that reads and writes the world is a
      state-and-exception computation [M A]; the clock around a provider
      call is an argument ([duration_ms]). *)

From Stdlib Require Import ZArith QArith String Ascii List Lia Permutation Sorted.
From stdpp Require Import base option list gmap strings.

Local Open Scope string_scope.
Local Open Scope list_scope.

(** ** Python strings *)

Module PyStr.

(** [c.lower()] on one ASCII character. *)
Definition lower_char (c : ascii) : ascii :=
  let n := nat_of_ascii c in
  if (65 <=? n)%nat && (n <=? 90)%nat then ascii_of_nat (n + 32) else c.

(** [s.lower()]. *)
Fixpoint lower (s : string) : string :=
  match s with
  | EmptyString => EmptyString
  | String c s' => String (lower_char c) (lower s')
  end.

(** [s.startswith(p)]. *)
Definition startswith (s p : string) : bool := String.prefix p s.

(** [c in s] for a one-character [c]. *)
Fixpoint contains_char (c : ascii) (s : string) : bool :=
  match s with
  | EmptyString => false
  | String d s' => if Ascii.eqb c d then true else contains_char c s'
  end.

(** [s.split(c)[-1]]: the part of [s] after the last occurrence of [c]
    (all of [s] when [c] does not occur). *)
Fixpoint last_segment (c : ascii) (s : string) : string :=
  match s with
  | EmptyString => EmptyString
  | String d s' =>
      if Ascii.eqb c d then last_segment c s'
      else if contains_char c s' then last_segment c s'
           else String d s'
  end.

End PyStr.

(** ** Python lists *)

Module PyList.

(** Insertion into a list sorted by [le], after the elements that are not
    greater: the step of a stable sort. *)
Fixpoint insert_sorted {A} (le : A -> A -> bool) (x : A) (l : list A) : list A :=
  match l with
  | [] => [x]
  | y :: l' => if le y x then y :: insert_sorted le x l' else x :: y :: l'
  end.

(** [sorted(l)] for the order [le]. Python's sort is stable, and a stable
    sort has one possible result, the one this insertion sort computes. *)
Definition sorted {A} (le : A -> A -> bool) (l : list A) : list A :=
  fold_left (fun acc x => insert_sorted le x acc) l [].

End PyList.

(** ** pricing.py *)

Module Pricing.
Import PyStr.

(** Python dict lookup on an insertion-ordered dict. *)
Fixpoint dict_get {V} (d : list (string * V)) (k : string) : option V :=
  match d with
  | [] => None
  | (k', v) :: d' => if String.eqb k k' then Some v else dict_get d' k
  end.

(** [PRICING]: model name -> (input price, output price), USD per 1M
    tokens, in the order the source lists them. *)
Definition PRICING : list (string * (Q * Q)) :=
  [ ("claude-opus-4-6",            (15.00,  75.00)%Q);
    ("claude-opus-4-5",            (15.00,  75.00)%Q);
    ("claude-sonnet-4-6",          ( 3.00,  15.00)%Q);
    ("claude-sonnet-4-5",          ( 3.00,  15.00)%Q);
    ("claude-haiku-4-5",           ( 0.80,   4.00)%Q);
    ("claude-haiku-4-5-20251001",  ( 0.80,   4.00)%Q);
    ("claude-3-5-sonnet-20241022", ( 3.00,  15.00)%Q);
    ("claude-3-5-haiku-20241022",  ( 0.80,   4.00)%Q);
    ("claude-3-opus-20240229",     (15.00,  75.00)%Q);
    ("claude-3-sonnet-20240229",   ( 3.00,  15.00)%Q);
    ("claude-3-haiku-20240307",    ( 0.25,   1.25)%Q);
    ("gpt-4o",                     ( 2.50,  10.00)%Q);
    ("gpt-4o-2024-11-20",          ( 2.50,  10.00)%Q);
    ("gpt-4o-mini",                ( 0.15,   0.60)%Q);
    ("gpt-4o-mini-2024-07-18",     ( 0.15,   0.60)%Q);
    ("o1",                         (15.00,  60.00)%Q);
    ("o1-mini",                    ( 3.00,  12.00)%Q);
    ("o3-mini",                    ( 1.10,   4.40)%Q);
    ("gpt-4-turbo",                (10.00,  30.00)%Q);
    ("gpt-4",                      (30.00,  60.00)%Q);
    ("gpt-3.5-turbo",              ( 0.50,   1.50)%Q);
    ("gemini-1.5-pro",             ( 1.25,   5.00)%Q);
    ("gemini-1.5-flash",           ( 0.075,  0.30)%Q);
    ("gemini-1.5-flash-8b",        ( 0.0375, 0.15)%Q);
    ("gemini-2.0-flash-exp",       ( 0.075,  0.30)%Q);
    ("gemini-2.0-flash",           ( 0.10,   0.40)%Q);
    ("llama-3.1-70b-instruct",     ( 0.88,   0.88)%Q);
    ("llama-3.1-8b-instruct",      ( 0.20,   0.20)%Q);
    ("mistral-large-latest",       ( 2.00,   6.00)%Q);
    ("mistral-small-latest",       ( 0.20,   0.60)%Q) ].

(** The test of the prefix loop: [model_lower.startswith(key) or
    key.startswith(model_lower)]. *)
Definition prefix_related (model_lower : string) (entry : string * (Q * Q)) : bool :=
  startswith model_lower (fst entry) || startswith (fst entry) model_lower.

(** [_lookup]: exact match first, then the first entry, in table order,
    in a prefix relation with the name. *)
Definition _lookup (model_lower : string) : option (Q * Q) :=
  match dict_get PRICING model_lower with
  | Some price => Some price
  | None => snd <$> List.find (prefix_related model_lower) PRICING
  end.

(** [calculate(model, input_tokens, output_tokens)]. *)
Definition calculate (model : string) (input_tokens output_tokens : Z) : Q :=
  let model_lower := lower model in
  match _lookup model_lower with
  | None => 0.0%Q
  | Some (input_price, output_price) =>
      ((inject_Z input_tokens * input_price
        + inject_Z output_tokens * output_price) / 1000000)%Q
  end.

(** [get_price_per_million(model)]. *)
Definition get_price_per_million (model : string) : option (Q * Q) :=
  _lookup (lower model).

(** The cost formula for one explicit pair of per-million rates. *)
Definition cost_at_rates (rates : Q * Q) (input_tokens output_tokens : Z) : Q :=
  ((inject_Z input_tokens * fst rates
    + inject_Z output_tokens * snd rates) / 1000000)%Q.

(** Both rates of a table entry are non-negative. *)
Definition rates_nonneg (entry : string * (Q * Q)) : Prop :=
  (0 <= fst (snd entry))%Q /\ (0 <= snd (snd entry))%Q.

(** A name is unknown when it is in no prefix relation (in either
    direction, equality included) with any key of the table. *)
Definition unknown_model (model : string) : Prop :=
  Forall (fun entry => prefix_related (lower model) entry = false) PRICING.

(** [CHEAPER_ALTERNATIVES]: the canonical cheaper model of a model. *)
Definition CHEAPER_ALTERNATIVES : list (string * string) :=
  [ ("claude-opus-4-6",            "claude-sonnet-4-6");
    ("claude-opus-4-5",            "claude-sonnet-4-5");
    ("claude-sonnet-4-6",          "claude-haiku-4-5");
    ("claude-sonnet-4-5",          "claude-haiku-4-5");
    ("claude-3-5-sonnet-20241022", "claude-3-5-haiku-20241022");
    ("claude-3-opus-20240229",     "claude-3-sonnet-20240229");
    ("gpt-4o",                     "gpt-4o-mini");
    ("gpt-4-turbo",                "gpt-4o");
    ("gpt-4",                      "gpt-4o");
    ("o1",                         "o3-mini");
    ("gemini-1.5-pro",             "gemini-1.5-flash") ].

(** [get_cheaper_alternative(model)]: [CHEAPER_ALTERNATIVES.get(model.lower())]. *)
Definition get_cheaper_alternative (model : string) : option string :=
  dict_get CHEAPER_ALTERNATIVES (lower model).

(** [list_models()]: [sorted(PRICING.keys())]. *)
Definition list_models : list string :=
  PyList.sorted String.leb (map fst PRICING).

(** Following the cheaper alternatives [n] times from a model. *)
Fixpoint alternative_chain (n : nat) (model : string) : option string :=
  match n with
  | O => Some model
  | S n' =>
      match get_cheaper_alternative model with
      | None => None
      | Some alt => alternative_chain n' alt
      end
  end.

End Pricing.

(** ** Python values, exceptions and attribute reads *)

Module Py.

(** The exceptions that occur in the modelled code. *)
Inductive exn : Type :=
  | ImportError
  | AttributeError
  | TypeError
  | IndexError
  | RecursionError
  | ReferenceError
  | UserError (msg : string).

(** How a call ends: with a value or with a raised exception. *)
Inductive outcome (A : Type) : Type :=
  | Ret (a : A)
  | Raise (e : exn).
Arguments Ret {A} a.
Arguments Raise {A} e.

(** What reading an attribute of a foreign object can do: the attribute
    is absent (AttributeError), present, or a property that raises
    something else. *)
Inductive attr (A : Type) : Type :=
  | Missing
  | Value (a : A)
  | Fails (e : exn).
Arguments Missing {A}.
Arguments Value {A} a.
Arguments Fails {A} e.

(** [getattr(obj, name, default)]: only AttributeError is replaced by the
    default. *)
Definition getattr {A} (a : attr A) (default : A) : outcome A :=
  match a with
  | Missing => Ret default
  | Value v => Ret v
  | Fails AttributeError => Ret default
  | Fails e => Raise e
  end.

(** The values a caller may pass where a model name is expected. *)
Inductive pyobj : Type :=
  | PNone
  | PStr (s : string)
  | PInt (z : Z).

(** [x or 0] on an optional integer ([None] and [0] are falsy). *)
Definition or_zero (x : option Z) : Z :=
  match x with
  | None => 0
  | Some z => if (z =? 0)%Z then 0%Z else z
  end.

(** [sum(xs)] on floats and on integers: a left fold from [0]. *)
Definition sum_Q (xs : list Q) : Q := fold_left Qplus xs 0%Q.
Definition sum_Z (xs : list Z) : Z := fold_left Z.add xs 0%Z.

(** [x or y] on floats and on integers ([0] is falsy). *)
Definition or_Q (x y : Q) : Q := if Qeq_bool x 0 then y else x.
Definition or_Z (x y : Z) : Z := if (x =? 0)%Z then y else x.

(** [int(x)] on a float: truncation towards zero. *)
Definition int_of (x : Q) : Z := Z.quot (Qnum x) (Zpos (Qden x)).

End Py.

(** ** tracker.py (not among the sources) *)

Module Tracker.

(** Modelled from the spec: [CallRecord], the UsageEvent of section 3; the
    fields are those the provider adapters and the tests pass to its
    constructor. *)
Record CallRecord : Type := {
  function_name : string;
  call_stack : list string;
  model : string;
  provider : string;
  input_tokens : Z;
  output_tokens : Z;
  cost_usd : Q;
  duration_ms : Q
}.

(** Modelled from the spec: the [total_tokens] property of a record, input
    plus output tokens. *)
Definition total_tokens_of (r : CallRecord) : Z :=
  (input_tokens r + output_tokens r)%Z.

(** Modelled from the spec: the durable backing stores (section 4.3). A
    store is an ordered log of events at a path; a path with no entry is a
    store that does not exist yet; [failing] holds the paths where a write
    fails (a durable I/O error). *)
Record Disk : Type := {
  stores : gmap string (list CallRecord);
  failing : gset string
}.

(** Modelled from the spec: [PersistenceAdapter.append], which creates the
    store on first use and appends one event; the boolean tells whether
    the write succeeded. *)
Definition append (path : string) (event : CallRecord) (d : Disk) : bool * Disk :=
  if decide (path ∈ failing d) then (false, d)
  else (true,
        {| stores := <[path := default [] (stores d !! path) ++ [event]]> (stores d);
           failing := failing d |}).

(** Modelled from the spec: [PersistenceAdapter.load_all], all persisted
    events in insertion order, the empty sequence when the store does not
    exist. *)
Definition load_all (path : string) (d : Disk) : list CallRecord :=
  default [] (stores d !! path).

(** Modelled from the spec: the Ledger of section 4.1, an ordered sequence
    of events, an optional durable path, and the warnings raised by failed
    durable writes. *)
Record t : Type := {
  _records : list CallRecord;
  _persist_path : option string;
  warnings : nat
}.

(** Modelled from the spec: [Tracker(persist_path=...)], created empty. *)
Definition __init__ (persist_path : option string) : t :=
  {| _records := []; _persist_path := persist_path; warnings := 0 |}.

(** Modelled from the spec: [record(event)] appends to the in-memory
    sequence and, when a durable path is bound, to the store; a failed
    durable write is reported and the in-memory append stands. *)
Definition record (self : t) (event : CallRecord) (d : Disk) : t * Disk :=
  let recs := _records self ++ [event] in
  match _persist_path self with
  | None =>
      ({| _records := recs; _persist_path := None; warnings := warnings self |}, d)
  | Some path =>
      let '(ok, d') := append path event d in
      ({| _records := recs; _persist_path := Some path;
          warnings := if ok then warnings self else S (warnings self) |}, d')
  end.

(** Modelled from the spec: a sequence of [record] calls,
    [for event in events: self.record(event)]. *)
Fixpoint record_all (self : t) (events : list CallRecord) (d : Disk) : t * Disk :=
  match events with
  | [] => (self, d)
  | event :: rest =>
      let '(self', d') := record self event d in
      record_all self' rest d'
  end.

(** Modelled from the spec: [records()], a snapshot of the sequence. *)
Definition records (self : t) : list CallRecord := _records self.

(** Modelled from the spec: [total_cost()]; like every aggregate it is
    recomputed from the current records. *)
Definition total_cost (self : t) : Q :=
  fold_right Qplus 0%Q (map cost_usd (records self)).

(** Modelled from the spec: [total_tokens()], input plus output tokens
    across all events. *)
Definition total_tokens (self : t) : Z :=
  fold_right Z.add 0%Z (map total_tokens_of (records self)).

(** Modelled from the spec: [total_calls()], the number of events. *)
Definition total_calls (self : t) : nat := length (records self).

(** Modelled from the spec: cost grouped by a key, built by one pass over
    the records: [result[k] = result.get(k, 0.0) + r.cost_usd]. *)
Definition cost_by (key : CallRecord -> string) (recs : list CallRecord)
  : gmap string Q :=
  fold_left
    (fun result r => <[key r := (default 0%Q (result !! key r) + cost_usd r)%Q]> result)
    recs ∅.

(** Modelled from the spec: [cost_by_function()]. *)
Definition cost_by_function (self : t) : gmap string Q :=
  cost_by function_name (records self).

(** Modelled from the spec: [cost_by_model()]. *)
Definition cost_by_model (self : t) : gmap string Q :=
  cost_by model (records self).

(** The sum of the values of a breakdown. *)
Definition sum_values (m : gmap string Q) : Q :=
  map_fold (fun _ v acc => (v + acc)%Q) 0%Q m.

(** The sum of the costs of a sequence of events. *)
Definition sum_costs (recs : list CallRecord) : Q :=
  fold_right Qplus 0%Q (map cost_usd recs).

(** Modelled from the spec: [reset()] clears the in-memory sequence; the
    durable store is untouched. *)
Definition reset (self : t) : t :=
  {| _records := []; _persist_path := _persist_path self; warnings := warnings self |}.

(** Modelled from the spec: [load_from_db()], the events of the bound
    store in insertion order; empty when no store is bound or it does not
    exist. *)
Definition load_from_db (self : t) (d : Disk) : list CallRecord :=
  match _persist_path self with
  | None => []
  | Some path => load_all path d
  end.

End Tracker.

(** ** The objects of the provider SDKs and the provider modules' globals *)

(** A Tracker object is held by reference: a position in the object store
    of the world. *)
Definition tracker_id : Type := nat.

(** A Python list held by reference. The one list object the code shares
    is the interceptor's module-level [_current_function]. *)
Inductive list_ref : Type :=
  | interceptor_current_function.

Module OpenAISdk.
Import Py.

(** The usage payload of a chat completion, as [_record] probes it. *)
Record Usage : Type := {
  prompt_tokens : attr (option Z);
  completion_tokens : attr (option Z)
}.

(** A response object: its [usage] attribute and the rest of it. *)
Record Response : Type := {
  usage : attr (option Usage);
  content : string
}.

(** The keyword arguments of [create]: only the [model] key is read; [None]
    here is an absent key. *)
Record Kwargs : Type := {
  kw_model : option pyobj
}.

(** What [Completions.create] can be bound to: a function of the SDK (or
    one the caller put there), which returns a response or raises and does
    not touch the profiler, or the closure [_patched_create] that [patch]
    builds; the closure captures the [tracker] and the [current_function]
    list that [patch] was called with. *)
Inductive sync_method : Type :=
  | SyncNative (f : Kwargs -> outcome Response)
  | PatchedCreate (tracker : tracker_id) (current_function : list_ref).

(** What [AsyncCompletions.create] can be bound to. *)
Inductive async_method : Type :=
  | AsyncNative (f : Kwargs -> outcome Response)
  | PatchedACreate (tracker : tracker_id) (current_function : list_ref).

(** [openai.resources.chat.completions]: the [create] attribute of class
    [Completions], and of class [AsyncCompletions] when the module has that
    class. *)
Record completions : Type := {
  Completions_create : sync_method;
  AsyncCompletions_create : option async_method
}.

End OpenAISdk.

Module GoogleSdk.
Import Py.

(** [response.usage_metadata], as [_record] probes it. *)
Record UsageMetadata : Type := {
  prompt_token_count : attr (option Z);
  candidates_token_count : attr (option Z)
}.

Record Response : Type := {
  usage_metadata : attr (option UsageMetadata);
  content : string
}.

(** A [GenerativeModel] instance: only its [model_name] is read. *)
Record GenerativeModel : Type := {
  model_name : attr pyobj
}.

(** What [GenerativeModel.generate_content] can be bound to. *)
Inductive method : Type :=
  | Native (f : GenerativeModel -> outcome Response)
  | PatchedGenerate (tracker : tracker_id) (current_function : list_ref).

(** [google.generativeai]. *)
Record generativeai : Type := {
  GenerativeModel_generate_content : method
}.

End GoogleSdk.

(** The globals of [providers/openai.py] together with the SDK module it
    imports ([sdk] is [None] when [openai] cannot be imported). *)
Module OpenAIGlobals.
Record t : Type := {
  sdk : option OpenAISdk.completions;
  _original_create : option OpenAISdk.sync_method;
  _original_acreate : option OpenAISdk.async_method;
  _patched : bool
}.
End OpenAIGlobals.

(** The globals of [providers/google.py] together with the SDK module. *)
Module GoogleGlobals.
Record t : Type := {
  sdk : option GoogleSdk.generativeai;
  _original_generate : option GoogleSdk.method;
  _patched : bool
}.
End GoogleGlobals.

(** [providers/anthropic.py] is not among the sources. *)
Module AnthropicGlobals.

(** Modelled from the spec: what [Messages.create] can be bound to, an SDK
    function or the closure the patch installs; the closures record
    Anthropic calls, which nothing below makes. *)
Inductive method : Type :=
  | Native (id : nat)
  | PatchedCreate (tracker : tracker_id) (current_function : list_ref).

(** Modelled from the spec: the module's globals. The test fixtures reset
    [_patched] and [_original_create] exactly as they do for the OpenAI
    module, so it is given the same shape: a flag and the saved
    [Messages.create]. *)
Record t : Type := {
  sdk : option method;
  _original_create : option method;
  _patched : bool
}.
End AnthropicGlobals.

(** ** The world: every module global and object the code touches *)

Record World : Type := {
  (** the Tracker objects, by reference *)
  heap : list Tracker.t;
  (** the durable stores *)
  disk : Tracker.Disk;
  (** [tracker._global_tracker] *)
  _global_tracker : tracker_id;
  (** [interceptor._current_function], a Python list mutated in place, and
      shared by reference with every provider closure *)
  _current_function : list string;
  (** [interceptor._active] *)
  _active : bool;
  openai : OpenAIGlobals.t;
  anthropic : AnthropicGlobals.t;
  google : GoogleGlobals.t
}.

Definition set_heap (h : list Tracker.t) (d : Tracker.Disk) (w : World) : World :=
  {| heap := h; disk := d; _global_tracker := _global_tracker w;
     _current_function := _current_function w; _active := _active w;
     openai := openai w; anthropic := anthropic w; google := google w |}.

Definition set_global (g : tracker_id) (w : World) : World :=
  {| heap := heap w; disk := disk w; _global_tracker := g;
     _current_function := _current_function w; _active := _active w;
     openai := openai w; anthropic := anthropic w; google := google w |}.

Definition set_cell (c : list string) (w : World) : World :=
  {| heap := heap w; disk := disk w; _global_tracker := _global_tracker w;
     _current_function := c; _active := _active w;
     openai := openai w; anthropic := anthropic w; google := google w |}.

Definition set_providers (a : bool) (o : OpenAIGlobals.t) (an : AnthropicGlobals.t)
    (g : GoogleGlobals.t) (w : World) : World :=
  {| heap := heap w; disk := disk w; _global_tracker := _global_tracker w;
     _current_function := _current_function w; _active := a;
     openai := o; anthropic := an; google := g |}.

(** The list a reference points to, as it is now. *)
Definition deref (r : list_ref) (w : World) : list string :=
  match r with
  | interceptor_current_function => _current_function w
  end.

(** ** State-and-exception computations *)

Module Run.
Import Py.

Definition M (A : Type) : Type := World -> outcome A * World.

Definition ret {A} (a : A) : M A := fun w => (Ret a, w).

Definition raise {A} (e : exn) : M A := fun w => (Raise e, w).

Definition bind {A B} (m : M A) (k : A -> M B) : M B :=
  fun w =>
    match m w with
    | (Ret a, w') => k a w'
    | (Raise e, w') => (Raise e, w')
    end.

(** A pure call that may raise. *)
Definition lift {A} (o : outcome A) : M A := fun w => (o, w).

(** Reading and writing the world. *)
Definition get : M World := fun w => (Ret w, w).
Definition modify (f : World -> World) : M unit := fun w => (Ret tt, f w).

(** [try: body finally: cleanup]: the cleanup always runs; the outcome is
    the body's unless the cleanup itself raises. *)
Definition try_finally {A} (body : M A) (cleanup : M unit) : M A :=
  fun w =>
    match body w with
    | (r, w') =>
        match cleanup w' with
        | (Ret _, w'') => (r, w'')
        | (Raise e, w'') => (Raise e, w'')
        end
    end.

(** [try: body except Exception: pass]. *)
Definition try_except_pass (body : M unit) : M unit :=
  fun w =>
    match body w with
    | (Ret _, w') => (Ret tt, w')
    | (Raise _, w') => (Ret tt, w')
    end.

(** [try: body except Exception: handler]. *)
Definition try_except {A} (body : M A) (handler : exn -> M A) : M A :=
  fun w =>
    match body w with
    | (Ret a, w') => (Ret a, w')
    | (Raise e, w') => handler e w'
    end.

End Run.

Declare Scope py_scope.
Delimit Scope py_scope with py.
Notation "x <- c ;; k" := (Run.bind c (fun x => k))
  (at level 100, c at next level, right associativity) : py_scope.
Notation "c ;; k" := (Run.bind c (fun _ => k))
  (at level 100, right associativity) : py_scope.
Local Open Scope py_scope.

(** ** Concurrent writers on one Tracker *)

Module Writers.

(** Modelled from the spec: where a writer stands inside one call of
    [record], which "appends under exclusive access": outside the call
    ([Idle]), holding the Tracker's lock ([Holding]), having read the
    Tracker ([Loaded]), having written the Tracker with the event appended
    ([Stored]); releasing the lock ends the call. *)
Inductive phase : Type :=
  | Idle
  | Holding
  | Loaded (snapshot : Tracker.t)
  | Stored.

(** Modelled from the spec: a writer, with the events it has still to
    record, in its program order. *)
Record writer : Type := {
  todo : list Tracker.CallRecord;
  at_ : phase
}.

(** Modelled from the spec: the shared Tracker, its durable stores, the
    holder of its lock, and the writers. *)
Record state : Type := {
  ledger : Tracker.t;
  store : Tracker.Disk;
  lock : option nat;
  writers : list writer
}.

Definition held (l : option nat) : bool :=
  match l with
  | Some _ => true
  | None => false
  end.

(** Modelled from the spec: writer [i] is scheduled and does the next
    small step of its current [record] call. With [exclusive] it waits at
    the lock while another writer holds it; without, it goes ahead (that
    variant is there to show what the lock is for). Nothing happens when
    [i] has no event left. *)
Definition step (exclusive : bool) (i : nat) (s : state) : state :=
  match writers s !! i with
  | Some {| todo := event :: rest; at_ := ph |} =>
      match ph with
      | Idle =>
          if exclusive && held (lock s) then s
          else {| ledger := ledger s; store := store s; lock := Some i;
                  writers := <[i := {| todo := event :: rest; at_ := Holding |}]>
                               (writers s) |}
      | Holding =>
          {| ledger := ledger s; store := store s; lock := lock s;
             writers := <[i := {| todo := event :: rest; at_ := Loaded (ledger s) |}]>
                          (writers s) |}
      | Loaded snapshot =>
          {| ledger := fst (Tracker.record snapshot event (store s));
             store := snd (Tracker.record snapshot event (store s));
             lock := lock s;
             writers := <[i := {| todo := event :: rest; at_ := Stored |}]> (writers s) |}
      | Stored =>
          {| ledger := ledger s; store := store s; lock := None;
             writers := <[i := {| todo := rest; at_ := Idle |}]> (writers s) |}
      end
  | _ => s
  end.

(** Modelled from the spec: a schedule is the order in which the writers
    get to run, one small step each time. *)
Definition run (exclusive : bool) (schedule : list nat) (s : state) : state :=
  fold_left (fun s i => step exclusive i s) schedule s.

(** Every writer has issued all its calls. *)
Definition finished (s : state) : bool :=
  forallb (fun w => match todo w with [] => true | _ => false end) (writers s).

(** The writers start on a Tracker, each with its events. *)
Definition start (t : Tracker.t) (d : Tracker.Disk)
    (events : list (list Tracker.CallRecord)) : state :=
  {| ledger := t; store := d; lock := None;
     writers := map (fun p => {| todo := p; at_ := Idle |}) events |}.

(** The events of a writer that are not in the Tracker yet. *)
Definition remaining (w : writer) : list Tracker.CallRecord :=
  match at_ w with
  | Stored => tail (todo w)
  | _ => todo w
  end.

Definition outstanding (s : state) : list Tracker.CallRecord :=
  concat (map remaining (writers s)).

(** What holds at every moment of an exclusive run: a writer inside a call
    holds the lock and has an event at hand, and what it has read is still
    the Tracker as it is. *)
Record inv (s : state) : Prop := {
  inv_lock : forall i w, writers s !! i = Some w -> at_ w <> Idle ->
                         lock s = Some i /\ todo w <> [];
  inv_snapshot : forall i w snap, writers s !! i = Some w -> at_ w = Loaded snap ->
                                  snap = ledger s
}.

(** One schedule that lets every writer finish: each writer in turn runs
    all its calls, four small steps per call. *)
Fixpoint sequential (i : nat) (events : list (list Tracker.CallRecord)) : list nat :=
  match events with
  | [] => []
  | p :: rest => replicate (4 * length p) i ++ sequential (S i) rest
  end.

End Writers.

(** ** Tracker objects in the world *)

Module Trackers.
Import Py Run.

(** Modelled from the spec: [Tracker(persist_path)] allocates a new, empty
    Tracker; with a durable path it also creates the store when it does
    not exist yet (the tests find the file right after construction). *)
Definition new (persist_path : option string) : M tracker_id :=
  fun w =>
    let d := disk w in
    let d' :=
      match persist_path with
      | Some path =>
          if decide (path ∈ Tracker.failing d) then d
          else {| Tracker.stores :=
                    <[path := default [] (Tracker.stores d !! path)]> (Tracker.stores d);
                  Tracker.failing := Tracker.failing d |}
      | None => d
      end in
    (Ret (length (heap w)),
     set_heap (heap w ++ [Tracker.__init__ persist_path]) d' w).

(** Modelled from the spec: [tracker.record(event)] through a reference. A
    reference that points to no object cannot arise in Python; here such a
    call raises. *)
Definition record (self : tracker_id) (event : Tracker.CallRecord) : M unit :=
  fun w =>
    match heap w !! self with
    | None => (Raise ReferenceError, w)
    | Some t =>
        let '(t', d') := Tracker.record t event (disk w) in
        (Ret tt, set_heap (<[self := t']> (heap w)) d' w)
    end.

(** Modelled from the spec: [tracker.records()] through a reference. *)
Definition records (self : tracker_id) : M (list Tracker.CallRecord) :=
  fun w =>
    match heap w !! self with
    | None => (Raise ReferenceError, w)
    | Some t => (Ret (Tracker.records t), w)
    end.

(** Modelled from the spec: [get_global_tracker()], the process-wide
    default Tracker. *)
Definition get_global_tracker : M tracker_id :=
  fun w => (Ret (_global_tracker w), w).

(** Modelled from the spec: [set_global_tracker(t)]. *)
Definition set_global_tracker (t : tracker_id) : M unit :=
  modify (set_global t).

(** Modelled from the spec: [tracker.load_from_db()] through a reference. *)
Definition load_from_db (self : tracker_id) : M (list Tracker.CallRecord) :=
  fun w =>
    match heap w !! self with
    | None => (Raise ReferenceError, w)
    | Some t => (Ret (Tracker.load_from_db t (disk w)), w)
    end.

(** Modelled from the spec: a sequence of [record] calls through a
    reference, [for event in events: tracker.record(event)]. *)
Fixpoint record_all (self : tracker_id) (events : list Tracker.CallRecord) : M unit :=
  match events with
  | [] => ret tt
  | event :: rest => (record self event;; record_all self rest)%py
  end.

(** Modelled from the spec: [tracker.total_cost()] and
    [tracker.total_tokens()] through a reference. *)
Definition total_cost (self : tracker_id) : M Q :=
  fun w =>
    match heap w !! self with
    | None => (Raise ReferenceError, w)
    | Some t => (Ret (Tracker.total_cost t), w)
    end.

Definition total_tokens (self : tracker_id) : M Z :=
  fun w =>
    match heap w !! self with
    | None => (Raise ReferenceError, w)
    | Some t => (Ret (Tracker.total_tokens t), w)
    end.

(** Modelled from the spec: [tracker.reset()] through a reference. *)
Definition reset (self : tracker_id) : M unit :=
  fun w =>
    match heap w !! self with
    | None => (Raise ReferenceError, w)
    | Some t => (Ret tt, set_heap (<[self := Tracker.reset t]> (heap w)) (disk w) w)
    end.

(** The events a Tracker holds in a given world (none for a reference that
    points to no object). *)
Definition events (t : tracker_id) (w : World) : list Tracker.CallRecord :=
  match heap w !! t with
  | None => []
  | Some tr => Tracker.records tr
  end.

End Trackers.

(** ** providers/openai.py *)

Module OpenAI.
Import Py Run OpenAISdk OpenAIGlobals.

(** [patch(tracker, current_function)]. The closures keep the reference
    to the list, so they read it as it is when they run. *)
Definition patch (tracker : tracker_id) (current_function : list_ref)
    (g : OpenAIGlobals.t) : bool * OpenAIGlobals.t :=
  match sdk g with
  | None => (false, g)
  | Some m =>
      if _patched g then (true, g)
      else
        let original_create := Completions_create m in
        let '(acreate, original_acreate) :=
          match AsyncCompletions_create m with
          | Some a => (Some (PatchedACreate tracker current_function), Some a)
          | None => (None, _original_acreate g)
          end in
        (true,
         {| sdk := Some {| Completions_create := PatchedCreate tracker current_function;
                           AsyncCompletions_create := acreate |};
            _original_create := Some original_create;
            _original_acreate := original_acreate;
            _patched := true |})
  end.

(** [unpatch()]. *)
Definition unpatch (g : OpenAIGlobals.t) : OpenAIGlobals.t :=
  if negb (_patched g) then g
  else
    let sdk' :=
      match sdk g with
      | None => None
      | Some m =>
          let create :=
            match _original_create g with
            | Some o => o
            | None => Completions_create m
            end in
          let acreate :=
            match AsyncCompletions_create m with
            | None => None
            | Some a =>
                Some (match _original_acreate g with
                      | Some o => o
                      | None => a
                      end)
            end in
          Some {| Completions_create := create; AsyncCompletions_create := acreate |}
      end in
    {| sdk := sdk'; _original_create := None; _original_acreate := None;
       _patched := false |}.

(** [model.lower()] inside [pricing.calculate] needs a [str]. *)
Definition as_str (model : pyobj) : outcome string :=
  match model with
  | PStr s => Ret s
  | _ => Raise AttributeError
  end.

(** The body of the [try] block of [_record]. *)
Definition _record_body (tracker : tracker_id) (current_function : list_ref)
    (response : Response) (kwargs : Kwargs) (duration_ms : Q) (provider : string)
  : M unit :=
  let model := default (PStr "unknown") (kw_model kwargs) in
  usage <- lift (getattr (usage response) None);;
  match usage with
  | None => ret tt
  | Some usage =>
      input_tokens <- lift (getattr (prompt_tokens usage) (Some 0%Z));;
      let input_tokens := or_zero input_tokens in
      output_tokens <- lift (getattr (completion_tokens usage) (Some 0%Z));;
      let output_tokens := or_zero output_tokens in
      model_str <- lift (as_str model);;
      let cost := Pricing.calculate model_str input_tokens output_tokens in
      w <- get;;
      let stack := deref current_function w in
      let fn_name :=
        match stack with
        | [] => "<unknown>"
        | name :: _ => name
        end in
      Trackers.record tracker
        {| Tracker.function_name := fn_name;
           Tracker.call_stack := stack;
           Tracker.model := model_str;
           Tracker.provider := provider;
           Tracker.input_tokens := input_tokens;
           Tracker.output_tokens := output_tokens;
           Tracker.cost_usd := cost;
           Tracker.duration_ms := duration_ms |}
  end.

(** [_record]: the body under [try: ... except Exception: pass]. *)
Definition _record (tracker : tracker_id) (current_function : list_ref)
    (response : Response) (kwargs : Kwargs) (duration_ms : Q) (provider : string)
  : M unit :=
  try_except_pass
    (_record_body tracker current_function response kwargs duration_ms provider).

(** Calling the module global [_original_create], read when the call is
    made: [None] is not callable; a patched closure stored there would
    call the same global again without end. *)
Definition call_original_create (kwargs : Kwargs) : M Response :=
  fun w =>
    match _original_create (openai w) with
    | None => (Raise TypeError, w)
    | Some (SyncNative f) => (f kwargs, w)
    | Some (PatchedCreate _ _) => (Raise RecursionError, w)
    end.

Definition call_original_acreate (kwargs : Kwargs) : M Response :=
  fun w =>
    match _original_acreate (openai w) with
    | None => (Raise TypeError, w)
    | Some (AsyncNative f) => (f kwargs, w)
    | Some (PatchedACreate _ _) => (Raise RecursionError, w)
    end.

(** The closure [_patched_create]; [duration_ms] is the time the clock
    measures around the original call. *)
Definition _patched_create (tracker : tracker_id) (current_function : list_ref)
    (kwargs : Kwargs) (duration_ms : Q) : M Response :=
  response <- call_original_create kwargs;;
  _record tracker current_function response kwargs duration_ms "openai";;
  ret response.

(** The closure [_patched_acreate], awaited to completion. *)
Definition _patched_acreate (tracker : tracker_id) (current_function : list_ref)
    (kwargs : Kwargs) (duration_ms : Q) : M Response :=
  response <- call_original_acreate kwargs;;
  _record tracker current_function response kwargs duration_ms "openai";;
  ret response.

(** User code calling [create] on a [Completions] instance: whatever the class
    attribute is bound to at that moment runs. *)
Definition create (kwargs : Kwargs) (duration_ms : Q) : M Response :=
  fun w =>
    match sdk (openai w) with
    | None => (Raise ImportError, w)
    | Some m =>
        match Completions_create m with
        | SyncNative f => (f kwargs, w)
        | PatchedCreate tracker current_function =>
            _patched_create tracker current_function kwargs duration_ms w
        end
    end.

(** User code awaiting [create] on an [AsyncCompletions] instance. *)
Definition acreate (kwargs : Kwargs) (duration_ms : Q) : M Response :=
  fun w =>
    match sdk (openai w) with
    | None => (Raise ImportError, w)
    | Some m =>
        match AsyncCompletions_create m with
        | None => (Raise ImportError, w)
        | Some (AsyncNative f) => (f kwargs, w)
        | Some (PatchedACreate tracker current_function) =>
            _patched_acreate tracker current_function kwargs duration_ms w
        end
    end.

End OpenAI.

(** ** providers/google.py *)

Module Google.
Import Py Run GoogleSdk GoogleGlobals.

(** [patch(tracker, current_function)]. *)
Definition patch (tracker : tracker_id) (current_function : list_ref)
    (g : GoogleGlobals.t) : bool * GoogleGlobals.t :=
  match sdk g with
  | None => (false, g)
  | Some m =>
      if _patched g then (true, g)
      else
        (true,
         {| sdk := Some {| GenerativeModel_generate_content :=
                             PatchedGenerate tracker current_function |};
            _original_generate := Some (GenerativeModel_generate_content m);
            _patched := true |})
  end.

(** [unpatch()]. *)
Definition unpatch (g : GoogleGlobals.t) : GoogleGlobals.t :=
  if negb (_patched g) then g
  else
    let sdk' :=
      match sdk g with
      | None => None
      | Some m =>
          Some {| GenerativeModel_generate_content :=
                    match _original_generate g with
                    | Some o => o
                    | None => GenerativeModel_generate_content m
                    end |}
      end in
    {| sdk := sdk'; _original_generate := None; _patched := false |}.

(** ["/" in model_name] needs a [str]. *)
Definition as_str (model_name : pyobj) : outcome string :=
  match model_name with
  | PStr s => Ret s
  | _ => Raise TypeError
  end.

(** The body of the [try] block of [_record]. *)
Definition _record_body (tracker : tracker_id) (current_function : list_ref)
    (response : Response) (model_instance : GenerativeModel) (duration_ms : Q)
    (provider : string) : M unit :=
  model_name <- lift (getattr (model_name model_instance) (PStr "unknown"));;
  model_name <- lift (as_str model_name);;
  let model_name :=
    if PyStr.contains_char "/" model_name
    then PyStr.last_segment "/" model_name
    else model_name in
  usage <- lift (getattr (usage_metadata response) None);;
  match usage with
  | None => ret tt
  | Some usage =>
      input_tokens <- lift (getattr (prompt_token_count usage) (Some 0%Z));;
      let input_tokens := or_zero input_tokens in
      output_tokens <- lift (getattr (candidates_token_count usage) (Some 0%Z));;
      let output_tokens := or_zero output_tokens in
      let cost := Pricing.calculate model_name input_tokens output_tokens in
      w <- get;;
      let stack := deref current_function w in
      let fn_name :=
        match stack with
        | [] => "<unknown>"
        | name :: _ => name
        end in
      Trackers.record tracker
        {| Tracker.function_name := fn_name;
           Tracker.call_stack := stack;
           Tracker.model := model_name;
           Tracker.provider := provider;
           Tracker.input_tokens := input_tokens;
           Tracker.output_tokens := output_tokens;
           Tracker.cost_usd := cost;
           Tracker.duration_ms := duration_ms |}
  end.

(** [_record]: the body under [try: ... except Exception: pass]. *)
Definition _record (tracker : tracker_id) (current_function : list_ref)
    (response : Response) (model_instance : GenerativeModel) (duration_ms : Q)
    (provider : string) : M unit :=
  try_except_pass
    (_record_body tracker current_function response model_instance duration_ms provider).

(** Calling the module global [_original_generate]. *)
Definition call_original_generate (self : GenerativeModel) : M Response :=
  fun w =>
    match _original_generate (google w) with
    | None => (Raise TypeError, w)
    | Some (Native f) => (f self, w)
    | Some (PatchedGenerate _ _) => (Raise RecursionError, w)
    end.

(** The closure [_patched_generate]. *)
Definition _patched_generate (tracker : tracker_id) (current_function : list_ref)
    (self : GenerativeModel) (duration_ms : Q) : M Response :=
  response <- call_original_generate self;;
  _record tracker current_function response self duration_ms "google";;
  ret response.

(** User code calling [generate_content] on a model instance. *)
Definition generate_content (self : GenerativeModel) (duration_ms : Q) : M Response :=
  fun w =>
    match sdk (google w) with
    | None => (Raise ImportError, w)
    | Some m =>
        match GenerativeModel_generate_content m with
        | Native f => (f self, w)
        | PatchedGenerate tracker current_function =>
            _patched_generate tracker current_function self duration_ms w
        end
    end.

End Google.

(** ** providers/anthropic.py *)

Module Anthropic.
Import AnthropicGlobals.

(** Modelled from the spec: [patch], idempotent like the two providers in
    the sources, saving [Messages.create] and installing a closure. *)
Definition patch (tracker : tracker_id) (current_function : list_ref)
    (g : AnthropicGlobals.t) : bool * AnthropicGlobals.t :=
  match sdk g with
  | None => (false, g)
  | Some m =>
      if _patched g then (true, g)
      else (true, {| sdk := Some (PatchedCreate tracker current_function);
                     _original_create := Some m;
                     _patched := true |})
  end.

(** Modelled from the spec: [unpatch], restoring the saved function. *)
Definition unpatch (g : AnthropicGlobals.t) : AnthropicGlobals.t :=
  if negb (_patched g) then g
  else {| sdk := match sdk g with
                 | None => None
                 | Some m => Some (default m (_original_create g))
                 end;
          _original_create := None;
          _patched := false |}.

End Anthropic.

(** ** interceptor.py *)

Module Interceptor.
Import Py Run.

(** [activate(tracker=None)]. *)
Definition activate (tracker : option tracker_id) : M unit :=
  tracker <- match tracker with
             | None => Trackers.get_global_tracker
             | Some t => ret t
             end;;
  modify (fun w =>
    let o := snd (OpenAI.patch tracker interceptor_current_function (openai w)) in
    let a := snd (Anthropic.patch tracker interceptor_current_function (anthropic w)) in
    let g := snd (Google.patch tracker interceptor_current_function (google w)) in
    set_providers true o a g w).

(** [deactivate()]. *)
Definition deactivate : M unit :=
  modify (fun w =>
    let o := OpenAI.unpatch (openai w) in
    let a := Anthropic.unpatch (anthropic w) in
    let g := Google.unpatch (google w) in
    set_providers false o a g w).

(** [set_current_function(name)]: [_current_function[0] = name]. *)
Definition set_current_function (name : string) : M unit :=
  fun w =>
    match _current_function w !! 0%nat with
    | None => (Raise IndexError, w)
    | Some _ => (Ret tt, set_cell (<[0%nat := name]> (_current_function w)) w)
    end.

(** [get_current_function()]: [_current_function[0]]. *)
Definition get_current_function : M string :=
  fun w =>
    match _current_function w !! 0%nat with
    | None => (Raise IndexError, w)
    | Some name => (Ret name, w)
    end.

(** [is_active()]. *)
Definition is_active : M bool := fun w => (Ret (_active w), w).

End Interceptor.

(** ** profiler.py *)

Module Session.
Import Py Run.

Record t : Type := {
  name : string;
  _tracker : tracker_id;
  _records : list Tracker.CallRecord
}.

(** [Session(name)]: a fresh Tracker of its own. *)
Definition __init__ (name : string) : M t :=
  tr <- Trackers.new None;;
  ret {| name := name; _tracker := tr; _records := [] |}.

(** [__enter__]. *)
Definition __enter__ (self : t) : M t :=
  Interceptor.activate (Some (_tracker self));;
  Interceptor.set_current_function (name self);;
  ret self.

(** [__exit__]; the result is the object after the assignment to
    [self._records]. *)
Definition __exit__ (self : t) : M t :=
  recs <- Trackers.records (_tracker self);;
  Interceptor.deactivate;;
  ret {| name := name self; _tracker := _tracker self; _records := recs |}.

(** [with self: body]: [__exit__] runs however the body ends and lets an
    exception of the body through. *)
Definition with_ {A} (self : t) (body : t -> M A) : M (A * t) :=
  self <- __enter__ self;;
  fun w =>
    match body self w with
    | (r, w') =>
        match __exit__ self w' with
        | (Ret self', w'') =>
            (match r with
             | Ret a => Ret (a, self')
             | Raise e => Raise e
             end, w'')
        | (Raise e, w'') => (Raise e, w'')
        end
    end.

(** The [calls] property. *)
Definition calls (self : t) : nat := length (_records self).

(** The [cost] property:
    [self._tracker.total_cost() or sum(r.cost_usd for r in self._records)]. *)
Definition cost (self : t) : M Q :=
  total <- Trackers.total_cost (_tracker self);;
  ret (or_Q total (sum_Q (map Tracker.cost_usd (_records self)))).

(** The [tokens] property:
    [self._tracker.total_tokens() or sum(r.total_tokens for r in self._records)]. *)
Definition tokens (self : t) : M Z :=
  total <- Trackers.total_tokens (_tracker self);;
  ret (or_Z total (sum_Z (map Tracker.total_tokens_of (_records self)))).

End Session.

Module Profiler.
Import Py Run.

(** The [wrapper] that [profile(func)] returns, applied to its arguments;
    [qualname] is [func.__qualname__] and [func] the call of the wrapped
    function. *)
Definition profile {A} (qualname : string) (func : M A) : M A :=
  g <- Trackers.get_global_tracker;;
  Interceptor.activate (Some g);;
  prev <- Interceptor.get_current_function;;
  Interceptor.set_current_function qualname;;
  try_finally func (Interceptor.set_current_function prev).

(** [session(name)] used as [with session(name) as s: body]. *)
Definition session {A} (name : string) (body : Session.t -> M A) : M (A * Session.t) :=
  s <- Session.__init__ name;;
  Session.with_ s body.

(** [init(persist, persist_dir)]; [home] is the user's home directory. *)
Definition init (home : string) (persist : bool) (persist_dir : option string) : M unit :=
  tracker <- (if persist then
                let db_dir :=
                  match persist_dir with
                  | None | Some EmptyString => String.append home "/.tokenspy"
                  | Some dir => dir
                  end in
                Trackers.new (Some (String.append db_dir "/usage.db"))
              else Trackers.new None);;
  Trackers.set_global_tracker tracker;;
  Interceptor.activate (Some tracker).

End Profiler.

(** ** Derived worlds and sample data used in the statements *)

(** The world once [activate(t)] has run. *)
Definition activated (t : tracker_id) (w : World) : World :=
  set_providers true
    (snd (OpenAI.patch t interceptor_current_function (openai w)))
    (snd (Anthropic.patch t interceptor_current_function (anthropic w)))
    (snd (Google.patch t interceptor_current_function (google w))) w.

(** The world in which the function wrapped by [profile] starts to run:
    the interceptors activated for the global Tracker and the function's
    name written into slot 0 of the shared list. *)
Definition entered (qualname : string) (w : World) : World :=
  set_cell (<[0%nat := qualname]> (_current_function w))
           (activated (_global_tracker w) w).

(** The world once [deactivate()] has run. *)
Definition deactivated (w : World) : World :=
  set_providers false (OpenAI.unpatch (openai w))
    (Anthropic.unpatch (anthropic w)) (Google.unpatch (google w)) w.

(** The world once Tracker [t], whose object is [tr], has recorded
    [event]. *)
Definition recorded (t : tracker_id) (tr : Tracker.t) (event : Tracker.CallRecord)
    (w : World) : World :=
  set_heap (<[t := fst (Tracker.record tr event (disk w))]> (heap w))
           (snd (Tracker.record tr event (disk w))) w.

(** The world once [Tracker()] has allocated a new, empty Tracker. *)
Definition allocated (w : World) : World :=
  set_heap (heap w ++ [Tracker.__init__ None]) (disk w) w.

(** The globals of [providers/openai.py] as the module defines them at
    import time, next to an SDK module [m]. *)
Definition openai_initial (m : OpenAISdk.completions) : OpenAIGlobals.t :=
  {| OpenAIGlobals.sdk := Some m;
     OpenAIGlobals._original_create := None;
     OpenAIGlobals._original_acreate := None;
     OpenAIGlobals._patched := false |}.

(** The globals of [providers/openai.py] while a patch built for Tracker
    [t] is installed over the SDK functions [f] and [a]. *)
Definition openai_patched (t : tracker_id) (f : OpenAISdk.sync_method)
    (a : option OpenAISdk.async_method) : OpenAIGlobals.t :=
  {| OpenAIGlobals.sdk :=
       Some {| OpenAISdk.Completions_create :=
                 OpenAISdk.PatchedCreate t interceptor_current_function;
               OpenAISdk.AsyncCompletions_create :=
                 match a with
                 | Some _ => Some (OpenAISdk.PatchedACreate t interceptor_current_function)
                 | None => None
                 end |};
     OpenAIGlobals._original_create := Some f;
     OpenAIGlobals._original_acreate := a;
     OpenAIGlobals._patched := true |}.

Module Scenario.
Import Py OpenAISdk.

(** A well-formed usage payload and response, and the keyword arguments
    of a call that names its model. *)
Definition usage_of (i o : Z) : Usage :=
  {| prompt_tokens := Value (Some i); completion_tokens := Value (Some o) |}.

Definition response_of (i o : Z) (text : string) : Response :=
  {| usage := Value (Some (usage_of i o)); content := text |}.

Definition kwargs_of (model : string) : Kwargs :=
  {| kw_model := Some (PStr model) |}.

(** The event [_record] builds for such a call made while the shared list
    is [stack]. *)
Definition event_of (stack : list string) (model : string) (i o : Z) (d : Q)
  : Tracker.CallRecord :=
  {| Tracker.function_name :=
       match stack with
       | [] => "<unknown>"
       | name :: _ => name
       end;
     Tracker.call_stack := stack;
     Tracker.model := model;
     Tracker.provider := "openai";
     Tracker.input_tokens := or_zero (Some i);
     Tracker.output_tokens := or_zero (Some o);
     Tracker.cost_usd := Pricing.calculate model (or_zero (Some i)) (or_zero (Some o));
     Tracker.duration_ms := d |}.

(** An SDK function that answers every call with the same completion. *)
Definition stub_create (kwargs : Kwargs) : outcome Response :=
  Ret (response_of 1000 200 "ok").

Definition sdk_stub : completions :=
  {| Completions_create := SyncNative stub_create;
     AsyncCompletions_create := Some (AsyncNative stub_create) |}.

(** A process right after import: one empty global Tracker, nothing
    patched, the OpenAI and Anthropic SDKs installed, Google's not. *)
Definition fresh : World :=
  {| heap := [Tracker.__init__ None];
     disk := {| Tracker.stores := ∅; Tracker.failing := ∅ |};
     _global_tracker := 0%nat;
     _current_function := ["<unknown>"];
     _active := false;
     openai := openai_initial sdk_stub;
     anthropic := {| AnthropicGlobals.sdk := Some (AnthropicGlobals.Native 0);
                     AnthropicGlobals._original_create := None;
                     AnthropicGlobals._patched := false |};
     google := {| GoogleGlobals.sdk := None;
                  GoogleGlobals._original_generate := None;
                  GoogleGlobals._patched := false |} |}.

(** A Google SDK whose function answers with a fixed response. *)
Definition google_stub : GoogleSdk.generativeai :=
  {| GoogleSdk.GenerativeModel_generate_content :=
       GoogleSdk.Native (fun _ =>
         Ret {| GoogleSdk.usage_metadata := Missing; GoogleSdk.content := "ok" |}) |}.

Definition google_initial : GoogleGlobals.t :=
  {| GoogleGlobals.sdk := Some google_stub;
     GoogleGlobals._original_generate := None;
     GoogleGlobals._patched := false |}.

(** One provider call, as user code makes it. *)
Definition call : Run.M Response :=
  OpenAI.create (kwargs_of "gpt-4o") 12%Q.

(** A profiled function has run once; then a session makes a call. *)
Definition session_after_profile : Run.M (Response * Session.t) :=
  (Profiler.profile "warmup" (Run.ret tt);;
   Profiler.session "s" (fun _ => call))%py.

(** Two sessions overlap; the call is made under the second one. *)
Definition overlapping_sessions : Run.M ((Response * Session.t) * Session.t) :=
  Profiler.session "one" (fun _ => Profiler.session "two" (fun _ => call)).

(** An inner session ends while the outer one is still open; the outer
    one then makes a call. *)
Definition call_after_inner_session : Run.M (Response * Session.t) :=
  Profiler.session "outer" (fun _ =>
    (Profiler.session "inner" (fun _ => Run.ret tt);;
     call)%py).

(** Profiled "A" calls profiled "B", which makes a call; then "A" makes
    one itself. *)
Definition nested_profiles : Run.M Response :=
  Profiler.profile "A" (Profiler.profile "B" call;; call)%py.

(** The world in which session "outer" is open and session "inner" has
    just been entered inside it, and the inner session object. *)
Definition inside_two_sessions : World :=
  snd ((outer <- Session.__init__ "outer";;
        Session.__enter__ outer;;
        inner <- Session.__init__ "inner";;
        Session.__enter__ inner)%py fresh).

Definition inner_session : Session.t :=
  {| Session.name := "inner"; Session._tracker := 2%nat; Session._records := [] |}.

(** Record [events] through a Tracker bound to the store at [path], then
    open a second Tracker on the same store and load from it. *)
Definition persist_then_load (path : string) (events : list Tracker.CallRecord)
  : Run.M (list Tracker.CallRecord) :=
  (t <- Trackers.new (Some path);;
   Trackers.record_all t events;;
   t2 <- Trackers.new (Some path);;
   Trackers.load_from_db t2)%py.

(** Sample events. *)
Definition event (fn : string) (i o : Z) (cost : Q) : Tracker.CallRecord :=
  {| Tracker.function_name := fn; Tracker.call_stack := [fn];
     Tracker.model := "gpt-4o"; Tracker.provider := "openai";
     Tracker.input_tokens := i; Tracker.output_tokens := o;
     Tracker.cost_usd := cost; Tracker.duration_ms := 350%Q |}.

End Scenario.

(** ** More derived worlds and sample data *)

(** The world in which the body of [with session: ...] starts to run: the
    interceptors activated for the session's Tracker and the session's
    name written into slot 0 of the shared list. *)
Definition session_entered (self : Session.t) (w : World) : World :=
  set_cell (<[0%nat := Session.name self]> (_current_function w))
           (activated (Session._tracker self) w).

(** The globals of [providers/google.py] while a patch built for Tracker
    [t] is installed over the SDK function [f]. *)
Definition google_patched (t : tracker_id) (f : GoogleSdk.method) : GoogleGlobals.t :=
  {| GoogleGlobals.sdk :=
       Some {| GoogleSdk.GenerativeModel_generate_content :=
                 GoogleSdk.PatchedGenerate t interceptor_current_function |};
     GoogleGlobals._original_generate := Some f;
     GoogleGlobals._patched := true |}.

Module Client.
Import Py.

(** One chat-completion call of user code: the model it names, the token
    counts and text the provider answers with, and the time it takes. *)
Record call : Type := {
  call_model : string;
  call_input : Z;
  call_output : Z;
  call_text : string;
  call_ms : Q
}.

Definition kwargs_for (c : call) : OpenAISdk.Kwargs :=
  Scenario.kwargs_of (call_model c).

Definition answer_to (c : call) : OpenAISdk.Response :=
  Scenario.response_of (call_input c) (call_output c) (call_text c).

(** The event [_record] builds for the call while the shared list is
    [stack]. *)
Definition event_for (stack : list string) (c : call) : Tracker.CallRecord :=
  Scenario.event_of stack (call_model c) (call_input c) (call_output c) (call_ms c).

(** User code making the calls one after the other. *)
Fixpoint make_calls (calls : list call) : Run.M unit :=
  match calls with
  | [] => Run.ret tt
  | c :: rest => (OpenAI.create (kwargs_for c) (call_ms c);; make_calls rest)%py
  end.

(** A well-formed Gemini response and the event [_record] builds for it. *)
Definition gemini_response (i o : Z) (text : string) : GoogleSdk.Response :=
  {| GoogleSdk.usage_metadata :=
       Value (Some {| GoogleSdk.prompt_token_count := Value (Some i);
                      GoogleSdk.candidates_token_count := Value (Some o) |});
     GoogleSdk.content := text |}.

Definition gemini_model (name : string) : GoogleSdk.GenerativeModel :=
  {| GoogleSdk.model_name := Value (PStr name) |}.

Definition gemini_event (stack : list string) (model : string) (i o : Z) (d : Q)
  : Tracker.CallRecord :=
  {| Tracker.function_name :=
       match stack with
       | [] => "<unknown>"
       | name :: _ => name
       end;
     Tracker.call_stack := stack;
     Tracker.model := model;
     Tracker.provider := "google";
     Tracker.input_tokens := or_zero (Some i);
     Tracker.output_tokens := or_zero (Some o);
     Tracker.cost_usd := Pricing.calculate model (or_zero (Some i)) (or_zero (Some o));
     Tracker.duration_ms := d |}.

(** The path of the store [init(persist=True, persist_dir=...)] binds. *)
Definition db_path (home : string) (persist_dir : option string) : string :=
  String.append
    (match persist_dir with
     | None | Some EmptyString => String.append home "/.tokenspy"
     | Some dir => dir
     end) "/usage.db".

End Client.

(** ** Code that makes calls *)

Module Prog.
Import Py Run.

(** Synchronous user code that talks to the OpenAI SDK: a sequence of
    [Completions.create] calls and of calls of [@profile]-decorated
    functions, whose bodies are code of the same kind. *)
Inductive t : Type :=
  | Done
  | Call (c : Client.call) (next : t)
  | Profiled (qualname : string) (body : t) (next : t).

(** Running the code. *)
Fixpoint run (p : t) : M unit :=
  match p with
  | Done => ret tt
  | Call c next =>
      OpenAI.create (Client.kwargs_for c) (Client.call_ms c);; run next
  | Profiled qualname body next =>
      Profiler.profile qualname (run body);; run next
  end.

(** The calls the code makes, in the order in which it makes them. *)
Fixpoint calls (p : t) : list Client.call :=
  match p with
  | Done => []
  | Call c next => c :: calls next
  | Profiled _ body next => calls body ++ calls next
  end.

(** The events of those calls when the code starts with the interceptor's
    list being [stack]: a call is attributed to what the list holds when
    it is made, and a profiled function has its name in slot 0 for the
    time of its body. *)
Fixpoint events (stack : list string) (p : t) : list Tracker.CallRecord :=
  match p with
  | Done => []
  | Call c next => Client.event_for stack c :: events stack next
  | Profiled qualname body next =>
      events (<[0%nat := qualname]> stack) body ++ events stack next
  end.

(** The SDK function answers every call of the code with a response that
    carries the call's usage. *)
Definition answered (f : OpenAISdk.Kwargs -> outcome OpenAISdk.Response) (p : t) : Prop :=
  forall c, In c (calls p) -> f (Client.kwargs_for c) = Ret (Client.answer_to c).

End Prog.

(** ** tests/conftest.py *)

Module Conftest.
Import Py Run.

(** The set-up half of the autouse fixture [reset_global_tracker]: a new
    global Tracker, and the flags and saved functions of the interceptor
    and of the OpenAI and Anthropic provider modules assigned directly.
    The SDK classes, [_original_acreate] and the Google module are left
    as they are. *)
Definition reset_global_tracker : M unit :=
  t <- Trackers.new None;;
  Trackers.set_global_tracker t;;
  modify (fun w =>
    set_providers false
      {| OpenAIGlobals.sdk := OpenAIGlobals.sdk (openai w);
         OpenAIGlobals._original_create := None;
         OpenAIGlobals._original_acreate := OpenAIGlobals._original_acreate (openai w);
         OpenAIGlobals._patched := false |}
      {| AnthropicGlobals.sdk := AnthropicGlobals.sdk (anthropic w);
         AnthropicGlobals._original_create := None;
         AnthropicGlobals._patched := false |}
      (google w) w).

End Conftest.

(** ** optimizer.py *)

Module Optimizer.
Import Py.

Definition CALLS_PER_MINUTE_DEFAULT : Q := 5.
Definition MINUTES_PER_MONTH : Q := inject_Z (60 * 8 * 22).

(** The exceptions the arithmetic and the dict lookup of this module can
    raise. *)
Inductive raised : Type :=
  | ZeroDivisionError
  | KeyError.

Inductive result (A : Type) : Type :=
  | Ok (a : A)
  | Err (e : raised).
Arguments Ok {A} a.
Arguments Err {A} e.

Definition and_then {A B} (r : result A) (k : A -> result B) : result B :=
  match r with
  | Ok a => k a
  | Err e => Err e
  end.

(** [x > y] and [x < y] on numbers. *)
Definition gt (x y : Q) : bool := negb (Qle_bool x y).
Definition lt (x y : Q) : bool := negb (Qle_bool y x).

(** [x / y]: true division, which raises when the divisor is zero. *)
Definition true_div (x y : Q) : result Q :=
  if Qeq_bool y 0 then Err ZeroDivisionError else Ok (x / y)%Q.

(** The text of a suggestion: the f-string that builds it and the values
    it formats (the rendering of a number as digits is not modelled). *)
Inductive suggestion_text : Type :=
  | SwitchTo (alt_model : string) (percent_cheaper : Q)
  | LargeInput (avg_input : Q)
  | LongOutput (avg_output : Q)
  | ShortOutput (avg_output : Q) (alt_model : string).

(** The dataclass [Hint]. *)
Record Hint : Type := {
  function_name : string;
  current_model : string;
  suggestion : suggestion_text;
  monthly_savings_usd : option Q;
  severity : string
}.

(** [groups.setdefault(key, []).append(r)] on an insertion-ordered dict. *)
Fixpoint setdefault_append (key : string * string) (r : Tracker.CallRecord)
    (groups : list ((string * string) * list Tracker.CallRecord))
  : list ((string * string) * list Tracker.CallRecord) :=
  match groups with
  | [] => [(key, [r])]
  | (k, recs) :: rest =>
      if String.eqb (fst key) (fst k) && String.eqb (snd key) (snd k)
      then (k, recs ++ [r]) :: rest
      else (k, recs) :: setdefault_append key r rest
  end.

(** The grouping loop: by function and model, in order of first
    appearance. *)
Definition group_records (records : list Tracker.CallRecord)
  : list ((string * string) * list Tracker.CallRecord) :=
  fold_left (fun groups r =>
               setdefault_append (Tracker.function_name r, Tracker.model r) r groups)
            records [].

(** [if alt_model:], where [None] and the empty string are falsy. *)
Definition truthy (alt_model : option string) : option string :=
  match alt_model with
  | Some EmptyString => None
  | other => other
  end.

(** The body of the loop over the groups: the hints one group adds. *)
Definition group_hints (calls_per_minute : Q) (fn model : string)
    (recs : list Tracker.CallRecord) : result (list Hint) :=
  let len := inject_Z (Z.of_nat (length recs)) in
  and_then (true_div (inject_Z (sum_Z (map Tracker.input_tokens recs))) len)
    (fun avg_input =>
  and_then (true_div (inject_Z (sum_Z (map Tracker.output_tokens recs))) len)
    (fun avg_output =>
  let total_cost := sum_Q (map Tracker.cost_usd recs) in
  and_then (true_div total_cost len) (fun avg_cost =>
  let monthly_calls := (calls_per_minute * MINUTES_PER_MONTH)%Q in
  let monthly_cost := (avg_cost * monthly_calls)%Q in
  and_then
    match truthy (Pricing.get_cheaper_alternative model) with
    | Some alt_model =>
        let alt_cost :=
          Pricing.calculate alt_model (int_of avg_input) (int_of avg_output) in
        let alt_monthly := (alt_cost * monthly_calls)%Q in
        let savings := (monthly_cost - alt_monthly)%Q in
        let severity :=
          if gt savings 100 then "high"
          else if gt savings 20 then "medium"
          else "low" in
        and_then (true_div savings monthly_cost) (fun ratio =>
        Ok [ {| function_name := fn;
                current_model := model;
                suggestion := SwitchTo alt_model (ratio * 100)%Q;
                monthly_savings_usd := Some savings;
                severity := severity |} ])
    | None => Ok []
    end (fun cheaper =>
  let large_input :=
    if gt avg_input 4000
    then [ {| function_name := fn;
              current_model := model;
              suggestion := LargeInput avg_input;
              monthly_savings_usd := None;
              severity := if gt avg_input 10000 then "high" else "medium" |} ]
    else [] in
  let long_output :=
    if gt avg_output 2000
    then [ {| function_name := fn;
              current_model := model;
              suggestion := LongOutput avg_output;
              monthly_savings_usd := None;
              severity := "low" |} ]
    else [] in
  let short_output :=
    if lt avg_output 200 then
      match truthy (Pricing.get_cheaper_alternative model) with
      | Some alt_model =>
          [ {| function_name := fn;
               current_model := model;
               suggestion := ShortOutput avg_output alt_model;
               monthly_savings_usd := None;
               severity := "low" |} ]
      | None => []
      end
    else [] in
  Ok (cheaper ++ large_input ++ long_output ++ short_output))))).

(** The loop over [groups.items()]: the first exception ends it. *)
Fixpoint all_hints (calls_per_minute : Q)
    (groups : list ((string * string) * list Tracker.CallRecord))
  : result (list Hint) :=
  match groups with
  | [] => Ok []
  | ((fn, model), recs) :: rest =>
      and_then (group_hints calls_per_minute fn model recs) (fun hints =>
      and_then (all_hints calls_per_minute rest) (fun more =>
      Ok (hints ++ more)))
  end.

(** The sort key: the severity's rank, looked up in a three-entry dict,
    and [-(h.monthly_savings_usd or 0)]. *)
Definition severity_rank (severity : string) : result Z :=
  match Pricing.dict_get [("high", 0%Z); ("medium", 1%Z); ("low", 2%Z)] severity with
  | Some rank => Ok rank
  | None => Err KeyError
  end.

Definition sort_key (h : Hint) : result (Z * Q) :=
  and_then (severity_rank (severity h)) (fun rank =>
  Ok (rank, (- or_Q (default 0%Q (monthly_savings_usd h)) 0)%Q)).

(** [sorted] computes the key of every element before it compares any. *)
Fixpoint with_keys (hints : list Hint) : result (list ((Z * Q) * Hint)) :=
  match hints with
  | [] => Ok []
  | h :: rest =>
      and_then (sort_key h) (fun key =>
      and_then (with_keys rest) (fun keyed =>
      Ok ((key, h) :: keyed)))
  end.

(** The order of the key tuples, [a <= b]. *)
Definition key_le (a b : Z * Q) : bool :=
  (fst a <? fst b)%Z || ((fst a =? fst b)%Z && Qle_bool (snd a) (snd b)).

(** [generate_hints(tracker, calls_per_minute)]. *)
Definition generate_hints (tracker : Tracker.t) (calls_per_minute : Q)
  : result (list Hint) :=
  let records := Tracker.records tracker in
  match records with
  | [] => Ok []
  | _ =>
      and_then (all_hints calls_per_minute (group_records records)) (fun hints =>
      and_then (with_keys hints) (fun keyed =>
      Ok (map snd (PyList.sorted (fun a b => key_le (fst a) (fst b)) keyed))))
  end.

(** The key of the group a record falls into, the step of the grouping
    loop, and dict lookup in the groups. *)
Definition record_key (r : Tracker.CallRecord) : string * string :=
  (Tracker.function_name r, Tracker.model r).

Definition group_step (groups : list ((string * string) * list Tracker.CallRecord))
    (r : Tracker.CallRecord) : list ((string * string) * list Tracker.CallRecord) :=
  setdefault_append (record_key r) r groups.

Fixpoint groups_get (groups : list ((string * string) * list Tracker.CallRecord))
    (key : string * string) : option (list Tracker.CallRecord) :=
  match groups with
  | [] => None
  | (k, recs) :: rest =>
      if String.eqb (fst key) (fst k) && String.eqb (snd key) (snd k)
      then Some recs else groups_get rest key
  end.

(** The record belongs to the group with this key. *)
Definition same_group (key : string * string) (r : Tracker.CallRecord) : bool :=
  String.eqb (Tracker.function_name r) (fst key) && String.eqb (Tracker.model r) (snd key).

(** The records that fall into the same group as [r]: same function, same
    model, in recording order. *)
Definition group_of (r : Tracker.CallRecord) (records : list Tracker.CallRecord)
  : list Tracker.CallRecord :=
  List.filter (same_group (record_key r)) records.

(** [monthly_cost] as the loop body computes it for the records of a
    group. *)
Definition monthly_cost (calls_per_minute : Q) (recs : list Tracker.CallRecord) : Q :=
  (sum_Q (map Tracker.cost_usd recs) / inject_Z (Z.of_nat (length recs))
   * (calls_per_minute * MINUTES_PER_MONTH))%Q.

(** The three severities. *)
Definition severities : list string := ["high"; "medium"; "low"].

(** One hint is not after another in the sorted result: both have a sort
    key, and the first key is not greater. *)
Definition not_after (a b : Hint) : Prop :=
  exists ka kb, sort_key a = Ok ka /\ sort_key b = Ok kb /\ key_le ka kb = true.

(** A hint of the group of [fn] and [model] with a severity that exists. *)
Definition hint_for (fn model : string) (h : Hint) : Prop :=
  function_name h = fn /\ current_model h = model /\ In (severity h) severities.

(** A group on which the loop body divides by zero: its model has a
    cheaper alternative and its monthly cost is zero. *)
Definition raising (cpm : Q) (g : (string * string) * list Tracker.CallRecord) : Prop :=
  truthy (Pricing.get_cheaper_alternative (snd (fst g))) <> None /\
  (monthly_cost cpm (snd g) == 0)%Q.

(** A hint with a severity that exists, of one of the groups. *)
Definition hint_from (groups : list ((string * string) * list Tracker.CallRecord))
    (h : Hint) : Prop :=
  In (severity h) severities /\
  exists g, In g groups /\ function_name h = fst (fst g) /\ current_model h = snd (fst g).

End Optimizer.

(** ** flamegraph.py *)

Module Flamegraph.
Import Py.

(** The two block characters a bar is made of. *)
Inductive block : Type :=
  | Full
  | Light.

(** [c * n] for a one-character string: empty when [n] is not positive. *)
Definition times (c : block) (n : Z) : list block := replicate (Z.to_nat n) c.

(** [_bar(pct, width)]. *)
Definition _bar (pct : Q) (width : Z) : list block :=
  let filled := int_of (pct / 100 * inject_Z width)%Q in
  times Full filled ++ times Light (width - filled).

End Flamegraph.

(** ** Further notions used in the statements *)

(** An entry of [CHEAPER_ALTERNATIVES] names two models of the pricing
    table, the second with lower rates for input and for output. *)
Definition cheaper_entry (entry : string * string) : Prop :=
  exists r a,
    Pricing.dict_get Pricing.PRICING (fst entry) = Some r /\
    Pricing.dict_get Pricing.PRICING (snd entry) = Some a /\
    PyStr.lower (snd entry) = snd entry /\
    (fst a < fst r)%Q /\ (snd a < snd r)%Q.

(** The Tracker [activate(tracker)] works with. *)
Definition resolve (tracker : option tracker_id) (w : World) : tracker_id :=
  match tracker with
  | None => _global_tracker w
  | Some t => t
  end.

(** The path [init] binds, if any, and the world once the Tracker it
    constructs has been allocated. *)
Definition init_path (home : string) (persist : bool) (persist_dir : option string)
  : option string :=
  if persist then Some (Client.db_path home persist_dir) else None.

Definition init_allocated (path : option string) (w : World) : World :=
  snd (Trackers.new path w).

(** ** Sample data for the further properties *)

Module Sample.
Import Py.

(** An SDK function as the stubs of the tests define it: it raises. *)
Definition unavailable {A B : Type} (_ : A) : outcome B :=
  Raise (UserError "real openai not available in tests").

(** The process right after import, once the interceptors have been
    activated for the global Tracker. *)
Definition patched : World := activated 0%nat Scenario.fresh.

(** A process in which the OpenAI and the Google patch are installed for
    the global Tracker over SDK functions that raise. *)
Definition stubbed : World :=
  {| heap := [Tracker.__init__ None];
     disk := disk Scenario.fresh;
     _global_tracker := 0%nat;
     _current_function := ["<unknown>"];
     _active := true;
     openai := openai_patched 0%nat (OpenAISdk.SyncNative unavailable)
                 (Some (OpenAISdk.AsyncNative unavailable));
     anthropic := anthropic Scenario.fresh;
     google := google_patched 0%nat (GoogleSdk.Native unavailable) |}.

(** A process in which the Google patch is installed over an SDK function
    that answers every call with the same response. *)
Definition gemini : World :=
  {| heap := [Tracker.__init__ None];
     disk := disk Scenario.fresh;
     _global_tracker := 0%nat;
     _current_function := ["<unknown>"];
     _active := true;
     openai := openai Scenario.fresh;
     anthropic := anthropic Scenario.fresh;
     google := google_patched 0%nat
                 (GoogleSdk.Native (fun _ => Ret (Client.gemini_response 1200 300 "ok"))) |}.

(** Two calls that the stub of [Scenario] answers. *)
Definition two_calls : list Client.call :=
  [ {| Client.call_model := "gpt-4o"; Client.call_input := 1000;
       Client.call_output := 200; Client.call_text := "ok"; Client.call_ms := 12%Q |};
    {| Client.call_model := "gpt-4o-mini"; Client.call_input := 1000;
       Client.call_output := 200; Client.call_text := "ok"; Client.call_ms := 7%Q |} ].

(** A session object bound to the global Tracker of [Scenario.fresh]. *)
Definition session : Session.t :=
  {| Session.name := "s"; Session._tracker := 0%nat; Session._records := [] |}.

(** A Tracker that holds calls of two functions. *)
Definition ledger : Tracker.t :=
  {| Tracker._records :=
       [ {| Tracker.function_name := "summarize"; Tracker.call_stack := ["summarize"];
            Tracker.model := "gpt-4o"; Tracker.provider := "openai";
            Tracker.input_tokens := 12000; Tracker.output_tokens := 150;
            Tracker.cost_usd := Pricing.calculate "gpt-4o" 12000 150;
            Tracker.duration_ms := 900%Q |};
         {| Tracker.function_name := "chat"; Tracker.call_stack := ["chat"];
            Tracker.model := "gpt-4o-mini"; Tracker.provider := "openai";
            Tracker.input_tokens := 500; Tracker.output_tokens := 2500;
            Tracker.cost_usd := Pricing.calculate "gpt-4o-mini" 500 2500;
            Tracker.duration_ms := 700%Q |};
         {| Tracker.function_name := "summarize"; Tracker.call_stack := ["summarize"];
            Tracker.model := "gpt-4o"; Tracker.provider := "openai";
            Tracker.input_tokens := 9000; Tracker.output_tokens := 100;
            Tracker.cost_usd := Pricing.calculate "gpt-4o" 9000 100;
            Tracker.duration_ms := 800%Q |} ];
     Tracker._persist_path := None;
     Tracker.warnings := 0 |}.

(** A Tracker that holds one call that used no tokens. *)
Definition idle_ledger : Tracker.t :=
  {| Tracker._records :=
       [ {| Tracker.function_name := "ping"; Tracker.call_stack := ["ping"];
            Tracker.model := "gpt-4o"; Tracker.provider := "openai";
            Tracker.input_tokens := 0; Tracker.output_tokens := 0;
            Tracker.cost_usd := Pricing.calculate "gpt-4o" 0 0;
            Tracker.duration_ms := 50%Q |} ];
     Tracker._persist_path := None;
     Tracker.warnings := 0 |}.

(** The hints of a result, none when it is an exception. *)
Definition hints_of (r : Optimizer.result (list Optimizer.Hint)) : list Optimizer.Hint :=
  match r with
  | Optimizer.Ok hints => hints
  | Optimizer.Err _ => []
  end.

(** A call that the stub of [Scenario] answers. *)
Definition ask (model : string) : Client.call :=
  {| Client.call_model := model; Client.call_input := 1000;
     Client.call_output := 200; Client.call_text := "ok"; Client.call_ms := 12%Q |}.

(** The body of a function "A" that calls profiled "B", which makes a
    call, and then makes a call itself. *)
Definition nested : Prog.t :=
  Prog.Profiled "B" (Prog.Call (ask "gpt-4o") Prog.Done)
    (Prog.Call (ask "gpt-4o-mini") Prog.Done).

(** The block of a first session: a call, a profiled function "fn" that
    makes a call, and another call; and the block of a second session. *)
Definition first_block : Prog.t :=
  Prog.Call (ask "gpt-4o")
    (Prog.Profiled "fn" (Prog.Call (ask "gpt-4o") Prog.Done)
       (Prog.Call (ask "gpt-4o-mini") Prog.Done)).

Definition second_block : Prog.t :=
  Prog.Call (ask "gpt-4o-mini") Prog.Done.

End Sample.

(** * Facts *)

(** ** Strings *)

Lemma lower_char_idem c : PyStr.lower_char (PyStr.lower_char c) = PyStr.lower_char c.
Proof.
  destruct c as [[] [] [] [] [] [] [] []]; reflexivity.
Qed.

Lemma lower_idem s : PyStr.lower (PyStr.lower s) = PyStr.lower s.
Proof.
  induction s as [|c s IH]; simpl; [reflexivity|].
  now rewrite lower_char_idem, IH.
Qed.

(** ** Pricing *)

Section PricingFacts.
Import Pricing.

Lemma PRICING_nonneg : Forall rates_nonneg PRICING.
Proof.
  assert (H : forallb (fun e => Qle_bool 0 (fst (snd e)) && Qle_bool 0 (snd (snd e)))
                PRICING = true) by (vm_compute; reflexivity).
  rewrite forallb_forall in H. apply List.Forall_forall. intros e He.
  specialize (H e He). apply andb_prop in H as [H1 H2].
  split; now apply Qle_bool_iff.
Qed.

Lemma dict_get_In {V} (d : list (string * V)) k v :
  dict_get d k = Some v -> In (k, v) d.
Proof.
  induction d as [|[k' v'] d IH]; simpl; [discriminate|].
  destruct (String.eqb k k') eqn:E.
  - apply String.eqb_eq in E. intros [= ->]. left. now subst.
  - intros H. right. now apply IH.
Qed.

Lemma _lookup_In m price :
  _lookup m = Some price -> exists key, In (key, price) PRICING.
Proof.
  unfold _lookup. destruct (dict_get PRICING m) as [p|] eqn:E.
  - intros [= <-]. exists m. now apply dict_get_In.
  - destruct (List.find (prefix_related m) PRICING) as [[k p]|] eqn:F; simpl; [|discriminate].
    intros [= <-]. exists k. now apply List.find_some in F as [F _].
Qed.

Lemma _lookup_nonneg m price :
  _lookup m = Some price -> (0 <= fst price)%Q /\ (0 <= snd price)%Q.
Proof.
  intros H. apply _lookup_In in H as [key H].
  pose proof PRICING_nonneg as N. rewrite List.Forall_forall in N.
  exact (N _ H).
Qed.

(** The cost of non-negative token counts is non-negative, whatever the
    model name. *)
Lemma calculate_nonneg model i o :
  (0 <= i)%Z -> (0 <= o)%Z -> (0 <= calculate model i o)%Q.
Proof.
  intros Hi Ho. unfold calculate.
  destruct (_lookup (PyStr.lower model)) as [[ip op]|] eqn:E.
  - apply _lookup_nonneg in E as [Hip Hop]. simpl in Hip, Hop.
    assert (Hi' : (0 <= inject_Z i)%Q) by (unfold Qle; simpl; lia).
    assert (Ho' : (0 <= inject_Z o)%Q) by (unfold Qle; simpl; lia).
    pose proof (Qmult_le_0_compat _ _ Hi' Hip) as A.
    pose proof (Qmult_le_0_compat _ _ Ho' Hop) as B.
    assert (S : (0 <= inject_Z i * ip + inject_Z o * op)%Q).
    { exact (Qplus_le_compat 0 _ 0 _ A B). }
    unfold Qdiv. apply Qmult_le_0_compat; [exact S|]. now vm_compute.
  - now vm_compute.
Qed.

Lemma dict_get_unrelated m :
  Forall (fun entry => prefix_related m entry = false) PRICING ->
  dict_get PRICING m = None.
Proof.
  generalize PRICING. intros d H.
  induction H as [|[k v] d Hk _ IH]; simpl; [reflexivity|].
  destruct (String.eqb m k) eqn:E; [|exact IH].
  apply String.eqb_eq in E. subst k.
  unfold prefix_related, PyStr.startswith in Hk. simpl in Hk.
  assert (P : String.prefix m m = true).
  { clear. induction m as [|c m IH]; simpl; [reflexivity|].
    destruct (ascii_dec c c); [exact IH | congruence]. }
  rewrite P in Hk. discriminate.
Qed.

Lemma find_unrelated m :
  Forall (fun entry => prefix_related m entry = false) PRICING ->
  List.find (prefix_related m) PRICING = None.
Proof.
  generalize PRICING. intros d H.
  induction H as [|e d He _ IH]; simpl; [reflexivity|].
  now rewrite He.
Qed.

(** A name in no prefix relation with the table costs exactly [0.0]. *)
Lemma calculate_unknown model i o :
  unknown_model model -> calculate model i o = 0.0%Q.
Proof.
  intros H. unfold calculate, _lookup.
  now rewrite (dict_get_unrelated _ H), (find_unrelated _ H).
Qed.

(** Matching is case-insensitive: only the lower-cased name is looked up. *)
Lemma calculate_case_insensitive m1 m2 i o :
  PyStr.lower m1 = PyStr.lower m2 -> calculate m1 i o = calculate m2 i o.
Proof.
  intros H. unfold calculate. now rewrite H.
Qed.

Lemma calculate_lower model i o :
  calculate (PyStr.lower model) i o = calculate model i o.
Proof.
  apply calculate_case_insensitive, lower_idem.
Qed.

(** The example of the source comment: a dated GPT-4o name is priced at the
    rates of "gpt-4o". *)
Lemma calculate_gpt4o_dated i o :
  calculate "gpt-4o-2024-05-13" i o = cost_at_rates (2.50, 10.00)%Q i o.
Proof. reflexivity. Qed.

(** The example of the tests: upper case costs the same as lower case. *)
Lemma calculate_upper_example i o :
  calculate "GPT-4O" i o = calculate "gpt-4o" i o.
Proof. now apply calculate_case_insensitive. Qed.

Lemma unknown_model_example : unknown_model "not-a-real-model-xyz".
Proof.
  unfold unknown_model. apply List.Forall_forall. intros e He.
  assert (H : forallb (fun e => negb (prefix_related
                 (PyStr.lower "not-a-real-model-xyz") e)) PRICING = true)
    by (vm_compute; reflexivity).
  rewrite forallb_forall in H. specialize (H e He).
  now destruct (prefix_related _ e).
Qed.

(** C8 (the code at the failing input). "o1-mini-2024-09-12" has no exact
    entry and extends the key "o1-mini", whose rates are 3.00 and 12.00 USD
    per million tokens; the prefix loop stops at the earlier key "o1"
    (15.00 and 60.00), so one million input tokens cost 15 USD and not
    3 USD. *)
Theorem calculate_dated_name_gets_rates_of_earlier_key :
  dict_get PRICING "o1-mini-2024-09-12" = None /\
  PyStr.startswith "o1-mini-2024-09-12" "o1-mini" = true /\
  dict_get PRICING "o1-mini" = Some (3.00, 12.00)%Q /\
  get_price_per_million "o1-mini-2024-09-12" = Some (15.00, 60.00)%Q /\
  (calculate "o1-mini-2024-09-12" 1000000 0 == 15)%Q /\
  (cost_at_rates (3.00, 12.00)%Q 1000000 0 == 3)%Q /\
  ~ (calculate "o1-mini-2024-09-12" 1000000 0
     == cost_at_rates (3.00, 12.00)%Q 1000000 0)%Q.
Proof.
  repeat split; try reflexivity; vm_compute; discriminate.
Qed.

(** The same happens to dated names of "gpt-4o-mini" (priced as "gpt-4o")
    and of "gemini-1.5-flash-8b" (priced as "gemini-1.5-flash"). *)
Lemma calculate_other_dated_names :
  get_price_per_million "gpt-4o-mini-2024-08-06" = Some (2.50, 10.00)%Q /\
  get_price_per_million "gemini-1.5-flash-8b-001" = Some (0.075, 0.30)%Q.
Proof. split; reflexivity. Qed.

End PricingFacts.

(** ** Patching and unpatching the providers *)

Section PatchFacts.

Lemma openai_patch_idempotent t1 t2 r1 r2 g :
  snd (OpenAI.patch t2 r2 (snd (OpenAI.patch t1 r1 g))) = snd (OpenAI.patch t1 r1 g).
Proof.
  unfold OpenAI.patch.
  destruct (OpenAIGlobals.sdk g) as [m|] eqn:S; simpl; [|now rewrite S].
  destruct (OpenAIGlobals._patched g) eqn:P; simpl; [now rewrite S, P|].
  destruct (OpenAISdk.AsyncCompletions_create m); reflexivity.
Qed.

Lemma google_patch_idempotent t1 t2 r1 r2 g :
  snd (Google.patch t2 r2 (snd (Google.patch t1 r1 g))) = snd (Google.patch t1 r1 g).
Proof.
  unfold Google.patch.
  destruct (GoogleGlobals.sdk g) as [m|] eqn:S; simpl; [|now rewrite S].
  destruct (GoogleGlobals._patched g) eqn:P; simpl; [now rewrite S, P|].
  reflexivity.
Qed.

Lemma openai_unpatch_inactive g :
  OpenAIGlobals._patched g = false -> OpenAI.unpatch g = g.
Proof. intros P. unfold OpenAI.unpatch. now rewrite P. Qed.

Lemma google_unpatch_inactive g :
  GoogleGlobals._patched g = false -> Google.unpatch g = g.
Proof. intros P. unfold Google.unpatch. now rewrite P. Qed.

Lemma openai_patch_unpatch tracker r g m :
  OpenAIGlobals.sdk g = Some m ->
  OpenAIGlobals._patched g = false ->
  fst (OpenAI.patch tracker r g) = true /\
  OpenAIGlobals.sdk (OpenAI.unpatch (snd (OpenAI.patch tracker r g))) = Some m /\
  OpenAIGlobals._patched (OpenAI.unpatch (snd (OpenAI.patch tracker r g))) = false.
Proof.
  intros S P. unfold OpenAI.patch. rewrite S, P.
  destruct m as [c [a|]]; simpl; repeat split; reflexivity.
Qed.

Lemma google_patch_unpatch tracker r g m :
  GoogleGlobals.sdk g = Some m ->
  GoogleGlobals._patched g = false ->
  fst (Google.patch tracker r g) = true /\
  GoogleGlobals.sdk (Google.unpatch (snd (Google.patch tracker r g))) = Some m /\
  GoogleGlobals._patched (Google.unpatch (snd (Google.patch tracker r g))) = false.
Proof.
  intros S P. unfold Google.patch. rewrite S, P.
  destruct m as [c]; simpl; repeat split; reflexivity.
Qed.

(** C10. From a state in which no patch is active, [patch] succeeds and a
    following [unpatch] puts back the very functions that were bound to
    [Completions.create] and [AsyncCompletions.create] (OpenAI) and to
    [GenerativeModel.generate_content] (Google), and clears the module's
    [_patched] flag; [unpatch] with no patch active leaves the module's
    state and the SDK as they are. *)
Theorem patch_then_unpatch_restores
    (tracker : tracker_id) (current_function : list_ref)
    (go : OpenAIGlobals.t) (mo : OpenAISdk.completions)
    (gg : GoogleGlobals.t) (mg : GoogleSdk.generativeai) :
  OpenAIGlobals.sdk go = Some mo ->
  OpenAIGlobals._patched go = false ->
  GoogleGlobals.sdk gg = Some mg ->
  GoogleGlobals._patched gg = false ->
  let go' := OpenAI.unpatch (snd (OpenAI.patch tracker current_function go)) in
  let gg' := Google.unpatch (snd (Google.patch tracker current_function gg)) in
  (fst (OpenAI.patch tracker current_function go) = true /\
   OpenAIGlobals.sdk go' = Some mo /\
   OpenAIGlobals._patched go' = false) /\
  (fst (Google.patch tracker current_function gg) = true /\
   GoogleGlobals.sdk gg' = Some mg /\
   GoogleGlobals._patched gg' = false) /\
  OpenAI.unpatch go = go /\
  Google.unpatch gg = gg.
Proof.
  intros So Po Sg Pg. cbv zeta.
  split; [now apply openai_patch_unpatch|].
  split; [now apply google_patch_unpatch|].
  split; [now apply openai_unpatch_inactive | now apply google_unpatch_inactive].
Qed.

End PatchFacts.

(** ** The recording path swallows its failures *)

Section RecordFacts.
Import Py Run.

Lemma trackers_record_raise self event w e :
  fst (Trackers.record self event w) = Raise e ->
  snd (Trackers.record self event w) = w.
Proof.
  unfold Trackers.record. destruct (heap w !! self) as [t|]; [|reflexivity].
  destruct (Tracker.record t event (disk w)). discriminate.
Qed.

(** [_record] returns normally whatever its body does. *)
Lemma openai_record_returns tracker r response kwargs d provider w :
  fst (OpenAI._record tracker r response kwargs d provider w) = Ret tt.
Proof.
  unfold OpenAI._record, try_except_pass.
  now destruct (OpenAI._record_body _ _ _ _ _ _ w) as [[] ?].
Qed.

Lemma google_record_returns tracker r response self d provider w :
  fst (Google._record tracker r response self d provider w) = Ret tt.
Proof.
  unfold Google._record, try_except_pass.
  now destruct (Google._record_body _ _ _ _ _ _ w) as [[] ?].
Qed.

(** A body that raises has recorded nothing: the world is as before. *)
Lemma openai_record_body_raise tracker r response kwargs d provider w e :
  fst (OpenAI._record_body tracker r response kwargs d provider w) = Raise e ->
  snd (OpenAI._record_body tracker r response kwargs d provider w) = w.
Proof.
  unfold OpenAI._record_body, bind, lift, get, ret.
  destruct (getattr (OpenAISdk.usage response) None) as [[u|]|]; simpl; try reflexivity.
  destruct (getattr (OpenAISdk.prompt_tokens u) (Some 0%Z)); simpl; try reflexivity.
  destruct (getattr (OpenAISdk.completion_tokens u) (Some 0%Z)); simpl; try reflexivity.
  destruct (OpenAI.as_str _); simpl; try reflexivity.
  apply trackers_record_raise.
Qed.

Lemma google_record_body_raise tracker r response self d provider w e :
  fst (Google._record_body tracker r response self d provider w) = Raise e ->
  snd (Google._record_body tracker r response self d provider w) = w.
Proof.
  unfold Google._record_body, bind, lift, get, ret.
  destruct (getattr (GoogleSdk.model_name self) _); simpl; try reflexivity.
  destruct (Google.as_str _); simpl; try reflexivity.
  destruct (getattr (GoogleSdk.usage_metadata response) None) as [[u|]|]; simpl; try reflexivity.
  destruct (getattr (GoogleSdk.prompt_token_count u) (Some 0%Z)); simpl; try reflexivity.
  destruct (getattr (GoogleSdk.candidates_token_count u) (Some 0%Z)); simpl; try reflexivity.
  apply trackers_record_raise.
Qed.

Lemma openai_record_raise_unchanged tracker r response kwargs d provider w e :
  fst (OpenAI._record_body tracker r response kwargs d provider w) = Raise e ->
  OpenAI._record tracker r response kwargs d provider w = (Ret tt, w).
Proof.
  intros H. pose proof (openai_record_body_raise _ _ _ _ _ _ _ _ H) as U.
  unfold OpenAI._record, try_except_pass.
  destruct (OpenAI._record_body _ _ _ _ _ _ w) as [[] w']; simpl in *; congruence.
Qed.

Lemma google_record_raise_unchanged tracker r response self d provider w e :
  fst (Google._record_body tracker r response self d provider w) = Raise e ->
  Google._record tracker r response self d provider w = (Ret tt, w).
Proof.
  intros H. pose proof (google_record_body_raise _ _ _ _ _ _ _ _ H) as U.
  unfold Google._record, try_except_pass.
  destruct (Google._record_body _ _ _ _ _ _ w) as [[] w']; simpl in *; congruence.
Qed.

(** A response without usage ([usage] absent or [None]) records nothing. *)
Lemma openai_record_no_usage tracker r response kwargs d provider w :
  getattr (OpenAISdk.usage response) None = Ret None ->
  OpenAI._record tracker r response kwargs d provider w = (Ret tt, w).
Proof.
  intros H. unfold OpenAI._record, try_except_pass, OpenAI._record_body, bind, lift.
  now rewrite H.
Qed.

(** The three patched entry points return the original's response. *)
Lemma openai_patched_create_returns tracker r f kwargs response d w :
  OpenAIGlobals._original_create (openai w) = Some (OpenAISdk.SyncNative f) ->
  f kwargs = Ret response ->
  fst (OpenAI._patched_create tracker r kwargs d w) = Ret response /\
  snd (OpenAI._patched_create tracker r kwargs d w)
  = snd (OpenAI._record tracker r response kwargs d "openai" w).
Proof.
  intros O F. unfold OpenAI._patched_create, OpenAI.call_original_create, bind, ret.
  rewrite O, F.
  pose proof (openai_record_returns tracker r response kwargs d "openai" w) as R.
  destruct (OpenAI._record _ _ _ _ _ _ w) as [[] w']; simpl in *; [easy | discriminate].
Qed.

Lemma openai_patched_acreate_returns tracker r f kwargs response d w :
  OpenAIGlobals._original_acreate (openai w) = Some (OpenAISdk.AsyncNative f) ->
  f kwargs = Ret response ->
  fst (OpenAI._patched_acreate tracker r kwargs d w) = Ret response /\
  snd (OpenAI._patched_acreate tracker r kwargs d w)
  = snd (OpenAI._record tracker r response kwargs d "openai" w).
Proof.
  intros O F. unfold OpenAI._patched_acreate, OpenAI.call_original_acreate, bind, ret.
  rewrite O, F.
  pose proof (openai_record_returns tracker r response kwargs d "openai" w) as R.
  destruct (OpenAI._record _ _ _ _ _ _ w) as [[] w']; simpl in *; [easy | discriminate].
Qed.

Lemma google_patched_generate_returns tracker r f self response d w :
  GoogleGlobals._original_generate (google w) = Some (GoogleSdk.Native f) ->
  f self = Ret response ->
  fst (Google._patched_generate tracker r self d w) = Ret response /\
  snd (Google._patched_generate tracker r self d w)
  = snd (Google._record tracker r response self d "google" w).
Proof.
  intros O F. unfold Google._patched_generate, Google.call_original_generate, bind, ret.
  rewrite O, F.
  pose proof (google_record_returns tracker r response self d "google" w) as R.
  destruct (Google._record _ _ _ _ _ _ w) as [[] w']; simpl in *; [easy | discriminate].
Qed.

(** C5. When the original SDK function returns a response, the patched
    entry point ([Completions.create], [AsyncCompletions.create],
    [GenerativeModel.generate_content]) returns that same response, also
    when the recording path raises; and when the recording path raises, or
    the response carries no usage, the world is left exactly as it was: no
    event is recorded and nothing else changes. *)
Theorem recording_failure_never_propagates (w : World) (tracker : tracker_id)
    (r : list_ref) (d : Q) :
  (forall m f kwargs response,
      OpenAIGlobals.sdk (openai w) = Some m ->
      OpenAISdk.Completions_create m = OpenAISdk.PatchedCreate tracker r ->
      OpenAIGlobals._original_create (openai w) = Some (OpenAISdk.SyncNative f) ->
      f kwargs = Ret response ->
      fst (OpenAI.create kwargs d w) = Ret response /\
      ((exists e, fst (OpenAI._record_body tracker r response kwargs d "openai" w) = Raise e)
       \/ getattr (OpenAISdk.usage response) None = Ret None ->
       snd (OpenAI.create kwargs d w) = w)) /\
  (forall m f kwargs response,
      OpenAIGlobals.sdk (openai w) = Some m ->
      OpenAISdk.AsyncCompletions_create m = Some (OpenAISdk.PatchedACreate tracker r) ->
      OpenAIGlobals._original_acreate (openai w) = Some (OpenAISdk.AsyncNative f) ->
      f kwargs = Ret response ->
      fst (OpenAI.acreate kwargs d w) = Ret response /\
      ((exists e, fst (OpenAI._record_body tracker r response kwargs d "openai" w) = Raise e)
       \/ getattr (OpenAISdk.usage response) None = Ret None ->
       snd (OpenAI.acreate kwargs d w) = w)) /\
  (forall m f self response,
      GoogleGlobals.sdk (google w) = Some m ->
      GoogleSdk.GenerativeModel_generate_content m = GoogleSdk.PatchedGenerate tracker r ->
      GoogleGlobals._original_generate (google w) = Some (GoogleSdk.Native f) ->
      f self = Ret response ->
      fst (Google.generate_content self d w) = Ret response /\
      ((exists e, fst (Google._record_body tracker r response self d "google" w) = Raise e) ->
       snd (Google.generate_content self d w) = w)).
Proof.
  split; [|split].
  - intros m f kwargs response S C O F.
    unfold OpenAI.create. rewrite S, C.
    destruct (openai_patched_create_returns tracker r f kwargs response d w O F) as [R W].
    split; [exact R|]. rewrite W. intros [[e He]|Hu].
    + now rewrite (openai_record_raise_unchanged _ _ _ _ _ _ _ _ He).
    + now rewrite (openai_record_no_usage _ _ _ _ _ _ _ Hu).
  - intros m f kwargs response S C O F.
    unfold OpenAI.acreate. rewrite S, C.
    destruct (openai_patched_acreate_returns tracker r f kwargs response d w O F) as [R W].
    split; [exact R|]. rewrite W. intros [[e He]|Hu].
    + now rewrite (openai_record_raise_unchanged _ _ _ _ _ _ _ _ He).
    + now rewrite (openai_record_no_usage _ _ _ _ _ _ _ Hu).
  - intros m f self response S C O F.
    unfold Google.generate_content. rewrite S, C.
    destruct (google_patched_generate_returns tracker r f self response d w O F) as [R W].
    split; [exact R|]. rewrite W. intros [e He].
    now rewrite (google_record_raise_unchanged _ _ _ _ _ _ _ _ He).
Qed.

End RecordFacts.

(** C10, at the SDK stubs of the scenario. *)
Lemma patch_then_unpatch_restores_witness :
  OpenAIGlobals.sdk
    (OpenAI.unpatch (snd (OpenAI.patch 0%nat interceptor_current_function
                            (openai_initial Scenario.sdk_stub))))
  = Some Scenario.sdk_stub /\
  GoogleGlobals.sdk
    (Google.unpatch (snd (Google.patch 0%nat interceptor_current_function
                            Scenario.google_initial)))
  = Some Scenario.google_stub.
Proof.
  pose proof (patch_then_unpatch_restores 0%nat interceptor_current_function
                (openai_initial Scenario.sdk_stub) Scenario.sdk_stub
                Scenario.google_initial Scenario.google_stub
                eq_refl eq_refl eq_refl eq_refl) as H.
  cbv zeta in H. destruct H as [[_ [H1 _]] [[_ [H2 _]] _]].
  split; [exact H1 | exact H2].
Defined.

(** C5, at a call whose [model] argument is [None]: pricing raises
    AttributeError inside [_record], the caller still gets the response,
    and nothing is recorded. *)
Lemma recording_failure_never_propagates_witness :
  let w := activated 0%nat Scenario.fresh in
  let kwargs := {| OpenAISdk.kw_model := Some Py.PNone |} in
  fst (OpenAI._record_body 0%nat interceptor_current_function
         (Scenario.response_of 1000 200 "ok") kwargs 12%Q "openai" w)
  = Py.Raise Py.AttributeError /\
  fst (OpenAI.create kwargs 12%Q w) = Py.Ret (Scenario.response_of 1000 200 "ok") /\
  snd (OpenAI.create kwargs 12%Q w) = w.
Proof.
  cbv zeta.
  destruct (recording_failure_never_propagates (activated 0%nat Scenario.fresh) 0%nat
              interceptor_current_function 12%Q) as [H _].
  specialize (H _ Scenario.stub_create {| OpenAISdk.kw_model := Some Py.PNone |}
                (Scenario.response_of 1000 200 "ok") eq_refl eq_refl eq_refl eq_refl).
  destruct H as [R U].
  split; [reflexivity|]. split; [exact R|].
  apply U. left. exists Py.AttributeError. reflexivity.
Defined.

(** ** Running the interceptor and the profiler *)

Section RunFacts.
Import Py Run.

Lemma activate_run t w : Interceptor.activate (Some t) w = (Ret tt, activated t w).
Proof. reflexivity. Qed.

Lemma deactivate_run w : Interceptor.deactivate w = (Ret tt, deactivated w).
Proof. reflexivity. Qed.

Lemma get_current_function_run w c rest :
  _current_function w = c :: rest ->
  Interceptor.get_current_function w = (Ret c, w).
Proof. intros H. unfold Interceptor.get_current_function. now rewrite H. Qed.

Lemma set_current_function_run name w c rest :
  _current_function w = c :: rest ->
  Interceptor.set_current_function name w = (Ret tt, set_cell (name :: rest) w).
Proof. intros H. unfold Interceptor.set_current_function. now rewrite H. Qed.

(** The wrapper, once past its prologue: the body runs with the name
    written into the shared list, under a [finally] that writes the
    previous name back. *)
Lemma profile_run {A} qualname (func : M A) w c rest :
  _current_function w = c :: rest ->
  Profiler.profile qualname func w
  = try_finally func (Interceptor.set_current_function c)
      (set_cell (qualname :: rest) (activated (_global_tracker w) w)).
Proof.
  intros H. unfold Profiler.profile, bind, Trackers.get_global_tracker.
  rewrite activate_run.
  rewrite (get_current_function_run (activated _ w) c rest) by exact H.
  now rewrite (set_current_function_run qualname (activated _ w) c rest) by exact H.
Qed.

(** C3. Whatever the profiled function does, return or raise, the wrapper
    passes its outcome on unchanged (an exception propagates), and the
    current function name the interceptor reads afterwards is exactly the
    one it read before the call. (The function is assumed not to have
    emptied the interceptor's list, which nothing in the package does.) *)
Theorem profile_restores_attribution {A} (qualname : string) (func : M A)
    (w : World) (prev : string) :
  fst (Interceptor.get_current_function w) = Ret prev ->
  _current_function (snd (func (entered qualname w))) <> [] ->
  fst (Interceptor.get_current_function (entered qualname w)) = Ret qualname /\
  fst (Profiler.profile qualname func w) = fst (func (entered qualname w)) /\
  fst (Interceptor.get_current_function (snd (Profiler.profile qualname func w)))
  = Ret prev.
Proof.
  intros Hprev Hfunc.
  unfold Interceptor.get_current_function in Hprev.
  destruct (_current_function w) as [|c rest] eqn:Hc; simpl in Hprev; [discriminate|].
  injection Hprev as ->.
  rewrite (profile_run qualname func w prev rest Hc).
  assert (Hin : entered qualname w
                = set_cell (qualname :: rest) (activated (_global_tracker w) w)).
  { unfold entered. now rewrite Hc. }
  rewrite Hin in *. split; [reflexivity|].
  unfold try_finally.
  destruct (func (set_cell (qualname :: rest) (activated (_global_tracker w) w)))
    as [r w2]; simpl in *.
  destruct (_current_function w2) as [|c2 rest2] eqn:Hc2; [congruence|].
  rewrite (set_current_function_run prev w2 c2 rest2 Hc2). simpl.
  split; reflexivity.
Qed.

End RunFacts.

(** C3, at scope "B" entered inside scope "A" with a body that raises: the
    exception comes out of the wrapper and the name reads back "A". *)
Lemma profile_restores_attribution_witness :
  let inside_A := set_cell ["A"] Scenario.fresh in
  let B := Profiler.profile "B" (Run.raise (A := unit) (Py.UserError "oops")) in
  fst (Interceptor.get_current_function inside_A) = Py.Ret "A" /\
  fst (B inside_A) = Py.Raise (Py.UserError "oops") /\
  fst (Interceptor.get_current_function (snd (B inside_A))) = Py.Ret "A".
Proof.
  cbv zeta.
  assert (N : _current_function
                (snd (Run.raise (A := unit) (Py.UserError "oops")
                        (entered "B" (set_cell ["A"] Scenario.fresh)))) <> [])
    by (simpl; discriminate).
  destruct (profile_restores_attribution "B"
              (Run.raise (A := unit) (Py.UserError "oops"))
              (set_cell ["A"] Scenario.fresh) "A" eq_refl N) as [_ [R G]].
  split; [reflexivity|]. split; [|exact G].
  rewrite R. reflexivity.
Defined.

(** The scenario of the specification, run from a fresh process: "A"
    calls "B", "B" raises, "A" catches the exception and reads the current
    function name: it is "A". After "A" has returned it is the sentinel
    again. *)
Lemma nested_raise_reads_back_outer :
  let B := Profiler.profile "B" (Run.raise (A := string) (Py.UserError "oops")) in
  let A := Profiler.profile "A"
             (Run.try_except B (fun _ => Interceptor.get_current_function)) in
  fst (A Scenario.fresh) = Py.Ret "A" /\
  fst (Interceptor.get_current_function (snd (A Scenario.fresh))) = Py.Ret "<unknown>".
Proof. split; reflexivity. Qed.

(** ** Where events go and what they are attributed to *)

Section AttributionFacts.
Import Py Run.

(** Projections of the derived worlds. *)
Lemma heap_set_cell c w :
  heap (set_cell c w) = heap w.
Proof. reflexivity. Qed.
Lemma global_set_cell c w :
  _global_tracker (set_cell c w) = _global_tracker w.
Proof. reflexivity. Qed.
Lemma cell_set_cell c w :
  _current_function (set_cell c w) = c.
Proof. reflexivity. Qed.
Lemma openai_set_cell c w :
  openai (set_cell c w) = openai w.
Proof. reflexivity. Qed.
Lemma heap_activated t w :
  heap (activated t w) = heap w.
Proof. reflexivity. Qed.
Lemma global_activated t w :
  _global_tracker (activated t w) = _global_tracker w.
Proof. reflexivity. Qed.
Lemma cell_activated t w :
  _current_function (activated t w) = _current_function w.
Proof. reflexivity. Qed.
Lemma heap_deactivated w :
  heap (deactivated w) = heap w.
Proof. reflexivity. Qed.
Lemma global_deactivated w :
  _global_tracker (deactivated w) = _global_tracker w.
Proof. reflexivity. Qed.
Lemma cell_deactivated w :
  _current_function (deactivated w) = _current_function w.
Proof. reflexivity. Qed.
Lemma global_recorded t tr ev w :
  _global_tracker (recorded t tr ev w) = _global_tracker w.
Proof. reflexivity. Qed.
Lemma cell_recorded t tr ev w :
  _current_function (recorded t tr ev w) = _current_function w.
Proof. reflexivity. Qed.
Lemma openai_recorded t tr ev w :
  openai (recorded t tr ev w) = openai w.
Proof. reflexivity. Qed.
Lemma events_set_cell t c w :
  Trackers.events t (set_cell c w) = Trackers.events t w.
Proof. reflexivity. Qed.
Lemma events_activated t t' w :
  Trackers.events t (activated t' w) = Trackers.events t w.
Proof. reflexivity. Qed.
Lemma events_deactivated t w :
  Trackers.events t (deactivated w) = Trackers.events t w.
Proof. reflexivity. Qed.

Create Rewrite HintDb world.
#[local] Hint Rewrite heap_set_cell global_set_cell cell_set_cell openai_set_cell
  heap_activated global_activated cell_activated
  heap_deactivated global_deactivated cell_deactivated
  global_recorded cell_recorded openai_recorded
  events_set_cell events_activated events_deactivated : world.

Lemma openai_record_event t tr model i o text d w :
  heap w !! t = Some tr ->
  OpenAI._record t interceptor_current_function (Scenario.response_of i o text)
    (Scenario.kwargs_of model) d "openai" w
  = (Ret tt, recorded t tr (Scenario.event_of (_current_function w) model i o d) w).
Proof.
  intros H. unfold OpenAI._record, try_except_pass, OpenAI._record_body, bind, lift, get.
  simpl. unfold Trackers.record. rewrite H.
  unfold recorded, Scenario.event_of.
  destruct (Tracker.record tr _ (disk w)) as [tr' d'] eqn:E. simpl.
  reflexivity.
Qed.

Lemma create_patched_run t tr f a model i o text d w :
  openai w = openai_patched t (OpenAISdk.SyncNative f) a ->
  heap w !! t = Some tr ->
  f (Scenario.kwargs_of model) = Ret (Scenario.response_of i o text) ->
  OpenAI.create (Scenario.kwargs_of model) d w
  = (Ret (Scenario.response_of i o text),
     recorded t tr (Scenario.event_of (_current_function w) model i o d) w).
Proof.
  intros O H F. unfold OpenAI.create, OpenAI._patched_create, OpenAI.call_original_create, bind.
  rewrite O. simpl. rewrite F.
  now rewrite (openai_record_event t tr model i o text d w H).
Qed.

Lemma records_after_record tr ev d :
  Tracker.records (fst (Tracker.record tr ev d)) = Tracker.records tr ++ [ev].
Proof.
  unfold Tracker.record. destruct (Tracker._persist_path tr); simpl.
  - destruct (Tracker.append _ _ _); reflexivity.
  - reflexivity.
Qed.

Lemma heap_recorded_eq t tr ev w :
  heap w !! t = Some tr ->
  heap (recorded t tr ev w) !! t = Some (fst (Tracker.record tr ev (disk w))).
Proof.
  intros H. unfold recorded. simpl.
  apply list_lookup_insert_eq. eapply lookup_lt_Some; eauto.
Qed.

Lemma heap_recorded_ne t t' tr ev w :
  t <> t' -> heap (recorded t tr ev w) !! t' = heap w !! t'.
Proof.
  intros H. unfold recorded. simpl. now apply list_lookup_insert_ne.
Qed.

Lemma events_recorded_eq t tr ev w :
  heap w !! t = Some tr ->
  Trackers.events t (recorded t tr ev w) = Tracker.records tr ++ [ev].
Proof.
  intros H. unfold Trackers.events. rewrite (heap_recorded_eq t tr ev w H).
  apply records_after_record.
Qed.

Lemma events_recorded_ne t t' tr ev w :
  t <> t' ->
  Trackers.events t' (recorded t tr ev w) = Trackers.events t' w.
Proof.
  intros H. unfold Trackers.events. now rewrite heap_recorded_ne.
Qed.

Lemma activated_initial t m w :
  openai w = openai_initial m ->
  openai (activated t w)
  = openai_patched t (OpenAISdk.Completions_create m) (OpenAISdk.AsyncCompletions_create m).
Proof.
  intros H. unfold activated. simpl. rewrite H. unfold OpenAI.patch. simpl.
  destruct (OpenAISdk.AsyncCompletions_create m); reflexivity.
Qed.

Lemma activated_patched t t' f a w :
  openai w = openai_patched t f a ->
  openai (activated t' w) = openai_patched t f a.
Proof.
  intros H. unfold activated. simpl. now rewrite H.
Qed.

Lemma deactivated_patched t f a w :
  openai w = openai_patched t f a ->
  openai (deactivated w)
  = openai_initial {| OpenAISdk.Completions_create := f;
                      OpenAISdk.AsyncCompletions_create := a |}.
Proof.
  intros H. unfold deactivated. simpl. rewrite H. unfold OpenAI.unpatch. simpl.
  destruct a; reflexivity.
Qed.


Lemma global_allocated w :
  _global_tracker (allocated w) = _global_tracker w.
Proof. reflexivity. Qed.
Lemma cell_allocated w :
  _current_function (allocated w) = _current_function w.
Proof. reflexivity. Qed.
Lemma openai_allocated w :
  openai (allocated w) = openai w.
Proof. reflexivity. Qed.
Lemma openai_activated_cell c t w :
  openai (set_cell c (activated t w)) = openai (activated t w).
Proof. reflexivity. Qed.
#[local] Hint Rewrite global_allocated cell_allocated openai_allocated : world.

Lemma heap_allocated_new w :
  heap (allocated w) !! length (heap w) = Some (Tracker.__init__ None).
Proof.
  unfold allocated. simpl. rewrite lookup_app_r by lia.
  now rewrite Nat.sub_diag.
Qed.

Lemma heap_allocated_old t w :
  (t < length (heap w))%nat -> heap (allocated w) !! t = heap w !! t.
Proof.
  intros H. unfold allocated. simpl. now rewrite lookup_app_l.
Qed.

Lemma events_allocated_old t w :
  (t < length (heap w))%nat -> Trackers.events t (allocated w) = Trackers.events t w.
Proof.
  intros H. unfold Trackers.events. now rewrite heap_allocated_old.
Qed.

Lemma length_heap_recorded t tr ev w :
  length (heap (recorded t tr ev w)) = length (heap w).
Proof. unfold recorded. simpl. apply length_insert. Qed.

Lemma length_heap_allocated w :
  length (heap (allocated w)) = S (length (heap w)).
Proof. unfold allocated. simpl. rewrite length_app. simpl. lia. Qed.

Lemma session_init_run name w :
  Session.__init__ name w
  = (Ret {| Session.name := name; Session._tracker := length (heap w);
            Session._records := [] |}, allocated w).
Proof. reflexivity. Qed.

Lemma session_enter_run s w c rest :
  _current_function w = c :: rest ->
  Session.__enter__ s w
  = (Ret s, set_cell (Session.name s :: rest) (activated (Session._tracker s) w)).
Proof.
  intros H. unfold Session.__enter__, bind. rewrite activate_run.
  now rewrite (set_current_function_run _ (activated _ w) c rest) by exact H.
Qed.

Lemma session_exit_run s tr w :
  heap w !! Session._tracker s = Some tr ->
  Session.__exit__ s w
  = (Ret {| Session.name := Session.name s; Session._tracker := Session._tracker s;
            Session._records := Tracker.records tr |}, deactivated w).
Proof.
  intros H. unfold Session.__exit__, bind, Trackers.records. rewrite H.
  now rewrite deactivate_run.
Qed.

(** A session entered while a patch is installed leaves that patch, and
    so its destination Tracker, as it is. *)
Lemma session_enter_keeps_patch s t f a w c rest :
  _current_function w = c :: rest ->
  openai w = openai_patched t f a ->
  openai (snd (Session.__enter__ s w)) = openai_patched t f a.
Proof.
  intros Hc O. rewrite (session_enter_run s w c rest Hc). cbn [snd].
  rewrite openai_set_cell. now apply (activated_patched t).
Qed.

(** Code made of calls and profiled functions, run while a patch bound to
    Tracker [t] is installed: it runs to its end, its events are appended
    to that Tracker in call order, and everything else (the other
    Trackers, the interceptor's list, the provider module, the global
    Tracker) is as before. *)
Lemma prog_run_patched (p : Prog.t) : forall t tr f a w c rest,
  openai w = openai_patched t (OpenAISdk.SyncNative f) a ->
  heap w !! t = Some tr ->
  _current_function w = c :: rest ->
  Prog.answered f p ->
  exists w' tr',
    Prog.run p w = (Ret tt, w') /\
    heap w' !! t = Some tr' /\
    Tracker.records tr' = Tracker.records tr ++ Prog.events (c :: rest) p /\
    (forall t', t' <> t -> heap w' !! t' = heap w !! t') /\
    length (heap w') = length (heap w) /\
    _current_function w' = c :: rest /\
    openai w' = openai w /\
    _global_tracker w' = _global_tracker w.
Proof.
  induction p as [|x next IH|q body IHb next IHn]; intros t tr f a w c rest O H Hc F.
  - exists w, tr. simpl. rewrite app_nil_r. repeat split; auto.
  - assert (Fx : f (Scenario.kwargs_of (Client.call_model x))
                 = Ret (Scenario.response_of (Client.call_input x) (Client.call_output x)
                                             (Client.call_text x))).
    { apply (F x). now left. }
    pose proof (create_patched_run t tr f a (Client.call_model x) (Client.call_input x)
                  (Client.call_output x) (Client.call_text x) (Client.call_ms x) w O H Fx) as E.
    rewrite Hc in E.
    set (ev := Scenario.event_of (c :: rest) (Client.call_model x)
                 (Client.call_input x) (Client.call_output x) (Client.call_ms x)) in *.
    destruct (IH t (fst (Tracker.record tr ev (disk w))) f a (recorded t tr ev w) c rest)
      as [w' [tr' [R [H' [Rec [Oth [Len [Cell [Op Gl]]]]]]]]].
    + now rewrite openai_recorded.
    + now apply heap_recorded_eq.
    + now rewrite cell_recorded.
    + intros y Hy. apply F. now right.
    + exists w', tr'. split.
      { simpl. unfold bind. unfold Client.kwargs_for. now rewrite E. }
      split; [exact H'|]. split.
      { rewrite Rec, records_after_record. simpl. now rewrite <- app_assoc. }
      split.
      { intros t' Hne. rewrite (Oth t' Hne). apply heap_recorded_ne. congruence. }
      split; [now rewrite Len, length_heap_recorded|].
      split; [exact Cell|]. split; [now rewrite Op, openai_recorded|].
      now rewrite Gl, global_recorded.
  - set (w1 := set_cell (q :: rest) (activated (_global_tracker w) w)).
    assert (O1 : openai w1 = openai_patched t (OpenAISdk.SyncNative f) a).
    { unfold w1. rewrite openai_set_cell. now apply (activated_patched t). }
    destruct (IHb t tr f a w1 q rest O1 H eq_refl) as
      [w2 [tr2 [R2 [H2 [Rec2 [Oth2 [Len2 [Cell2 [Op2 Gl2]]]]]]]]].
    { intros y Hy. apply F. simpl. apply in_or_app. now left. }
    set (w3 := set_cell (c :: rest) w2).
    destruct (IHn t tr2 f a w3 c rest) as
      [w4 [tr4 [R4 [H4 [Rec4 [Oth4 [Len4 [Cell4 [Op4 Gl4]]]]]]]]].
    + unfold w3. rewrite openai_set_cell. now rewrite Op2.
    + exact H2.
    + reflexivity.
    + intros y Hy. apply F. simpl. apply in_or_app. now right.
    + exists w4, tr4. split.
      { simpl. unfold bind at 1.
        rewrite (profile_run q (Prog.run body) w c rest Hc). fold w1.
        unfold try_finally. rewrite R2.
        rewrite (set_current_function_run c w2 q rest Cell2). fold w3.
        exact R4. }
      split; [exact H4|]. split.
      { rewrite Rec4, Rec2. simpl. now rewrite <- app_assoc. }
      split.
      { intros t' Hne. rewrite (Oth4 t' Hne). unfold w3. rewrite heap_set_cell.
        rewrite (Oth2 t' Hne). reflexivity. }
      split; [rewrite Len4; unfold w3; rewrite heap_set_cell; now rewrite Len2|].
      split; [exact Cell4|].
      split; [rewrite Op4; unfold w3; rewrite openai_set_cell, Op2; exact (eq_trans O1 (eq_sym O))|].
      rewrite Gl4. unfold w3. rewrite global_set_cell, Gl2. reflexivity.
Qed.

(** Every event carries the one name it is attributed to, followed by
    what the list held beyond slot 0 (nothing, in a running process). *)
Lemma events_single_name (p : Prog.t) : forall c rest,
  Forall (fun ev => Tracker.call_stack ev = Tracker.function_name ev :: rest)
         (Prog.events (c :: rest) p).
Proof.
  induction p as [|x next IH|q body IHb next IHn]; intros c rest; simpl.
  - constructor.
  - constructor; [reflexivity | apply IH].
  - apply List.Forall_app. split; [apply IHb | apply IHn].
Qed.



(** One session, entered while nothing is patched, around code made of
    calls and profiled functions. *)
Lemma session_run_unpatched (name : string) (body : Prog.t) (w : World)
    (m : OpenAISdk.completions) (f : OpenAISdk.Kwargs -> outcome OpenAISdk.Response) (prev : string)
    (rest : list string) :
  openai w = openai_initial m ->
  OpenAISdk.Completions_create m = OpenAISdk.SyncNative f ->
  _current_function w = prev :: rest ->
  Prog.answered f body ->
  exists s after,
    Profiler.session name (fun _ => Prog.run body) w = (Ret (tt, s), after) /\
    Session._tracker s = length (heap w) /\
    Session._records s = Prog.events (name :: rest) body /\
    Trackers.events (Session._tracker s) after = Prog.events (name :: rest) body /\
    (forall t, (t < length (heap w))%nat -> heap after !! t = heap w !! t) /\
    length (heap after) = S (length (heap w)) /\
    _global_tracker after = _global_tracker w /\
    openai after = openai_initial m /\
    _current_function after = name :: rest.
Proof.
  intros O M Hc F.
  set (n := length (heap w)).
  set (s0 := {| Session.name := name; Session._tracker := n; Session._records := [] |}).
  set (w1 := set_cell (name :: rest) (activated n (allocated w))).
  assert (O1 : openai w1 = openai_patched n (OpenAISdk.SyncNative f) (OpenAISdk.AsyncCompletions_create m)).
  { unfold w1. rewrite openai_activated_cell.
    rewrite (activated_initial n m) by (now rewrite openai_allocated). now rewrite M. }
  assert (H1 : heap w1 !! n = Some (Tracker.__init__ None)).
  { unfold w1. rewrite heap_set_cell, heap_activated. apply heap_allocated_new. }
  destruct (prog_run_patched body n _ f _ w1 name rest O1 H1 eq_refl F) as
    [w2 [tr2 [R2 [H2 [Rec2 [Oth2 [Len2 [Cell2 [Op2 Gl2]]]]]]]]].
  simpl in Rec2.
  set (s := {| Session.name := name; Session._tracker := n;
               Session._records := Tracker.records tr2 |}).
  assert (E : Profiler.session name (fun _ => Prog.run body) w
              = (Ret (tt, s), deactivated w2)).
  { unfold Profiler.session, bind. rewrite session_init_run. fold n s0.
    unfold Session.with_, bind.
    rewrite (session_enter_run s0 (allocated w) prev rest) by (now rewrite cell_allocated).
    change (set_cell (Session.name s0 :: rest) (activated (Session._tracker s0) (allocated w)))
      with w1.
    rewrite R2. now rewrite (session_exit_run s0 tr2 w2 H2). }
  exists s, (deactivated w2). split; [exact E|].
  split; [reflexivity|]. split; [exact Rec2|]. split.
  { rewrite events_deactivated. unfold Trackers.events. simpl.
    unfold tracker_id in *. now rewrite H2. }
  split.
  { intros t Ht. rewrite heap_deactivated. unfold tracker_id in *.
    rewrite (Oth2 t) by (unfold n; lia).
    unfold w1. rewrite heap_set_cell, heap_activated. now apply heap_allocated_old. }
  split.
  { rewrite heap_deactivated, Len2. unfold w1. rewrite heap_set_cell, heap_activated.
    apply length_heap_allocated. }
  split; [rewrite global_deactivated, Gl2; reflexivity|].
  split.
  { rewrite (deactivated_patched n (OpenAISdk.SyncNative f) (OpenAISdk.AsyncCompletions_create m) w2)
      by (now rewrite Op2).
    rewrite <- M. now destruct m. }
  rewrite cell_deactivated. exact Cell2.
Qed.


End AttributionFacts.







(** ** The Tracker's aggregates *)

Section TrackerFacts.
Import Tracker.

Lemma records_record_all self events d :
  records (fst (record_all self events d)) = records self ++ events.
Proof.
  revert self d. induction events as [|e events IH]; intros self d; simpl.
  - now rewrite app_nil_r.
  - pose proof (records_after_record self e d) as R.
    destruct (record self e d) as [self' d']. simpl in R.
    rewrite IH, R, <- app_assoc. reflexivity.
Qed.

Lemma sum_values_empty : sum_values ∅ = 0%Q.
Proof. unfold sum_values. apply map_fold_empty. Qed.

Lemma sum_values_insert_fresh (m : gmap string Q) k v :
  m !! k = None -> (sum_values (<[k := v]> m) == v + sum_values m)%Q.
Proof.
  intros H. unfold sum_values.
  apply (map_fold_insert Qeq (fun _ v acc => (v + acc)%Q)); [| |exact H].
  - intros j z a b E. now rewrite E.
  - intros; ring.
Qed.

Lemma sum_values_lookup (m : gmap string Q) k v :
  m !! k = Some v -> (sum_values m == v + sum_values (delete k m))%Q.
Proof.
  intros H. unfold sum_values.
  apply (map_fold_delete Qeq (fun _ v acc => (v + acc)%Q)); [| |exact H].
  - intros j z a b E. now rewrite E.
  - intros; ring.
Qed.

Lemma sum_values_add (m : gmap string Q) k c :
  (sum_values (<[k := (default 0%Q (m !! k) + c)%Q]> m) == sum_values m + c)%Q.
Proof.
  destruct (m !! k) as [v|] eqn:E; simpl.
  - rewrite <- insert_delete_eq.
    rewrite sum_values_insert_fresh by apply lookup_delete_eq.
    rewrite (sum_values_lookup m k v E). ring.
  - rewrite sum_values_insert_fresh by exact E. ring.
Qed.

Lemma sum_values_cost_by_acc key recs (m : gmap string Q) :
  (sum_values
     (fold_left (fun result r =>
                   <[key r := (default 0%Q (result !! key r) + cost_usd r)%Q]> result)
                recs m)
   == sum_values m + sum_costs recs)%Q.
Proof.
  revert m. induction recs as [|r recs IH]; intros m; simpl.
  - unfold sum_costs. simpl. ring.
  - rewrite IH, sum_values_add. unfold sum_costs. simpl. ring.
Qed.

Lemma sum_values_cost_by key recs :
  (sum_values (cost_by key recs) == sum_costs recs)%Q.
Proof.
  unfold cost_by. rewrite sum_values_cost_by_acc, sum_values_empty. ring.
Qed.

(** C7. Whatever Tracker one starts from and whatever events are then
    recorded, the records are the old ones followed by the new ones in
    order, [total_calls()] is their number, [total_tokens()] is the sum of
    input plus output tokens over them, and the values of
    [cost_by_function()] and of [cost_by_model()] each add up to
    [total_cost()] (costs are exact rationals here, so the sums agree
    exactly). *)
Theorem aggregates_self_consistent (t0 : Tracker.t) (d : Disk)
    (events : list CallRecord) :
  let t := fst (record_all t0 events d) in
  records t = records t0 ++ events /\
  total_calls t = length (records t) /\
  total_tokens t
  = fold_right Z.add 0%Z (map (fun r => (input_tokens r + output_tokens r)%Z) (records t)) /\
  (sum_values (cost_by_function t) == total_cost t)%Q /\
  (sum_values (cost_by_model t) == total_cost t)%Q.
Proof.
  cbv zeta. split; [apply records_record_all|].
  split; [reflexivity|]. split; [reflexivity|].
  split; apply sum_values_cost_by.
Qed.

(** [reset()] brings every aggregate back to zero. *)
Lemma reset_zeroes t :
  records (reset t) = [] /\ total_calls (reset t) = 0%nat /\
  total_tokens (reset t) = 0%Z /\ total_cost (reset t) = 0%Q.
Proof. repeat split. Qed.

End TrackerFacts.

(** ** Persistence *)

Section PersistFacts.
Import Py Run.

Lemma append_ok path event d :
  path ∉ Tracker.failing d ->
  fst (Tracker.append path event d) = true /\
  Tracker.failing (snd (Tracker.append path event d)) = Tracker.failing d /\
  Tracker.load_all path (snd (Tracker.append path event d))
  = Tracker.load_all path d ++ [event].
Proof.
  intros H. unfold Tracker.append. destruct (decide (path ∈ Tracker.failing d)); [contradiction|].
  simpl. repeat split. unfold Tracker.load_all. simpl.
  now rewrite lookup_insert_eq.
Qed.

Lemma record_persist tr path event d :
  Tracker._persist_path tr = Some path ->
  path ∉ Tracker.failing d ->
  Tracker._persist_path (fst (Tracker.record tr event d)) = Some path /\
  Tracker.failing (snd (Tracker.record tr event d)) = Tracker.failing d /\
  Tracker.load_all path (snd (Tracker.record tr event d))
  = Tracker.load_all path d ++ [event].
Proof.
  intros P H. unfold Tracker.record. rewrite P.
  destruct (append_ok path event d H) as [A [B C]].
  destruct (Tracker.append path event d) as [ok d']. simpl in *. auto.
Qed.

Lemma trackers_record_all_persist events : forall t tr path w,
  heap w !! t = Some tr ->
  Tracker._persist_path tr = Some path ->
  path ∉ Tracker.failing (disk w) ->
  exists w' tr',
    Trackers.record_all t events w = (Ret tt, w') /\
    length (heap w') = length (heap w) /\
    heap w' !! t = Some tr' /\
    Tracker.records tr' = Tracker.records tr ++ events /\
    Tracker.failing (disk w') = Tracker.failing (disk w) /\
    Tracker.load_all path (disk w') = Tracker.load_all path (disk w) ++ events.
Proof.
  induction events as [|e events IH]; intros t tr path w Ht P F.
  - exists w, tr. simpl. rewrite !app_nil_r. unfold ret. repeat split; auto.
  - simpl. unfold bind at 1. unfold Trackers.record at 1. rewrite Ht.
    destruct (record_persist tr path e (disk w) P F) as [P1 [F1 L1]].
    pose proof (records_after_record tr e (disk w)) as R1.
    destruct (Tracker.record tr e (disk w)) as [tr1 d1] eqn:E. simpl in *.
    set (w1 := set_heap (<[t:=tr1]> (heap w)) d1 w).
    assert (Ht1 : heap w1 !! t = Some tr1).
    { unfold w1. simpl. apply list_lookup_insert_eq. eapply lookup_lt_Some; eauto. }
    assert (F' : path ∉ Tracker.failing (disk w1)) by (unfold w1; simpl; now rewrite F1).
    destruct (IH t tr1 path w1 Ht1 P1 F') as [w' [tr' [E' [Len [Ht' [R' [Fl L']]]]]]].
    exists w', tr'. rewrite E'. split; [reflexivity|].
    split; [rewrite Len; unfold w1; simpl; apply length_insert|].
    split; [exact Ht'|].
    split; [rewrite R', R1, <- app_assoc; reflexivity|].
    split; [rewrite Fl; unfold w1; simpl; exact F1|].
    rewrite L'. unfold w1. simpl. rewrite L1, <- app_assoc. reflexivity.
Qed.

(** C9. Recording events through a Tracker bound to a store that is
    writable and holds nothing yet, and then loading from a second Tracker
    freshly opened on the same store, returns exactly the recorded events,
    in the order they were recorded and with every field as it was
    recorded. *)
Theorem persistence_round_trip (w : World) (path : string)
    (events : list Tracker.CallRecord) :
  path ∉ Tracker.failing (disk w) ->
  Tracker.load_all path (disk w) = [] ->
  fst (Scenario.persist_then_load path events w) = Ret events.
Proof.
  intros F L. unfold Scenario.persist_then_load.
  unfold bind at 1. unfold Trackers.new at 1.
  destruct (decide (path ∈ Tracker.failing (disk w))) as [?|_]; [contradiction|].
  match goal with |- context [set_heap ?h ?d w] => set (w0 := set_heap h d w) end.
  assert (H0 : heap w0 !! length (heap w) = Some (Tracker.__init__ (Some path))).
  { unfold w0. simpl. rewrite lookup_app_r by lia. now rewrite Nat.sub_diag. }
  assert (F0 : path ∉ Tracker.failing (disk w0)) by exact F.
  assert (L0 : Tracker.load_all path (disk w0) = []).
  { unfold w0, Tracker.load_all in *. simpl. rewrite lookup_insert_eq. simpl.
    exact L. }
  destruct (trackers_record_all_persist events _ _ path w0 H0 eq_refl F0)
    as [w1 [tr1 [E1 [Len [H1 [R1 [F1 L1]]]]]]].
  unfold bind at 1. rewrite E1.
  unfold bind at 1. unfold Trackers.new at 1.
  destruct (decide (path ∈ Tracker.failing (disk w1))) as [Hin|_];
    [rewrite F1 in Hin; contradiction|].
  match goal with |- context [set_heap ?h ?d w1] => set (w2 := set_heap h d w1) end.
  unfold Trackers.load_from_db.
  assert (H2 : heap w2 !! length (heap w1) = Some (Tracker.__init__ (Some path))).
  { unfold w2. simpl. rewrite lookup_app_r by lia. now rewrite Nat.sub_diag. }
  unfold tracker_id in *. rewrite H2. simpl. f_equal.
  unfold Tracker.load_from_db, Tracker.load_all in *. simpl.
  rewrite lookup_insert_eq. simpl.
  rewrite L1, L0. reflexivity.
Qed.
End PersistFacts.

(** C9, at the event of the test: one event of cost 0.042 USD. *)
Lemma persistence_round_trip_witness :
  fst (Scenario.persist_then_load "/tmp/test.db"
         [Scenario.event "persisted_fn" 1000 200 0.042%Q] Scenario.fresh)
  = Py.Ret [Scenario.event "persisted_fn" 1000 200 0.042%Q].
Proof.
  apply (persistence_round_trip Scenario.fresh "/tmp/test.db"
           [Scenario.event "persisted_fn" 1000 200 0.042%Q]).
  - simpl. apply not_elem_of_empty.
  - reflexivity.
Defined.

(** ** Concurrent writers *)

Section WriterFacts.
Import Writers.

Lemma outstanding_update (ws : list writer) i w w' :
  ws !! i = Some w ->
  remaining w' = remaining w ->
  concat (map remaining (<[i := w']> ws)) = concat (map remaining ws).
Proof.
  revert i. induction ws as [|x ws IH]; intros [|i] H E; simpl in *; try discriminate.
  - injection H as ->. now rewrite E.
  - now rewrite (IH i H E).
Qed.

Lemma outstanding_take (ws : list writer) i w w' event :
  ws !! i = Some w ->
  remaining w = event :: remaining w' ->
  Permutation (concat (map remaining ws))
              (event :: concat (map remaining (<[i := w']> ws))).
Proof.
  revert i. induction ws as [|x ws IH]; intros [|i] H E; simpl in *; try discriminate.
  - injection H as ->. now rewrite E.
  - rewrite (IH i H E). now rewrite Permutation_middle.
Qed.

Lemma step_outstanding i s :
  inv s ->
  Permutation (Tracker.records (ledger (step true i s)) ++ outstanding (step true i s))
              (Tracker.records (ledger s) ++ outstanding s).
Proof.
  intros [HL HS]. unfold step, outstanding.
  destruct (writers s !! i) as [[[|event rest] ph]|] eqn:E; try reflexivity.
  destruct ph as [| |snap|]; simpl.
  - destruct (held (lock s)); simpl; [reflexivity|].
    now rewrite (outstanding_update _ i _ _ E).
  - now rewrite (outstanding_update _ i _ _ E).
  - rewrite (HS i _ snap E eq_refl).
    rewrite records_after_record.
    rewrite (outstanding_take (writers s) i _ {| todo := event :: rest; at_ := Stored |} event E)
      by reflexivity.
    rewrite <- app_assoc. simpl. reflexivity.
  - now rewrite (outstanding_update _ i _ _ E).
Qed.

Lemma step_inv i s : inv s -> inv (step true i s).
Proof.
  intros I. pose proof I as [HL HS]. unfold step.
  destruct (writers s !! i) as [[[|event rest] ph]|] eqn:E; try exact I.
  assert (Hi : (i < length (writers s))%nat) by (eapply lookup_lt_Some; eauto).
  destruct ph as [| |snap|].
  - destruct (lock s) as [j|] eqn:L; simpl; [exact I|].
    split; simpl.
    + intros j w Hj Hw. destruct (decide (i = j)) as [->|N].
      * rewrite list_lookup_insert_eq in Hj by exact Hi. injection Hj as <-. now split.
      * rewrite list_lookup_insert_ne in Hj by exact N.
        destruct (HL j w Hj Hw) as [X _]. congruence.
    + intros j w snap Hj Hw. destruct (decide (i = j)) as [->|N].
      * rewrite list_lookup_insert_eq in Hj by exact Hi. injection Hj as <-. discriminate.
      * rewrite list_lookup_insert_ne in Hj by exact N. exact (HS j w snap Hj Hw).
  - destruct (HL i _ E) as [L _]; [simpl; discriminate|].
    split; simpl.
    + intros j w Hj Hw. destruct (decide (i = j)) as [->|N].
      * rewrite list_lookup_insert_eq in Hj by exact Hi. injection Hj as <-. now split.
      * rewrite list_lookup_insert_ne in Hj by exact N. exact (HL j w Hj Hw).
    + intros j w snap Hj Hw. destruct (decide (i = j)) as [->|N].
      * rewrite list_lookup_insert_eq in Hj by exact Hi. injection Hj as <-.
        simpl in Hw. now injection Hw as <-.
      * rewrite list_lookup_insert_ne in Hj by exact N. exact (HS j w snap Hj Hw).
  - destruct (HL i _ E) as [L _]; [simpl; discriminate|].
    split; simpl.
    + intros j w Hj Hw. destruct (decide (i = j)) as [->|N].
      * rewrite list_lookup_insert_eq in Hj by exact Hi. injection Hj as <-. now split.
      * rewrite list_lookup_insert_ne in Hj by exact N. exact (HL j w Hj Hw).
    + intros j w snap' Hj Hw. destruct (decide (i = j)) as [->|N].
      * rewrite list_lookup_insert_eq in Hj by exact Hi. injection Hj as <-. discriminate.
      * rewrite list_lookup_insert_ne in Hj by exact N.
        assert (Hn : at_ w <> Idle) by (rewrite Hw; discriminate).
        destruct (HL j w Hj Hn) as [X _]. congruence.
  - destruct (HL i _ E) as [L _]; [simpl; discriminate|].
    split; simpl.
    + intros j w Hj Hw. destruct (decide (i = j)) as [->|N].
      * rewrite list_lookup_insert_eq in Hj by exact Hi. injection Hj as <-.
        simpl in Hw. congruence.
      * rewrite list_lookup_insert_ne in Hj by exact N.
        destruct (HL j w Hj Hw) as [X _]. congruence.
    + intros j w snap Hj Hw. destruct (decide (i = j)) as [->|N].
      * rewrite list_lookup_insert_eq in Hj by exact Hi. injection Hj as <-. discriminate.
      * rewrite list_lookup_insert_ne in Hj by exact N.
        assert (Hn : at_ w <> Idle) by (rewrite Hw; discriminate).
        destruct (HL j w Hj Hn) as [X _]. congruence.
Qed.

Lemma run_outstanding schedule : forall s,
  inv s ->
  inv (run true schedule s) /\
  Permutation (Tracker.records (ledger (run true schedule s)) ++ outstanding (run true schedule s))
              (Tracker.records (ledger s) ++ outstanding s).
Proof.
  induction schedule as [|i schedule IH]; intros s I; simpl; [now split|].
  destruct (IH (step true i s) (step_inv i s I)) as [I' P].
  split; [exact I'|]. unfold run in *. simpl. rewrite P. now apply step_outstanding.
Qed.

Lemma start_inv t d events : inv (start t d events).
Proof.
  split; simpl.
  - intros i w H. rewrite list_lookup_fmap in H.
    destruct (events !! i); simpl in H; [|discriminate]. injection H as <-. simpl. congruence.
  - intros i w snap H. rewrite list_lookup_fmap in H.
    destruct (events !! i); simpl in H; [|discriminate]. injection H as <-. discriminate.
Qed.

Lemma start_outstanding t d events : outstanding (start t d events) = concat events.
Proof.
  unfold outstanding, start. simpl. rewrite map_map. simpl.
  now rewrite map_id.
Qed.

Lemma finished_outstanding s : inv s -> finished s = true -> outstanding s = [].
Proof.
  intros [HL _]. unfold finished, outstanding.
  assert (H : forall i w, writers s !! i = Some w -> at_ w <> Idle -> todo w <> [])
    by (intros i w A B; exact (proj2 (HL i w A B))).
  clear HL. revert H. induction (writers s) as [|w ws IH]; intros H F; simpl in *; [reflexivity|].
  apply andb_prop in F as [F1 F2].
  destruct (todo w) as [|e r] eqn:T; [|discriminate].
  assert (R : remaining w = []).
  { unfold remaining. rewrite T. now destruct (at_ w). }
  rewrite R. simpl. apply IH; [|exact F2].
  intros i w' A B. exact (H (S i) w' A B).
Qed.

Lemma length_concat_uniform (events : list (list Tracker.CallRecord)) M :
  Forall (fun p => length p = M) events ->
  length (concat events) = (length events * M)%nat.
Proof.
  induction 1 as [|p ps Hp _ IH]; simpl; [reflexivity|].
  rewrite length_app, IH, Hp. reflexivity.
Qed.

(** C6. [N] writers each issue [M] [record] calls on one Tracker, every
    call taking the Tracker's lock around its read and its write. However
    the scheduler interleaves their steps, once every writer is done
    [total_calls()] is exactly [N * M] and the records are the issued
    events, each once: none lost, none duplicated. *)
Theorem concurrent_writers_lose_nothing (N M : nat) (path : option string)
    (d : Tracker.Disk) (events : list (list Tracker.CallRecord)) (schedule : list nat) :
  length events = N ->
  Forall (fun p => length p = M) events ->
  let final := run true schedule (start (Tracker.__init__ path) d events) in
  finished final = true ->
  Tracker.total_calls (ledger final) = (N * M)%nat /\
  Permutation (Tracker.records (ledger final)) (concat events).
Proof.
  intros HN HM final Hfin.
  destruct (run_outstanding schedule (start (Tracker.__init__ path) d events)
              (start_inv _ d events)) as [I P].
  fold final in I, P.
  rewrite (finished_outstanding final I Hfin), app_nil_r in P.
  rewrite start_outstanding in P. simpl in P.
  split; [|exact P].
  unfold Tracker.total_calls. rewrite (Permutation_length P).
  rewrite (length_concat_uniform events M HM). now rewrite HN.
Qed.

Lemma run_app exclusive s1 s2 s :
  run exclusive (s1 ++ s2) s = run exclusive s2 (run exclusive s1 s).
Proof. unfold run. apply fold_left_app. Qed.

Lemma run_one_event i s event rest :
  writers s !! i = Some {| todo := event :: rest; at_ := Idle |} ->
  lock s = None ->
  run true [i; i; i; i] s
  = {| ledger := fst (Tracker.record (ledger s) event (store s));
       store := snd (Tracker.record (ledger s) event (store s));
       lock := None;
       writers := <[i := {| todo := rest; at_ := Idle |}]> (writers s) |}.
Proof.
  intros E L.
  assert (Hi : (i < length (writers s))%nat) by (eapply lookup_lt_Some; eauto).
  unfold run. simpl.
  unfold step at 4. rewrite E, L. simpl.
  unfold step at 3. simpl. rewrite list_lookup_insert_eq by exact Hi. simpl.
  unfold step at 2. simpl.
  rewrite list_lookup_insert_eq by (rewrite length_insert; exact Hi). simpl.
  unfold step. simpl.
  rewrite list_lookup_insert_eq by (rewrite !length_insert; exact Hi). simpl.
  now rewrite !list_insert_insert_eq.
Qed.

Lemma run_writer i p : forall s,
  writers s !! i = Some {| todo := p; at_ := Idle |} ->
  lock s = None ->
  writers (run true (replicate (4 * length p) i) s)
  = <[i := {| todo := []; at_ := Idle |}]> (writers s) /\
  lock (run true (replicate (4 * length p) i) s) = None.
Proof.
  induction p as [|event rest IH]; intros s E L.
  - simpl. split; [|exact L]. symmetry. now apply list_insert_id.
  - assert (Q : replicate (4 * length (event :: rest)) i
                = [i; i; i; i] ++ replicate (4 * length rest) i).
    { simpl length.
      replace (4 * S (length rest))%nat with (S (S (S (S (4 * length rest))))) by lia.
      reflexivity. }
    rewrite Q, run_app, (run_one_event i s event rest E L).
    assert (Hi : (i < length (writers s))%nat) by (eapply lookup_lt_Some; eauto).
    match goal with |- context [run true _ ?s1] => destruct (IH s1) as [W K] end.
    + simpl. now apply list_lookup_insert_eq.
    + reflexivity.
    + rewrite W, K. simpl. split; [|reflexivity]. apply list_insert_insert_eq.
Qed.

Lemma sequential_writers events : forall done s,
  writers s = done ++ map (fun p => {| todo := p; at_ := Idle |}) events ->
  lock s = None ->
  writers (run true (sequential (length done) events) s)
  = done ++ map (fun _ => {| todo := []; at_ := Idle |}) events.
Proof.
  induction events as [|p rest IH]; intros done s H L; simpl.
  - exact H.
  - rewrite run_app.
    assert (Hp : writers s !! length done = Some {| todo := p; at_ := Idle |}).
    { rewrite H. rewrite lookup_app_r by lia. now rewrite Nat.sub_diag. }
    destruct (run_writer (length done) p s Hp L) as [W K].
    rewrite H in W. rewrite insert_app_r_alt in W by lia.
    rewrite Nat.sub_diag in W. simpl in W.
    specialize (IH (done ++ [{| todo := []; at_ := Idle |}])
                   (run true (replicate (4 * length p) (length done)) s)).
    rewrite length_app in IH. simpl in IH. rewrite Nat.add_1_r in IH.
    simpl in W. rewrite IH.
    + now rewrite <- app_assoc.
    + rewrite W. now rewrite <- app_assoc.
    + exact K.
Qed.

(** Some schedule does let every writer finish. *)
Lemma sequential_finishes t d events :
  finished (run true (sequential 0 events) (start t d events)) = true.
Proof.
  unfold finished.
  pose proof (sequential_writers events [] (start t d events) eq_refl eq_refl) as P.
  simpl in P. rewrite P. clear P.
  induction events as [|p rest IH]; simpl; [reflexivity | exact IH].
Qed.

End WriterFacts.

(** C6, at two writers of two events each; the schedule interleaves them
    and has writers wait at the lock. *)
Lemma concurrent_writers_lose_nothing_witness :
  let events := [[Scenario.event "a" 1 1 0.01%Q; Scenario.event "a" 2 2 0.02%Q];
                 [Scenario.event "b" 3 3 0.03%Q; Scenario.event "b" 4 4 0.04%Q]] in
  let schedule := [0; 1; 0; 1; 0; 0; 1; 0; 1; 1; 1; 0; 0; 0; 0; 1; 1; 1; 1]%nat in
  let final := Writers.run true schedule
                 (Writers.start (Tracker.__init__ None) (disk Scenario.fresh) events) in
  Tracker.total_calls (Writers.ledger final) = 4%nat /\
  Permutation (Tracker.records (Writers.ledger final)) (concat events).
Proof.
  cbv zeta.
  apply (concurrent_writers_lose_nothing 2 2 None (disk Scenario.fresh)
           [[Scenario.event "a" 1 1 0.01%Q; Scenario.event "a" 2 2 0.02%Q];
            [Scenario.event "b" 3 3 0.03%Q; Scenario.event "b" 4 4 0.04%Q]]
           [0; 1; 0; 1; 0; 0; 1; 0; 1; 1; 1; 0; 0; 0; 0; 1; 1; 1; 1]%nat).
  - reflexivity.
  - repeat constructor.
  - reflexivity.
Defined.

(** What the lock is for: without it two writers can both read the empty
    Tracker, and the second write overwrites the first; one of the two
    events is lost. *)
Lemma unlocked_writers_lose_an_event :
  let events := [[Scenario.event "a" 1 1 0.01%Q]; [Scenario.event "b" 3 3 0.03%Q]] in
  let final := Writers.run false [0; 0; 1; 1; 0; 1; 0; 1]%nat
                 (Writers.start (Tracker.__init__ None) (disk Scenario.fresh) events) in
  Writers.finished final = true /\
  Tracker.records (Writers.ledger final) = [Scenario.event "b" 3 3 0.03%Q].
Proof. split; reflexivity. Qed.

(** * Further properties of the code *)

(** ** Sorting *)

Section SortFacts.
Context {A : Type} (le : A -> A -> bool).

Lemma insert_sorted_Permutation x l :
  Permutation (PyList.insert_sorted le x l) (x :: l).
Proof.
  induction l as [|y l IH]; simpl; [reflexivity|].
  destruct (le y x); [|reflexivity].
  rewrite IH. apply perm_swap.
Qed.

Lemma sorted_acc_Permutation l : forall acc,
  Permutation (fold_left (fun acc x => PyList.insert_sorted le x acc) l acc) (acc ++ l).
Proof.
  induction l as [|x l IH]; intros acc; simpl.
  - now rewrite app_nil_r.
  - rewrite IH, insert_sorted_Permutation. simpl. apply Permutation_middle.
Qed.

Lemma sorted_Permutation l : Permutation (PyList.sorted le l) l.
Proof. unfold PyList.sorted. now rewrite sorted_acc_Permutation. Qed.

Hypothesis le_total : forall a b, le a b = true \/ le b a = true.

Lemma insert_sorted_Sorted x l :
  Sorted (fun a b => le a b = true) l ->
  Sorted (fun a b => le a b = true) (PyList.insert_sorted le x l).
Proof.
  induction 1 as [|y l Hl IH Hy]; simpl; [repeat constructor|].
  destruct (le y x) eqn:E.
  - constructor; [exact IH|].
    destruct l as [|z l]; simpl; [now constructor|].
    destruct (le z x); constructor; [|exact E].
    now inversion Hy.
  - constructor; [now constructor|]. constructor.
    destruct (le_total x y) as [H|H]; [exact H | congruence].
Qed.

Lemma sorted_Sorted l : Sorted (fun a b => le a b = true) (PyList.sorted le l).
Proof.
  unfold PyList.sorted.
  assert (H : forall acc, Sorted (fun a b => le a b = true) acc ->
            Sorted (fun a b => le a b = true)
              (fold_left (fun acc x => PyList.insert_sorted le x acc) l acc)).
  { induction l as [|x l IH]; intros acc Hacc; simpl; [exact Hacc|].
    apply IH. now apply insert_sorted_Sorted. }
  apply H. constructor.
Qed.

End SortFacts.
(** ** More on pricing.py *)

Section MorePricingFacts.
Import Pricing.

Lemma PRICING_entries_exact :
  Forall (fun entry => dict_get PRICING (fst entry) = Some (snd entry) /\
                       PyStr.lower (fst entry) = fst entry) PRICING.
Proof. unfold PRICING. repeat (constructor; [split; reflexivity|]). constructor. Qed.

Lemma table_entry_lookup key rates model :
  In (key, rates) PRICING ->
  PyStr.lower model = key ->
  _lookup (PyStr.lower model) = Some rates.
Proof.
  intros Hin Hl.
  pose proof PRICING_entries_exact as F. rewrite List.Forall_forall in F.
  destruct (F _ Hin) as [E _]. cbn [fst snd] in E.
  unfold _lookup. now rewrite Hl, E.
Qed.

(** A name that is, up to letter case, a key of the pricing table is
    priced at that key's own rates: the exact match comes before the
    prefix match, so an earlier key that is a prefix of the name (as "o1"
    is of "o1-mini") does not take it over. *)
Theorem table_entry_priced_at_own_rates (key : string) (rates : Q * Q)
    (model : string) (i o : Z) :
  In (key, rates) PRICING ->
  PyStr.lower model = key ->
  get_price_per_million model = Some rates /\
  calculate model i o = cost_at_rates rates i o.
Proof.
  intros Hin Hl.
  pose proof (table_entry_lookup key rates model Hin Hl) as E.
  unfold get_price_per_million, calculate. rewrite E.
  split; [reflexivity|]. now destruct rates.
Qed.

(** The lookup finds no price exactly for the names that are in no prefix
    relation, either way, with any key of the table; those are the names
    [calculate] prices at zero. *)
Theorem lookup_fails_only_for_unrelated_names (model : string) :
  get_price_per_million model = None <-> unknown_model model.
Proof.
  unfold get_price_per_million, unknown_model. split.
  - unfold _lookup. destruct (dict_get PRICING (PyStr.lower model)); [discriminate|].
    destruct (List.find _ PRICING) as [e|] eqn:F; [discriminate|]. intros _.
    apply List.Forall_forall. intros e He.
    exact (List.find_none _ _ F e He).
  - intros H. unfold _lookup.
    now rewrite (dict_get_unrelated _ H), (find_unrelated _ H).
Qed.

(** Helpers on the cost formula. *)
Lemma calculate_cost_at_rates model i o :
  calculate model i o
  = match get_price_per_million model with
    | None => 0.0%Q
    | Some r => cost_at_rates r i o
    end.
Proof.
  unfold calculate, get_price_per_million.
  now destruct (_lookup (PyStr.lower model)) as [[ip op]|].
Qed.

Lemma cost_at_rates_mono r i o i2 o2 :
  (0 <= fst r)%Q -> (0 <= snd r)%Q -> (i <= i2)%Z -> (o <= o2)%Z ->
  (cost_at_rates r i o <= cost_at_rates r i2 o2)%Q.
Proof.
  intros H1 H2 Hi Ho. unfold cost_at_rates, Qdiv.
  apply Qmult_le_compat_r; [|now vm_compute].
  apply Qplus_le_compat; (apply Qmult_le_compat_r; [|assumption]);
    unfold Qle; simpl; lia.
Qed.


Lemma CHEAPER_ALTERNATIVES_cheaper : Forall cheaper_entry CHEAPER_ALTERNATIVES.
Proof.
  unfold CHEAPER_ALTERNATIVES.
  repeat (constructor;
          [eexists; eexists; repeat split; try reflexivity|]).
  constructor.
Qed.

Lemma cost_at_rates_le r a i o :
  (0 <= i)%Z -> (0 <= o)%Z ->
  (fst a <= fst r)%Q -> (snd a <= snd r)%Q ->
  (cost_at_rates a i o <= cost_at_rates r i o)%Q.
Proof.
  intros Hi Ho H1 H2. unfold cost_at_rates, Qdiv.
  apply Qmult_le_compat_r; [|now vm_compute].
  assert (Hi' : (0 <= inject_Z i)%Q) by (unfold Qle; simpl; lia).
  assert (Ho' : (0 <= inject_Z o)%Q) by (unfold Qle; simpl; lia).
  apply Qplus_le_compat.
  - rewrite !(Qmult_comm (inject_Z i)). now apply Qmult_le_compat_r.
  - rewrite !(Qmult_comm (inject_Z o)). now apply Qmult_le_compat_r.
Qed.

(** The alternative [get_cheaper_alternative] names is a model of the
    pricing table with strictly lower rates for input and for output, so
    the same call never costs more on it. *)
Theorem cheaper_alternative_is_cheaper (model alt : string) :
  get_cheaper_alternative model = Some alt ->
  exists r a,
    get_price_per_million model = Some r /\
    get_price_per_million alt = Some a /\
    (fst a < fst r)%Q /\ (snd a < snd r)%Q /\
    forall i o, (0 <= i)%Z -> (0 <= o)%Z ->
                (calculate alt i o <= calculate model i o)%Q.
Proof.
  intros H. unfold get_cheaper_alternative in H. apply dict_get_In in H.
  pose proof CHEAPER_ALTERNATIVES_cheaper as F. rewrite List.Forall_forall in F.
  destruct (F _ H) as [r [a [Er [Ea [La [H1 H2]]]]]]. cbn [fst snd] in Er, Ea, La.
  assert (Pm : get_price_per_million model = Some r).
  { unfold get_price_per_million, _lookup. now rewrite Er. }
  assert (Pa : get_price_per_million alt = Some a).
  { unfold get_price_per_million, _lookup. now rewrite La, Ea. }
  exists r, a. repeat split; try assumption.
  intros i o Hi Ho. rewrite !calculate_cost_at_rates, Pm, Pa.
  apply cost_at_rates_le; try assumption; now apply Qlt_le_weak.
Qed.

Lemma dict_get_In_values {V} (d : list (string * V)) k v :
  dict_get d k = Some v -> In v (map snd d).
Proof.
  intros H. apply dict_get_In in H. now apply (in_map snd) in H.
Qed.

(** Following the cheaper alternatives from any model ends after at most
    two steps: the table has no cycle. *)
Theorem alternative_chains_end (model : string) :
  alternative_chain 3 model = None.
Proof.
  simpl. destruct (get_cheaper_alternative model) as [a1|] eqn:E; [|reflexivity].
  unfold get_cheaper_alternative in E. apply dict_get_In_values in E.
  assert (F : Forall (fun v => alternative_chain 2 v = None) (map snd CHEAPER_ALTERNATIVES)).
  { simpl. repeat (constructor; [reflexivity|]). constructor. }
  rewrite List.Forall_forall in F. exact (F _ E).
Qed.

Lemma list_models_Permutation : Permutation list_models (map fst PRICING).
Proof. apply sorted_Permutation. Qed.

(** [list_models()] is strictly increasing, so it has no duplicate, and
    it holds exactly the keys of the pricing table, each of which the
    lookup prices at its own rates. *)
Theorem list_models_sorted_and_priced :
  Sorted (fun a b => String.ltb a b = true) list_models /\
  forall model, In model list_models <->
                exists rates, In (model, rates) PRICING /\
                              get_price_per_million model = Some rates.
Proof.
  split.
  - unfold list_models. set (l := PyList.sorted _ _). vm_compute in l. subst l.
    repeat constructor.
  - intros model. split.
    + intros H. apply (Permutation_in _ list_models_Permutation) in H.
      apply in_map_iff in H as [[k r] [E H]]. simpl in E. subst k.
      exists r. split; [exact H|].
      pose proof PRICING_entries_exact as F. rewrite List.Forall_forall in F.
      destruct (F _ H) as [_ L]. cbn [fst snd] in L.
      exact (table_entry_lookup model r model H L).
    + intros [r [H _]]. apply (Permutation_in _ (Permutation_sym list_models_Permutation)).
      now apply (in_map fst) in H.
Qed.

End MorePricingFacts.
(** ** The life cycle of the patches *)

Section LifecycleFacts.
Import Py Run.

Lemma anthropic_patch_idempotent t1 t2 r1 r2 g :
  snd (Anthropic.patch t2 r2 (snd (Anthropic.patch t1 r1 g)))
  = snd (Anthropic.patch t1 r1 g).
Proof.
  unfold Anthropic.patch.
  destruct (AnthropicGlobals.sdk g) as [m|] eqn:S; simpl; [|now rewrite S].
  destruct (AnthropicGlobals._patched g) eqn:P; simpl; [now rewrite S, P|].
  reflexivity.
Qed.

Lemma openai_unpatch_idempotent g : OpenAI.unpatch (OpenAI.unpatch g) = OpenAI.unpatch g.
Proof.
  unfold OpenAI.unpatch at 2 3.
  destruct (OpenAIGlobals._patched g) eqn:P; simpl.
  - reflexivity.
  - unfold OpenAI.unpatch. now rewrite P.
Qed.

Lemma google_unpatch_idempotent g : Google.unpatch (Google.unpatch g) = Google.unpatch g.
Proof.
  unfold Google.unpatch at 2 3.
  destruct (GoogleGlobals._patched g) eqn:P; simpl.
  - reflexivity.
  - unfold Google.unpatch. now rewrite P.
Qed.

Lemma anthropic_unpatch_idempotent g :
  Anthropic.unpatch (Anthropic.unpatch g) = Anthropic.unpatch g.
Proof.
  unfold Anthropic.unpatch at 2 3.
  destruct (AnthropicGlobals._patched g) eqn:P; simpl.
  - reflexivity.
  - unfold Anthropic.unpatch. now rewrite P.
Qed.

Lemma activate_any_run tracker w :
  Interceptor.activate tracker w = (Ret tt, activated (resolve tracker w) w).
Proof. destruct tracker; reflexivity. Qed.

Lemma activated_idempotent t1 t2 w : activated t2 (activated t1 w) = activated t1 w.
Proof.
  unfold activated, set_providers. simpl.
  now rewrite openai_patch_idempotent, anthropic_patch_idempotent, google_patch_idempotent.
Qed.

Lemma deactivated_idempotent w : deactivated (deactivated w) = deactivated w.
Proof.
  unfold deactivated, set_providers. simpl.
  now rewrite openai_unpatch_idempotent, anthropic_unpatch_idempotent,
    google_unpatch_idempotent.
Qed.

(** Activating twice is activating once: the second call, whatever
    Tracker it names, changes nothing, so the patches stay bound to the
    first Tracker. Deactivating twice is deactivating once. The flag
    [is_active] reads is set by the one and cleared by the other. *)
Theorem activation_is_idempotent (first second : option tracker_id) (w : World) :
  (Interceptor.activate first;; Interceptor.activate second) w
  = Interceptor.activate first w /\
  (Interceptor.deactivate;; Interceptor.deactivate) w = Interceptor.deactivate w /\
  fst (Interceptor.is_active (snd (Interceptor.activate first w))) = Ret true /\
  fst (Interceptor.is_active (snd (Interceptor.deactivate w))) = Ret false.
Proof.
  repeat split.
  - unfold bind. rewrite !activate_any_run, activated_idempotent. reflexivity.
  - unfold bind. rewrite !deactivate_run, deactivated_idempotent. reflexivity.
  - now rewrite activate_any_run.
Qed.

(** The decorator never deactivates: when the profiled function leaves
    the provider module and the flag alone, the interceptor is still
    active after the wrapper has returned or raised, and the OpenAI
    module is as [patch] for the global Tracker left it. *)
Theorem profile_leaves_interception_on {A} (qualname : string) (func : M A)
    (w : World) (prev : string) :
  fst (Interceptor.get_current_function w) = Ret prev ->
  _current_function (snd (func (entered qualname w))) <> [] ->
  _active (snd (func (entered qualname w))) = _active (entered qualname w) ->
  openai (snd (func (entered qualname w))) = openai (entered qualname w) ->
  let after := snd (Profiler.profile qualname func w) in
  fst (Interceptor.is_active after) = Ret true /\
  openai after
  = snd (OpenAI.patch (_global_tracker w) interceptor_current_function (openai w)).
Proof.
  intros Hprev Hcell Hact Hopen. cbv zeta.
  unfold Interceptor.get_current_function in Hprev.
  destruct (_current_function w) as [|c rest] eqn:Hc; simpl in Hprev; [discriminate|].
  rewrite (profile_run qualname func w c rest Hc).
  assert (Hin : entered qualname w
                = set_cell (qualname :: rest) (activated (_global_tracker w) w)).
  { unfold entered. now rewrite Hc. }
  rewrite <- Hin. unfold try_finally.
  destruct (func (entered qualname w)) as [r w1] eqn:B. cbn [snd] in *.
  destruct (_current_function w1) as [|c1 rest1] eqn:C1; [contradiction|].
  rewrite (set_current_function_run c w1 c1 rest1 C1). cbn [fst snd].
  unfold Interceptor.is_active. cbn [fst].
  split.
  - f_equal. change (_active (set_cell (c :: rest1) w1)) with (_active w1).
    rewrite Hact. reflexivity.
  - change (openai (set_cell (c :: rest1) w1)) with (openai w1). rewrite Hopen.
    reflexivity.
Qed.

End LifecycleFacts.

(** ** Sessions *)

Section SessionFacts.
Import Py Run.

Lemma session_enter_run' s w c rest :
  _current_function w = c :: rest ->
  Session.__enter__ s w = (Ret s, session_entered s w).
Proof.
  intros H. rewrite (session_enter_run s w c rest H).
  unfold session_entered. now rewrite H.
Qed.

(** Leaving a session does not write the previous function name back:
    unlike the decorator, [__exit__] leaves the session's own name in the
    interceptor's list, and it switches interception off. *)
Theorem session_leaves_its_name_behind {A} (self : Session.t) (body : Session.t -> M A)
    (w : World) (prev : string) (tr : Tracker.t) :
  fst (Interceptor.get_current_function w) = Ret prev ->
  _current_function (snd (body self (session_entered self w)))
  = _current_function (session_entered self w) ->
  heap (snd (body self (session_entered self w))) !! Session._tracker self = Some tr ->
  let after := snd (Session.with_ self body w) in
  fst (Interceptor.get_current_function after) = Ret (Session.name self) /\
  fst (Interceptor.is_active after) = Ret false.
Proof.
  intros Hprev Hbody Hheap. cbv zeta.
  unfold Interceptor.get_current_function in Hprev.
  destruct (_current_function w) as [|c rest] eqn:Hc; simpl in Hprev; [discriminate|].
  unfold Session.with_, bind.
  rewrite (session_enter_run' self w c rest Hc).
  destruct (body self (session_entered self w)) as [r w1] eqn:B. simpl in Hbody, Hheap.
  rewrite (session_exit_run self tr w1 Hheap).
  assert (Hcell : _current_function (deactivated w1) = Session.name self :: rest).
  { rewrite cell_deactivated, Hbody. unfold session_entered. simpl. now rewrite Hc. }
  destruct r; simpl; (split; [|reflexivity]);
    now rewrite (get_current_function_run _ _ _ Hcell).
Qed.

Lemma sum_Q_fold_right (xs : list Q) :
  (sum_Q xs == fold_right Qplus 0 xs)%Q.
Proof.
  unfold sum_Q.
  assert (H : forall acc, (fold_left Qplus xs acc == acc + fold_right Qplus 0 xs)%Q).
  { induction xs as [|x xs IH]; intros acc; simpl; [ring|]. rewrite IH. ring. }
  rewrite H. ring.
Qed.

Lemma sum_Z_fold_right (xs : list Z) :
  sum_Z xs = fold_right Z.add 0%Z xs.
Proof.
  unfold sum_Z.
  assert (H : forall acc, fold_left Z.add xs acc = (acc + fold_right Z.add 0 xs)%Z).
  { induction xs as [|x xs IH]; intros acc; simpl; [lia|]. rewrite IH. lia. }
  rewrite H. lia.
Qed.

Lemma session_cost_run s tr w :
  heap w !! Session._tracker s = Some tr ->
  Session.cost s w
  = (Ret (or_Q (Tracker.total_cost tr)
               (sum_Q (map Tracker.cost_usd (Session._records s)))), w).
Proof.
  intros H. unfold Session.cost, bind, Trackers.total_cost.
  unfold tracker_id in *. now rewrite H.
Qed.

Lemma session_tokens_run s tr w :
  heap w !! Session._tracker s = Some tr ->
  Session.tokens s w
  = (Ret (or_Z (Tracker.total_tokens tr)
               (sum_Z (map Tracker.total_tokens_of (Session._records s)))), w).
Proof.
  intros H. unfold Session.tokens, bind, Trackers.total_tokens.
  unfold tracker_id in *. now rewrite H.
Qed.

Lemma tracker_reset_run t tr w :
  heap w !! t = Some tr ->
  Trackers.reset t w
  = (Ret tt, set_heap (<[t := Tracker.reset tr]> (heap w)) (disk w) w).
Proof.
  intros H. unfold Trackers.reset. unfold tracker_id in *. now rewrite H.
Qed.

Lemma or_Q_snapshot x y : (y == x)%Q -> (or_Q x y == x)%Q.
Proof.
  intros H. unfold or_Q. destruct (Qeq_bool x 0); [exact H | reflexivity].
Qed.

Lemma or_Z_snapshot x y : y = x -> or_Z x y = x.
Proof.
  intros H. unfold or_Z. destruct (x =? 0)%Z; [exact H | reflexivity].
Qed.

(** The figures of a session after its block: [calls] is the number of
    events the session's Tracker held on exit, [cost] and [tokens] are the
    Tracker's totals, and once the Tracker has been reset they fall back
    to the sums over the snapshot taken on exit, which are the same
    numbers. *)
Theorem session_figures (self : Session.t) (tr : Tracker.t) (w : World) :
  heap w !! Session._tracker self = Some tr ->
  exists closed cost,
    Session.__exit__ self w = (Ret closed, deactivated w) /\
    Session.calls closed = Tracker.total_calls tr /\
    fst (Session.cost closed (deactivated w)) = Ret cost /\
    (cost == Tracker.total_cost tr)%Q /\
    fst (Session.tokens closed (deactivated w)) = Ret (Tracker.total_tokens tr) /\
    (exists cost', fst ((Trackers.reset (Session._tracker self);; Session.cost closed)
                          (deactivated w)) = Ret cost' /\
                   (cost' == Tracker.total_cost tr)%Q) /\
    fst ((Trackers.reset (Session._tracker self);; Session.tokens closed)
           (deactivated w)) = Ret (Tracker.total_tokens tr).
Proof.
  intros H.
  set (closed := {| Session.name := Session.name self;
                    Session._tracker := Session._tracker self;
                    Session._records := Tracker.records tr |}).
  assert (Hd : heap (deactivated w) !! Session._tracker closed = Some tr) by exact H.
  assert (Hs : heap (deactivated w) !! Session._tracker self = Some tr) by exact H.
  assert (S : (sum_Q (map Tracker.cost_usd (Tracker.records tr)) == Tracker.total_cost tr)%Q)
    by apply sum_Q_fold_right.
  assert (T : sum_Z (map Tracker.total_tokens_of (Tracker.records tr))
              = Tracker.total_tokens tr) by apply sum_Z_fold_right.
  set (w' := set_heap (<[Session._tracker self := Tracker.reset tr]> (heap (deactivated w)))
                      (disk (deactivated w)) (deactivated w)).
  assert (Hr : heap w' !! Session._tracker closed = Some (Tracker.reset tr)).
  { unfold w'. simpl. apply list_lookup_insert_eq.
    eapply lookup_lt_Some. exact Hd. }
  exists closed, (or_Q (Tracker.total_cost tr)
                    (sum_Q (map Tracker.cost_usd (Tracker.records tr)))).
  split; [apply (session_exit_run self tr w H)|].
  split; [reflexivity|].
  split; [now rewrite (session_cost_run closed tr _ Hd)|].
  split; [now apply or_Q_snapshot|].
  split.
  { rewrite (session_tokens_run closed tr _ Hd). simpl. f_equal.
    now apply or_Z_snapshot. }
  split.
  { exists (sum_Q (map Tracker.cost_usd (Tracker.records tr))). split; [|exact S].
    unfold bind. rewrite (tracker_reset_run _ tr _ Hs). fold w'.
    now rewrite (session_cost_run closed _ _ Hr). }
  unfold bind. rewrite (tracker_reset_run _ tr _ Hs). fold w'.
  rewrite (session_tokens_run closed _ _ Hr). simpl. f_equal. exact T.
Qed.

End SessionFacts.

(** ** Calls through the patches *)

Section ProviderFacts.
Import Py Run.
Import OpenAISdk.

(** An exception of the SDK function passes through the patch unchanged,
    and nothing is recorded. *)
Theorem sdk_exception_passes_through (t tg : tracker_id)
    (f fa : Kwargs -> outcome Response)
    (fg : GoogleSdk.GenerativeModel -> outcome GoogleSdk.Response)
    (kwargs : Kwargs) (self : GoogleSdk.GenerativeModel) (d : Q) (e : exn) (w : World) :
  openai w = openai_patched t (SyncNative f) (Some (AsyncNative fa)) ->
  google w = google_patched tg (GoogleSdk.Native fg) ->
  (f kwargs = Raise e -> OpenAI.create kwargs d w = (Raise e, w)) /\
  (fa kwargs = Raise e -> OpenAI.acreate kwargs d w = (Raise e, w)) /\
  (fg self = Raise e -> Google.generate_content self d w = (Raise e, w)).
Proof.
  intros O G. repeat split; intros F.
  - unfold OpenAI.create, OpenAI._patched_create, OpenAI.call_original_create, bind.
    rewrite O. simpl. now rewrite F.
  - unfold OpenAI.acreate, OpenAI._patched_acreate, OpenAI.call_original_acreate, bind.
    rewrite O. simpl. now rewrite F.
  - unfold Google.generate_content, Google._patched_generate,
      Google.call_original_generate, bind.
    rewrite G. simpl. now rewrite F.
Qed.

Lemma make_calls_run calls : forall t tr f a w,
  openai w = openai_patched t (SyncNative f) a ->
  heap w !! t = Some tr ->
  (forall c, In c calls -> f (Client.kwargs_for c) = Ret (Client.answer_to c)) ->
  fst (Client.make_calls calls w) = Ret tt /\
  (exists tr', heap (snd (Client.make_calls calls w)) !! t = Some tr' /\
               Tracker.records tr'
               = Tracker.records tr ++ map (Client.event_for (_current_function w)) calls) /\
  (forall t', t' <> t ->
     heap (snd (Client.make_calls calls w)) !! t' = heap w !! t') /\
  _current_function (snd (Client.make_calls calls w)) = _current_function w /\
  openai (snd (Client.make_calls calls w)) = openai w.
Proof.
  induction calls as [|c rest IH]; intros t tr f a w O H F.
  - simpl. repeat split; try reflexivity.
    exists tr. split; [exact H | now rewrite app_nil_r].
  - assert (Fc : f (Scenario.kwargs_of (Client.call_model c))
                 = Ret (Scenario.response_of (Client.call_input c) (Client.call_output c)
                                             (Client.call_text c))).
    { apply (F c). now left. }
    pose proof (create_patched_run t tr f a (Client.call_model c) (Client.call_input c)
                  (Client.call_output c) (Client.call_text c) (Client.call_ms c) w O H Fc) as E.
    set (ev := Scenario.event_of (_current_function w) (Client.call_model c)
                 (Client.call_input c) (Client.call_output c) (Client.call_ms c)) in *.
    assert (R : Client.make_calls (c :: rest) w
                = Client.make_calls rest (recorded t tr ev w)).
    { simpl. unfold bind. unfold Client.kwargs_for. now rewrite E. }
    rewrite R.
    destruct (IH t (fst (Tracker.record tr ev (disk w))) f a (recorded t tr ev w))
      as [I1 [[tr' [I2 I2']] [I3 [I4 I5]]]].
    + rewrite openai_recorded. exact O.
    + now apply heap_recorded_eq.
    + intros c' Hc'. apply F. now right.
    + split; [exact I1|]. split; [|split; [|split]].
      * exists tr'. split; [exact I2|].
        rewrite I2', records_after_record, cell_recorded. simpl.
        now rewrite <- app_assoc.
      * intros t' Hne. rewrite (I3 t' Hne). apply heap_recorded_ne. congruence.
      * now rewrite I4, cell_recorded.
      * now rewrite I5, openai_recorded.
Qed.



Lemma unknown_default_model : Pricing.unknown_model "unknown".
Proof.
  unfold Pricing.unknown_model. apply List.Forall_forall. intros e He.
  assert (H : forallb (fun e => negb (Pricing.prefix_related
                 (PyStr.lower "unknown") e)) Pricing.PRICING = true)
    by (vm_compute; reflexivity).
  rewrite forallb_forall in H. specialize (H e He).
  now destruct (Pricing.prefix_related _ e).
Qed.

(** A call that names no model is recorded as model "unknown", with the
    token counts of the response and a cost of exactly zero. *)
Theorem call_without_model_is_recorded_as_unknown (t : tracker_id) (tr : Tracker.t)
    (f : Kwargs -> outcome Response) (a : option async_method)
    (i o : Z) (text : string) (d : Q) (w : World) :
  openai w = openai_patched t (SyncNative f) a ->
  heap w !! t = Some tr ->
  f {| kw_model := None |} = Ret (Scenario.response_of i o text) ->
  exists event,
    fst (OpenAI.create {| kw_model := None |} d w) = Ret (Scenario.response_of i o text) /\
    Trackers.events t (snd (OpenAI.create {| kw_model := None |} d w))
    = Tracker.records tr ++ [event] /\
    Tracker.model event = "unknown" /\
    Tracker.input_tokens event = i /\
    Tracker.output_tokens event = o /\
    (Tracker.cost_usd event == 0)%Q /\
    Tracker.provider event = "openai".
Proof.
  intros O H F.
  set (event := {| Tracker.function_name :=
                     match _current_function w with [] => "<unknown>" | n :: _ => n end;
                   Tracker.call_stack := _current_function w;
                   Tracker.model := "unknown"; Tracker.provider := "openai";
                   Tracker.input_tokens := or_zero (Some i);
                   Tracker.output_tokens := or_zero (Some o);
                   Tracker.cost_usd :=
                     Pricing.calculate "unknown" (or_zero (Some i)) (or_zero (Some o));
                   Tracker.duration_ms := d |}).
  assert (E : OpenAI.create {| kw_model := None |} d w
              = (Ret (Scenario.response_of i o text), recorded t tr event w)).
  { unfold OpenAI.create, OpenAI._patched_create, OpenAI.call_original_create, bind.
    rewrite O. simpl. rewrite F.
    unfold OpenAI._record, try_except_pass, OpenAI._record_body, bind, lift, get.
    subst event. unfold recorded.
    simpl. unfold Trackers.record. unfold tracker_id in *. rewrite H.
    destruct (Tracker.record tr _ (disk w)) as [tr' d'] eqn:R. simpl.
    reflexivity. }
  exists event. rewrite E. simpl.
  split; [reflexivity|]. split; [now apply events_recorded_eq|].
  split; [reflexivity|].
  assert (Z0 : forall z, or_zero (Some z) = z).
  { intros z. unfold or_zero. destruct (z =? 0)%Z eqn:Ez; [|reflexivity].
    apply Z.eqb_eq in Ez. now subst. }
  split; [apply Z0|]. split; [apply Z0|]. split; [|reflexivity].
  simpl. now rewrite (calculate_unknown _ _ _ unknown_default_model).
Qed.

End ProviderFacts.

(** ** A patch left behind *)

Section StaleFacts.
Import Py Run.
Import OpenAISdk.

(** The test fixture clears [_patched] and [_original_create] without
    putting the SDK function back. The closure left on [Completions.create]
    then calls [None], a TypeError; and [patch], run again, saves that
    closure as the original, so that every later call recurses without
    end. Nothing is recorded either way. *)
Theorem leftover_closure_breaks_every_call (t : tracker_id)
    (f : sync_method) (a : option async_method)
    (kwargs : Kwargs) (d : Q) (w : World) :
  openai w = openai_patched t f a ->
  let reset := snd (Conftest.reset_global_tracker w) in
  OpenAI.create kwargs d reset = (Raise TypeError, reset) /\
  forall tracker : option tracker_id,
    let again := snd (Interceptor.activate tracker reset) in
    OpenAI.create kwargs d again = (Raise RecursionError, again).
Proof.
  intros O. cbv zeta. split.
  - unfold OpenAI.create, OpenAI._patched_create, OpenAI.call_original_create, bind.
    simpl. rewrite O. reflexivity.
  - intros tracker.
    unfold OpenAI.create, OpenAI._patched_create, OpenAI.call_original_create, bind.
    destruct a, tracker; simpl; rewrite O; reflexivity.
Qed.

End StaleFacts.

(** ** Model names of the Google SDK *)

Section GoogleFacts.
Import Py Run.
Import GoogleSdk.

Lemma last_segment_no_separator c s :
  PyStr.contains_char c (PyStr.last_segment c s) = false.
Proof.
  induction s as [|x s IH]; simpl; [reflexivity|].
  destruct (Ascii.eqb c x) eqn:E; [exact IH|].
  destruct (PyStr.contains_char c s) eqn:C; [exact IH|].
  simpl. now rewrite E, C.
Qed.

Lemma last_segment_suffix c s :
  exists dir, s = String.append dir (PyStr.last_segment c s).
Proof.
  induction s as [|x s [dir IH]]; simpl.
  - now exists EmptyString.
  - destruct (Ascii.eqb c x).
    + exists (String x dir). now rewrite IH at 1.
    + destruct (PyStr.contains_char c s).
      * exists (String x dir). now rewrite IH at 1.
      * now exists EmptyString.
Qed.

Lemma last_segment_whole c s :
  PyStr.contains_char c s = false -> PyStr.last_segment c s = s.
Proof.
  destruct s as [|x s]; simpl; [reflexivity|].
  destruct (Ascii.eqb c x); [discriminate|]. now intros ->.
Qed.

Lemma last_segment_after c dir base :
  PyStr.contains_char c base = false ->
  PyStr.last_segment c (String.append dir (String c base)) = base.
Proof.
  intros H. induction dir as [|x dir IH]; simpl.
  - rewrite Ascii.eqb_refl. now apply last_segment_whole.
  - destruct (Ascii.eqb c x); [exact IH|].
    assert (C : PyStr.contains_char c (String.append dir (String c base)) = true).
    { clear IH. induction dir as [|y dir IHd]; simpl.
      - now rewrite Ascii.eqb_refl.
      - destruct (Ascii.eqb c y); [reflexivity | exact IHd]. }
    now rewrite C.
Qed.

(** The Google patch records a model under the part of its name after the
    last "/" ("models/gemini-1.5-flash" as "gemini-1.5-flash") and prices
    it under that name; the recorded name never holds a "/". *)
Theorem gemini_model_name_loses_its_path (t : tracker_id) (tr : Tracker.t)
    (f : GenerativeModel -> outcome Response) (name : string)
    (i o : Z) (text : string) (d : Q) (w : World) :
  google w = google_patched t (Native f) ->
  heap w !! t = Some tr ->
  f (Client.gemini_model name) = Ret (Client.gemini_response i o text) ->
  let base := PyStr.last_segment "/" name in
  Google.generate_content (Client.gemini_model name) d w
  = (Ret (Client.gemini_response i o text),
     recorded t tr (Client.gemini_event (_current_function w) base i o d) w) /\
  PyStr.contains_char "/" base = false /\
  (exists dir, name = String.append dir base) /\
  (forall dir leaf, PyStr.contains_char "/" leaf = false ->
     name = String.append dir (String "/" leaf) -> base = leaf).
Proof.
  intros G H F. cbv zeta.
  split; [|split; [apply last_segment_no_separator|
           split; [apply last_segment_suffix|
                   intros dir leaf L ->; now apply last_segment_after]]].
  unfold Google.generate_content, Google._patched_generate, Google.call_original_generate,
    bind.
  rewrite G. simpl. rewrite F.
  unfold Google._record, try_except_pass, Google._record_body, bind, lift, get.
  simpl.
  assert (N : (if PyStr.contains_char "/" name then PyStr.last_segment "/" name else name)
              = PyStr.last_segment "/" name).
  { destruct (PyStr.contains_char "/" name) eqn:C; [reflexivity|].
    symmetry. now apply last_segment_whole. }
  rewrite N. unfold Trackers.record. unfold tracker_id in *. rewrite H.
  unfold recorded, Client.gemini_event. simpl.
  destruct (Tracker.record tr _ (disk w)) as [tr' d'] eqn:R. simpl.
  reflexivity.
Qed.

End GoogleFacts.

(** ** init *)

Section InitFacts.
Import Py Run.
Import OpenAISdk.

Lemma init_run home persist persist_dir w :
  Profiler.init home persist persist_dir w
  = (Ret tt,
     activated (length (heap w))
       (set_global (length (heap w))
          (init_allocated (init_path home persist persist_dir) w))).
Proof.
  unfold Profiler.init, init_path, init_allocated, Client.db_path.
  destruct persist; [destruct persist_dir as [[|c dir]|]|]; reflexivity.
Qed.

Lemma heap_init_allocated path w :
  heap (init_allocated path w) = heap w ++ [Tracker.__init__ path].
Proof. reflexivity. Qed.

Lemma failing_init_allocated path w :
  Tracker.failing (disk (init_allocated path w)) = Tracker.failing (disk w).
Proof.
  unfold init_allocated, Trackers.new. simpl.
  destruct path as [p|]; [|reflexivity].
  now destruct (decide (p ∈ Tracker.failing (disk w))).
Qed.

Lemma load_all_init_allocated path p w :
  Tracker.load_all p (disk (init_allocated path w)) = Tracker.load_all p (disk w).
Proof.
  unfold init_allocated, Trackers.new. simpl.
  destruct path as [q|]; [|reflexivity].
  destruct (decide (q ∈ Tracker.failing (disk w))); [reflexivity|].
  unfold Tracker.load_all. simpl.
  destruct (decide (q = p)) as [->|Hne].
  - now rewrite lookup_insert_eq.
  - now rewrite lookup_insert_ne.
Qed.

Lemma record_store p ev d :
  p ∉ Tracker.failing d ->
  Tracker.load_all p (snd (Tracker.record (Tracker.__init__ (Some p)) ev d))
  = Tracker.load_all p d ++ [ev].
Proof.
  intros H. unfold Tracker.record, Tracker.__init__, Tracker.append. simpl.
  destruct (decide (p ∈ Tracker.failing d)) as [Hin|_]; [contradiction|].
  simpl. unfold Tracker.load_all. simpl. now rewrite lookup_insert_eq.
Qed.

(** [init] in a process where nothing is patched yet: the global Tracker
    is a new one, the next call is recorded there and nowhere else, and
    with [persist] the event is also appended to the store
    [<dir>/usage.db]. *)
Theorem init_routes_calls_to_a_new_global_tracker (home : string) (persist : bool)
    (persist_dir : option string) (m : completions) (f : Kwargs -> outcome Response)
    (model : string) (i o : Z) (text : string) (d : Q) (w : World) :
  openai w = openai_initial m ->
  Completions_create m = SyncNative f ->
  f (Scenario.kwargs_of model) = Ret (Scenario.response_of i o text) ->
  let after := snd ((Profiler.init home persist persist_dir;;
                     OpenAI.create (Scenario.kwargs_of model) d) w) in
  let event := Scenario.event_of (_current_function w) model i o d in
  _global_tracker after = length (heap w) /\
  Trackers.events (_global_tracker after) after = [event] /\
  (forall t, (t < length (heap w))%nat -> Trackers.events t after = Trackers.events t w) /\
  (persist = true ->
   Client.db_path home persist_dir ∉ Tracker.failing (disk w) ->
   Tracker.load_all (Client.db_path home persist_dir) (disk after)
   = Tracker.load_all (Client.db_path home persist_dir) (disk w) ++ [event]).
Proof.
  intros O M F. cbv zeta.
  set (path := init_path home persist persist_dir).
  set (n := length (heap w)).
  set (w1 := activated n (set_global n (init_allocated path w))).
  assert (O1 : openai w1 = openai_patched n (SyncNative f) (AsyncCompletions_create m)).
  { unfold w1. rewrite (activated_initial n m) by exact O. now rewrite M. }
  assert (H1 : heap w1 !! n = Some (Tracker.__init__ path)).
  { unfold w1. simpl. rewrite lookup_app_r by (unfold n; lia).
    unfold n. now rewrite Nat.sub_diag. }
  assert (E : (Profiler.init home persist persist_dir;;
               OpenAI.create (Scenario.kwargs_of model) d) w
              = (Ret (Scenario.response_of i o text),
                 recorded n (Tracker.__init__ path)
                   (Scenario.event_of (_current_function w) model i o d) w1)).
  { unfold bind. rewrite init_run. fold path n w1.
    now rewrite (create_patched_run n _ f _ model i o text d w1 O1 H1 F). }
  rewrite E. cbn [snd].
  split; [reflexivity|]. split; [|split].
  - rewrite global_recorded. change (_global_tracker w1) with n.
    now rewrite (events_recorded_eq n _ _ w1 H1).
  - intros t Ht. rewrite events_recorded_ne by (unfold n; lia).
    unfold Trackers.events. unfold w1. simpl. now rewrite lookup_app_l.
  - intros -> Hok. unfold recorded. cbn [disk set_heap].
    change (disk w1) with (disk (init_allocated (Some (Client.db_path home persist_dir)) w)).
    change path with (Some (Client.db_path home persist_dir)).
    rewrite record_store by (now rewrite failing_init_allocated).
    now rewrite load_all_init_allocated.
Qed.

(** [init] in a process where a patch is already installed: the global
    Tracker is replaced, but the patch keeps the Tracker it was built for,
    so the next call is recorded there and the new global Tracker stays
    empty. *)
Theorem init_after_a_patch_does_not_rebind_it (home : string) (persist : bool)
    (persist_dir : option string) (t : tracker_id) (tr : Tracker.t)
    (f : Kwargs -> outcome Response) (a : option async_method)
    (model : string) (i o : Z) (text : string) (d : Q) (w : World) :
  openai w = openai_patched t (SyncNative f) a ->
  heap w !! t = Some tr ->
  f (Scenario.kwargs_of model) = Ret (Scenario.response_of i o text) ->
  let after := snd ((Profiler.init home persist persist_dir;;
                     OpenAI.create (Scenario.kwargs_of model) d) w) in
  _global_tracker after = length (heap w) /\
  Trackers.events (_global_tracker after) after = [] /\
  Trackers.events t after
  = Tracker.records tr ++ [Scenario.event_of (_current_function w) model i o d].
Proof.
  intros O H F. cbv zeta.
  set (path := init_path home persist persist_dir).
  set (n := length (heap w)).
  set (w1 := activated n (set_global n (init_allocated path w))).
  assert (Hlt : (t < n)%nat) by (eapply lookup_lt_Some; exact H).
  assert (O1 : openai w1 = openai_patched t (SyncNative f) a).
  { unfold w1. now rewrite (activated_patched t n (SyncNative f) a) by exact O. }
  assert (H1 : heap w1 !! t = Some tr).
  { unfold w1. simpl. rewrite lookup_app_l by exact Hlt. exact H. }
  assert (E : (Profiler.init home persist persist_dir;;
               OpenAI.create (Scenario.kwargs_of model) d) w
              = (Ret (Scenario.response_of i o text),
                 recorded t tr
                   (Scenario.event_of (_current_function w) model i o d) w1)).
  { unfold bind. rewrite init_run. fold path n w1.
    now rewrite (create_patched_run t tr f a model i o text d w1 O1 H1 F). }
  rewrite E. cbn [snd].
  split; [reflexivity|]. split.
  - rewrite global_recorded. change (_global_tracker w1) with n.
    rewrite events_recorded_ne by lia.
    unfold Trackers.events. unfold w1. simpl.
    rewrite lookup_app_r by (unfold n; lia). unfold n. now rewrite Nat.sub_diag.
  - now apply events_recorded_eq.
Qed.

End InitFacts.

(** ** optimizer.py *)

Section OptimizerFacts.
Import Py Run.
Import Optimizer.

Abbreviation key_eqb key k :=
  (String.eqb (fst key) (fst k) && String.eqb (snd key) (snd k)).

Lemma key_eqb_eq (key k : string * string) : key_eqb key k = true <-> key = k.
Proof.
  destruct key as [a b], k as [c d]. simpl.
  rewrite andb_true_iff, !String.eqb_eq. split.
  - now intros [-> ->].
  - intros E. now inversion E.
Qed.

Lemma key_eqb_neq (key k : string * string) : key_eqb key k = false <-> key <> k.
Proof.
  rewrite <- key_eqb_eq. now destruct (key_eqb key k).
Qed.

Lemma groups_get_setdefault key r groups k :
  groups_get (setdefault_append key r groups) k
  = if key_eqb k key
    then Some (default [] (groups_get groups key) ++ [r])
    else groups_get groups k.
Proof.
  induction groups as [|[k0 recs] rest IH]; simpl.
  - destruct (key_eqb k key) eqn:E; reflexivity.
  - destruct (key_eqb key k0) eqn:E0; simpl.
    + apply key_eqb_eq in E0. subst k0.
      destruct (key_eqb k key) eqn:E; [reflexivity|]. reflexivity.
    + rewrite IH. destruct (key_eqb k k0) eqn:E1; [|reflexivity].
      apply key_eqb_eq in E1. subst k0.
      destruct (key_eqb k key) eqn:E2; [|reflexivity].
      apply key_eqb_eq in E2. subst k.
      assert (X : key_eqb key key = true) by now apply key_eqb_eq.
      rewrite X in E0. discriminate.
Qed.

Lemma keys_setdefault key r groups :
  map fst (setdefault_append key r groups)
  = if groups_get groups key is Some _ then map fst groups else map fst groups ++ [key].
Proof.
  induction groups as [|[k0 recs] rest IH]; simpl; [reflexivity|].
  destruct (key_eqb key k0) eqn:E0; simpl; [reflexivity|].
  rewrite IH. now destruct (groups_get rest key).
Qed.

Lemma groups_get_None groups key :
  groups_get groups key = None <-> ~ In key (map fst groups).
Proof.
  induction groups as [|[k0 recs] rest IH]; simpl; [tauto|].
  destruct (key_eqb key k0) eqn:E0.
  - apply key_eqb_eq in E0. subst. split; [discriminate|]. intros H. exfalso. apply H. now left.
  - apply key_eqb_neq in E0. rewrite IH. split.
    + intros H [E|E]; [congruence | contradiction].
    + intros H E. apply H. now right.
Qed.

Lemma groups_get_In groups key recs :
  NoDup (map fst groups) ->
  In (key, recs) groups <-> groups_get groups key = Some recs.
Proof.
  induction groups as [|[k0 recs0] rest IH]; simpl; intros ND.
  - split; [contradiction | discriminate].
  - apply NoDup_cons in ND as [Hn ND].
    destruct (key_eqb key k0) eqn:E0.
    + apply key_eqb_eq in E0. subst k0. split.
      * intros [E|E]; [now inversion E|].
        exfalso. apply Hn. apply list_elem_of_In. now apply (in_map fst) in E.
      * intros E. inversion E. now left.
    + apply key_eqb_neq in E0. rewrite <- (IH ND). split.
      * intros [E|E]; [inversion E; congruence | exact E].
      * intros E. now right.
Qed.

Lemma same_group_key k r : same_group k r = key_eqb (record_key r) k.
Proof. reflexivity. Qed.

Lemma fold_groups records : forall acc,
  NoDup (map fst acc) ->
  NoDup (map fst (fold_left group_step records acc)) /\
  forall k, groups_get (fold_left group_step records acc) k
            = match List.filter (same_group k) records with
              | [] => groups_get acc k
              | recs => Some (default [] (groups_get acc k) ++ recs)
              end.
Proof.
  induction records as [|r records IH]; intros acc ND; simpl.
  - split; [exact ND | reflexivity].
  - assert (ND' : NoDup (map fst (group_step acc r))).
    { unfold group_step. rewrite keys_setdefault.
      destruct (groups_get acc (record_key r)) eqn:G; [exact ND|].
      apply NoDup_app. split; [exact ND|]. split; [|apply NoDup_singleton].
      intros x Hx Hx'. apply list_elem_of_singleton in Hx'. subst x.
      apply groups_get_None in G. apply G. now apply list_elem_of_In. }
    destruct (IH _ ND') as [I1 I2]. split; [exact I1|].
    intros k. rewrite I2. unfold group_step at 1 2. rewrite groups_get_setdefault.
    rewrite same_group_key.
    destruct (key_eqb (record_key r) k) eqn:E.
    + apply key_eqb_eq in E. subst k.
      assert (X : key_eqb (record_key r) (record_key r) = true) by now apply key_eqb_eq.
      rewrite X. simpl.
      destruct (List.filter (same_group (record_key r)) records) as [|x xs]; simpl.
      * reflexivity.
      * now rewrite <- app_assoc.
    + assert (X : key_eqb k (record_key r) = false).
      { apply key_eqb_neq. apply key_eqb_neq in E. congruence. }
      rewrite X. reflexivity.
Qed.

(** The groups are the non-empty classes of records with the same
    function and model, each in recording order, under distinct keys. *)
Lemma group_records_spec records :
  NoDup (map fst (group_records records)) /\
  forall k recs, In (k, recs) (group_records records)
                 <-> (recs = List.filter (same_group k) records /\ recs <> []).
Proof.
  destruct (fold_groups records [] NoDup_nil_2) as [ND G].
  split; [exact ND|]. intros k recs.
  change (group_records records) with (fold_left group_step records []).
  rewrite (groups_get_In _ _ _ ND), G. simpl.
  destruct (List.filter (same_group k) records) as [|x xs].
  - split; [discriminate | intros [-> H]; contradiction].
  - split.
    + intros E. inversion E. split; [reflexivity | discriminate].
    + intros [-> _]. reflexivity.
Qed.

(** ** One group *)

Lemma len_nonzero (recs : list Tracker.CallRecord) :
  recs <> [] -> Qeq_bool (inject_Z (Z.of_nat (length recs))) 0 = false.
Proof.
  intros H. destruct recs as [|r recs]; [contradiction|].
  destruct (Qeq_bool _ 0) eqn:E; [|reflexivity].
  apply Qeq_bool_iff in E. unfold Qeq in E. simpl in E. lia.
Qed.

Lemma gt_lt_exclusive x : gt x 2000 = true -> lt x 200 = true -> False.
Proof.
  unfold gt, lt. intros H1 H2.
  apply negb_true_iff in H1, H2.
  assert (A1 : ~ (x <= 2000)%Q) by (intros L; apply Qle_bool_iff in L; congruence).
  assert (A2 : ~ (200 <= x)%Q) by (intros L; apply Qle_bool_iff in L; congruence).
  apply Qnot_le_lt in A1, A2.
  assert (B : (2000 < 200)%Q) by (eapply Qlt_trans; eauto).
  vm_compute in B. discriminate.
Qed.

Lemma group_hints_cases cpm fn model recs :
  recs <> [] ->
  (truthy (Pricing.get_cheaper_alternative model) <> None /\
   (monthly_cost cpm recs == 0)%Q /\
   group_hints cpm fn model recs = Err ZeroDivisionError)
  \/
  (~ (truthy (Pricing.get_cheaper_alternative model) <> None /\
      (monthly_cost cpm recs == 0)%Q) /\
   exists hints, group_hints cpm fn model recs = Ok hints /\
                 (length hints <= 3)%nat /\ Forall (hint_for fn model) hints).
Proof.
  intros Hne. unfold group_hints, true_div. rewrite (len_nonzero recs Hne).
  cbn [and_then]. fold (monthly_cost cpm recs).
  destruct (truthy (Pricing.get_cheaper_alternative model)) as [alt|] eqn:T.
  - destruct (Qeq_bool (monthly_cost cpm recs) 0) eqn:Z.
    + left. split; [discriminate|]. split; [now apply Qeq_bool_iff | reflexivity].
    + right. split.
      { intros [_ E]. apply Qeq_bool_iff in E. congruence. }
      cbn [and_then].
      eexists. split; [reflexivity|]. unfold hint_for, severities.
      destruct (gt _ 4000) eqn:G1; destruct (gt _ 2000) eqn:G2;
        destruct (lt _ 200) eqn:G3;
        try (exfalso; exact (gt_lt_exclusive _ G2 G3));
        (split; [simpl; lia|]);
        repeat (constructor; [cbn [function_name current_model severity];
                  repeat split;
                  repeat match goal with |- context [if ?c then _ else _] => destruct c end;
                  simpl; tauto|]); constructor.
  - right. split; [intros [H _]; now apply H|].
    cbn [and_then].
    eexists. split; [reflexivity|]. unfold hint_for, severities.
    destruct (gt _ 4000) eqn:G1; destruct (gt _ 2000) eqn:G2;
      destruct (lt _ 200) eqn:G3;
      (split; [simpl; lia|]);
      repeat (constructor; [cbn [function_name current_model severity];
                repeat split;
                repeat match goal with |- context [if ?c then _ else _] => destruct c end;
                simpl; tauto|]); constructor.
Qed.

(** ** All groups *)

Lemma all_hints_cases cpm groups :
  Forall (fun g => snd g <> []) groups ->
  (all_hints cpm groups = Err ZeroDivisionError /\ exists g, In g groups /\ raising cpm g)
  \/
  ((forall g, In g groups -> ~ raising cpm g) /\
   exists hints, all_hints cpm groups = Ok hints /\
                 (length hints <= 3 * length groups)%nat /\
                 Forall (hint_from groups) hints).
Proof.
  induction 1 as [|[[fn model] recs] groups Hg Hrest IH].
  - right. split; [intros g []|]. exists []. simpl. repeat split; [lia | constructor].
  - simpl in Hg. cbn [all_hints].
    destruct (group_hints_cases cpm fn model recs Hg) as [[T [Z E]]|[N [hs [E [L F]]]]].
    + left. rewrite E. split; [reflexivity|].
      exists ((fn, model), recs). split; [now left | now split].
    + rewrite E. cbn [and_then].
      destruct IH as [[E' [g [Hin R]]]|[N' [hs' [E' [L' F']]]]].
      * left. rewrite E'. split; [reflexivity|]. exists g. split; [now right | exact R].
      * right. split.
        { intros g [<-|Hin]; [exact N | now apply N']. }
        rewrite E'. cbn [and_then]. exists (hs ++ hs'). split; [reflexivity|].
        split; [rewrite length_app; simpl; lia|].
        apply List.Forall_app. split.
        -- eapply List.Forall_impl; [|exact F]. intros h [H1 [H2 H3]].
           split; [exact H3|]. exists ((fn, model), recs). split; [now left | now split].
        -- eapply List.Forall_impl; [|exact F']. intros h [H1 [g [Hin H2]]].
           split; [exact H1|]. exists g. split; [now right | exact H2].
Qed.

(** ** The sort *)

Lemma sort_key_valid h :
  In (severity h) severities -> exists k, sort_key h = Ok k.
Proof.
  unfold severities. intros [E|[E|[E|[]]]]; unfold sort_key; rewrite <- E;
    eexists; reflexivity.
Qed.

Lemma with_keys_valid hints :
  Forall (fun h => In (severity h) severities) hints ->
  exists keyed, with_keys hints = Ok keyed /\
                map snd keyed = hints /\
                Forall (fun p => sort_key (snd p) = Ok (fst p)) keyed.
Proof.
  induction 1 as [|h hints Hh _ [keyed [E [M F]]]].
  - exists []. repeat split. constructor.
  - destruct (sort_key_valid h Hh) as [k K].
    exists ((k, h) :: keyed). simpl. rewrite K, E. simpl.
    split; [reflexivity|]. split; [now rewrite M|]. constructor; [exact K | exact F].
Qed.

Lemma key_le_total a b : key_le a b = true \/ key_le b a = true.
Proof.
  unfold key_le. destruct a as [ra sa], b as [rb sb]. simpl.
  destruct (Z.ltb_spec ra rb) as [L|L]; [now left|].
  destruct (Z.ltb_spec rb ra) as [L'|L']; [now right|].
  assert (E : ra = rb) by lia. subst rb. rewrite Z.eqb_refl. simpl.
  destruct (Qlt_le_dec sb sa) as [H|H].
  - right. apply Qle_bool_iff. now apply Qlt_le_weak.
  - left. now apply Qle_bool_iff.
Qed.

Lemma Sorted_map_snd {K V} (R : K -> K -> Prop) (R' : V -> V -> Prop) (P : K * V -> Prop)
    (l : list (K * V)) :
  (forall a b, P a -> P b -> R (fst a) (fst b) -> R' (snd a) (snd b)) ->
  Forall P l ->
  Sorted (fun a b => R (fst a) (fst b)) l ->
  Sorted R' (map snd l).
Proof.
  intros HR F S. induction S as [|a l S IH H]; simpl; [constructor|].
  apply List.Forall_cons_iff in F as [Pa F].
  constructor; [now apply IH|].
  destruct H as [|b l H]; simpl; constructor.
  apply List.Forall_cons_iff in F as [Pb _]. now apply HR.
Qed.

Lemma generate_hints_cases tracker cpm :
  let records := Tracker.records tracker in
  let groups := group_records records in
  (generate_hints tracker cpm = Err ZeroDivisionError /\
   exists g, In g groups /\ raising cpm g)
  \/
  ((forall g, In g groups -> ~ raising cpm g) /\
   exists hints, generate_hints tracker cpm = Ok hints /\
                 (length hints <= 3 * length groups)%nat /\
                 Forall (hint_from groups) hints /\
                 Sorted not_after hints).
Proof.
  cbv zeta. unfold generate_hints.
  destruct (group_records_spec (Tracker.records tracker)) as [_ G].
  assert (NE : Forall (fun g => snd g <> []) (group_records (Tracker.records tracker))).
  { apply List.Forall_forall. intros [k recs] Hin. simpl. now apply G in Hin as [_ H]. }
  destruct (Tracker.records tracker) as [|r0 records0] eqn:R.
  - right. split; [intros g []|]. exists []. repeat split; simpl; try lia; constructor.
  - destruct (all_hints_cases cpm _ NE) as [[E X]|[N [hs [E [L F]]]]].
    + left. rewrite E. split; [reflexivity | exact X].
    + right. split; [exact N|]. rewrite E. cbn [and_then].
      assert (V : Forall (fun h => In (severity h) severities) hs).
      { eapply List.Forall_impl; [|exact F]. now intros h [H _]. }
      destruct (with_keys_valid hs V) as [keyed [K [M FK]]].
      rewrite K. cbn [and_then]. eexists. split; [reflexivity|].
      set (le := fun a b : (Z * Q) * Hint => key_le (fst a) (fst b)).
      pose proof (sorted_Permutation le keyed) as P.
      split; [|split].
      * rewrite length_map, (Permutation_length P), <- (length_map snd), M. exact L.
      * apply List.Forall_forall. intros h Hin.
        rewrite List.Forall_forall in F. apply F.
        rewrite <- M. eapply Permutation_in; [|exact Hin].
        now apply Permutation_map.
      * apply (Sorted_map_snd (fun a b => key_le a b = true) not_after
                 (fun p => sort_key (snd p) = Ok (fst p))).
        -- intros a b Ha Hb Hle. exists (fst a), (fst b). auto.
        -- apply List.Forall_forall. intros p Hin. rewrite List.Forall_forall in FK.
           apply FK. eapply Permutation_in; [exact P | exact Hin].
        -- apply (sorted_Sorted le). intros a b. apply key_le_total.
Qed.

Lemma in_group_of r records :
  In r records -> In r (group_of r records).
Proof.
  intros H. unfold group_of. apply filter_In. split; [exact H|].
  rewrite same_group_key. now apply key_eqb_eq.
Qed.

Lemma raising_group_iff cpm records :
  (exists g, In g (group_records records) /\ raising cpm g)
  <-> exists r, In r records /\
        truthy (Pricing.get_cheaper_alternative (Tracker.model r)) <> None /\
        (monthly_cost cpm (group_of r records) == 0)%Q.
Proof.
  destruct (group_records_spec records) as [_ G]. split.
  - intros [[k recs] [Hin [T Z]]]. simpl in T, Z.
    apply G in Hin as [E Hne].
    destruct recs as [|r recs']; [contradiction|].
    assert (Hr : In r (List.filter (same_group k) records)) by (rewrite <- E; now left).
    apply filter_In in Hr as [Hr S]. rewrite same_group_key in S.
    apply key_eqb_eq in S. exists r. split; [exact Hr|].
    unfold group_of. rewrite S, <- E. subst k. split; [exact T | exact Z].
  - intros [r [Hr [T Z]]].
    exists (record_key r, group_of r records). split; [|split; [exact T | exact Z]].
    apply G. split; [reflexivity|].
    intros E. pose proof (in_group_of r records Hr) as X. rewrite E in X. contradiction.
Qed.

(** [generate_hints] never fails on the severity lookup of its sort key,
    and it raises ZeroDivisionError exactly when some recorded call is of
    a model with a cheaper alternative and the monthly cost of its group
    (same function, same model) is zero: the percentage in the suggestion
    divides by that cost unguarded. *)
Theorem generate_hints_raises_on_zero_monthly_cost (tracker : Tracker.t) (cpm : Q) :
  generate_hints tracker cpm <> Err KeyError /\
  (generate_hints tracker cpm = Err ZeroDivisionError <->
   exists r, In r (Tracker.records tracker) /\
     truthy (Pricing.get_cheaper_alternative (Tracker.model r)) <> None /\
     (monthly_cost cpm (group_of r (Tracker.records tracker)) == 0)%Q).
Proof.
  destruct (generate_hints_cases tracker cpm) as [[E X]|[N [hs [E _]]]].
  - split; [rewrite E; discriminate|]. split; [|intros _; exact E].
    intros _. now apply raising_group_iff.
  - split; [rewrite E; discriminate|]. rewrite E. split; [discriminate|].
    intros X. apply raising_group_iff in X as [g [Hin R]]. exfalso. exact (N g Hin R).
Qed.

(** When [generate_hints] returns, the hints are in the order of their
    sort keys (severity first, then larger savings first), there are at
    most three per group (the hints for long and for short output exclude
    each other), and each has one of the three severities and the function
    and model of some recorded call. *)
Theorem generate_hints_result_is_ordered (tracker : Tracker.t) (cpm : Q)
    (hints : list Hint) :
  generate_hints tracker cpm = Ok hints ->
  Sorted not_after hints /\
  (length hints <= 3 * length (group_records (Tracker.records tracker)))%nat /\
  Forall (fun h => In (severity h) severities /\
                   exists r, In r (Tracker.records tracker) /\
                             function_name h = Tracker.function_name r /\
                             current_model h = Tracker.model r) hints.
Proof.
  intros H.
  destruct (generate_hints_cases tracker cpm) as [[E _]|[_ [hs [E [L [F S]]]]]];
    [congruence|].
  rewrite E in H. injection H as <-.
  split; [exact S|]. split; [exact L|].
  eapply List.Forall_impl; [|exact F]. intros h [V [[k recs] [Hin [Hf Hm]]]].
  split; [exact V|]. simpl in Hf, Hm.
  destruct (group_records_spec (Tracker.records tracker)) as [_ G].
  apply G in Hin as [E' Hne].
  destruct recs as [|r recs']; [contradiction|].
  assert (Hr : In r (List.filter (same_group k) (Tracker.records tracker)))
    by (rewrite <- E'; now left).
  apply filter_In in Hr as [Hr Sg]. rewrite same_group_key in Sg.
  apply key_eqb_eq in Sg. exists r. split; [exact Hr|]. subst k. now split.
Qed.

End OptimizerFacts.

(** ** flamegraph.py *)

Section FlamegraphFacts.
Import Py Run.
Import Flamegraph.

Lemma int_of_bounds (x : Q) (w : Z) :
  (0 <= x)%Q -> (x <= inject_Z w)%Q -> (0 <= int_of x <= w)%Z.
Proof.
  unfold Qle, int_of. destruct x as [n d]. simpl. intros H0 Hw.
  assert (Hn : (0 <= n)%Z) by lia.
  rewrite Z.quot_div_nonneg by lia. split.
  - apply Z.div_pos; lia.
  - apply Z.div_le_upper_bound; lia.
Qed.

Lemma int_of_monotone (x y : Q) :
  (0 <= x)%Q -> (x <= y)%Q -> (int_of x <= int_of y)%Z.
Proof.
  unfold Qle, int_of. destruct x as [n d], y as [m e]. simpl. intros H0 H.
  assert (Hn : (0 <= n)%Z) by lia.
  assert (Hm : (0 <= m)%Z) by nia.
  rewrite !Z.quot_div_nonneg by lia.
  apply Z.div_le_lower_bound; [lia|].
  pose proof (Z.mul_div_le n (Z.pos d) ltac:(lia)) as A.
  assert (B : (Z.pos d * (Z.pos e * (n / Z.pos d)) <= Z.pos d * m)%Z) by nia.
  nia.
Qed.

(** For a percentage between 0 and 100 the bar is exactly [width]
    characters: full blocks, then light ones; and a smaller percentage
    never has more full blocks. *)
Theorem bar_fills_its_width (pct : Q) (width : Z) :
  (0 <= pct)%Q -> (pct <= 100)%Q -> (0 <= width)%Z ->
  exists filled : nat,
    (filled <= Z.to_nat width)%nat /\
    _bar pct width = replicate filled Full ++ replicate (Z.to_nat width - filled) Light /\
    length (_bar pct width) = Z.to_nat width /\
    forall pct', (pct' <= pct)%Q -> (0 <= pct')%Q ->
      exists filled' : nat, (filled' <= filled)%nat /\
        _bar pct' width
        = replicate filled' Full ++ replicate (Z.to_nat width - filled') Light.
Proof.
  intros H0 H100 Hw.
  assert (Hwq : (0 <= inject_Z width)%Q) by (unfold Qle; simpl; lia).
  assert (X : forall p, (0 <= p)%Q -> (p <= 100)%Q ->
              (0 <= p / 100 * inject_Z width)%Q /\
              (p / 100 * inject_Z width <= inject_Z width)%Q).
  { intros p P0 P100. split.
    - apply Qmult_le_0_compat; [|exact Hwq].
      unfold Qdiv. apply Qmult_le_0_compat; [exact P0 | now vm_compute].
    - rewrite <- (Qmult_1_l (inject_Z width)) at 2.
      apply Qmult_le_compat_r; [|exact Hwq].
      apply Qle_shift_div_r; [now vm_compute|]. now rewrite Qmult_1_l. }
  assert (Y : forall p, (0 <= p)%Q -> (p <= 100)%Q ->
              _bar p width
              = replicate (Z.to_nat (int_of (p / 100 * inject_Z width))) Full
                ++ replicate (Z.to_nat width
                              - Z.to_nat (int_of (p / 100 * inject_Z width))) Light).
  { intros p P0 P100. destruct (X p P0 P100) as [A B].
    pose proof (int_of_bounds _ _ A B) as [C D].
    unfold _bar, times. now rewrite Z2Nat.inj_sub by exact C. }
  destruct (X pct H0 H100) as [A B].
  pose proof (int_of_bounds _ _ A B) as [C D].
  exists (Z.to_nat (int_of (pct / 100 * inject_Z width))).
  split; [lia|]. split; [now apply Y|]. split.
  - rewrite (Y pct H0 H100), length_app, !length_replicate. lia.
  - intros pct' Hle H0'.
    assert (H100' : (pct' <= 100)%Q) by (eapply Qle_trans; eauto).
    exists (Z.to_nat (int_of (pct' / 100 * inject_Z width))).
    split; [|now apply Y].
    apply Z2Nat.inj_le.
    + destruct (X pct' H0' H100') as [A' B']. now apply (int_of_bounds _ _ A' B').
    + exact C.
    + apply int_of_monotone; [now apply X|].
      apply Qmult_le_compat_r; [|exact Hwq].
      unfold Qdiv. apply Qmult_le_compat_r; [exact Hle | now vm_compute].
Qed.

End FlamegraphFacts.

(** ** The further properties at sample inputs *)

Lemma table_entry_priced_at_own_rates_witness :
  Pricing.get_price_per_million "O1-Mini" = Some (3.00, 12.00)%Q /\
  Pricing.calculate "O1-Mini" 1000000 0
  = Pricing.cost_at_rates (3.00, 12.00)%Q 1000000 0.
Proof.
  apply (table_entry_priced_at_own_rates "o1-mini" (3.00, 12.00)%Q "O1-Mini" 1000000 0).
  - unfold Pricing.PRICING. simpl. tauto.
  - reflexivity.
Defined.


Lemma cheaper_alternative_is_cheaper_witness :
  exists r a,
    Pricing.get_price_per_million "GPT-4o" = Some r /\
    Pricing.get_price_per_million "gpt-4o-mini" = Some a /\
    (fst a < fst r)%Q /\ (snd a < snd r)%Q /\
    forall i o, (0 <= i)%Z -> (0 <= o)%Z ->
                (Pricing.calculate "gpt-4o-mini" i o <= Pricing.calculate "GPT-4o" i o)%Q.
Proof.
  apply (cheaper_alternative_is_cheaper "GPT-4o" "gpt-4o-mini"). reflexivity.
Defined.

Lemma profile_leaves_interception_on_witness :
  let after := snd (Profiler.profile "f" (Run.ret tt) Scenario.fresh) in
  fst (Interceptor.is_active after) = Py.Ret true /\
  openai after
  = snd (OpenAI.patch 0%nat interceptor_current_function (openai Scenario.fresh)).
Proof.
  apply (profile_leaves_interception_on "f" (Run.ret tt) Scenario.fresh "<unknown>").
  - reflexivity.
  - simpl. discriminate.
  - reflexivity.
  - reflexivity.
Defined.

Lemma session_leaves_its_name_behind_witness :
  let after := snd (Session.with_ Sample.session (fun _ => Run.ret tt) Scenario.fresh) in
  fst (Interceptor.get_current_function after) = Py.Ret "s" /\
  fst (Interceptor.is_active after) = Py.Ret false.
Proof.
  apply (session_leaves_its_name_behind Sample.session (fun _ => Run.ret tt)
           Scenario.fresh "<unknown>" (Tracker.__init__ None)); reflexivity.
Defined.

Lemma session_figures_witness :
  let w := recorded 0%nat (Tracker.__init__ None) (Scenario.event "f" 10 20 0.5%Q)
             Scenario.fresh in
  let tr := fst (Tracker.record (Tracker.__init__ None) (Scenario.event "f" 10 20 0.5%Q)
                   (disk Scenario.fresh)) in
  exists closed cost,
    Session.__exit__ Sample.session w = (Py.Ret closed, deactivated w) /\
    Session.calls closed = Tracker.total_calls tr /\
    fst (Session.cost closed (deactivated w)) = Py.Ret cost /\
    (cost == Tracker.total_cost tr)%Q /\
    fst (Session.tokens closed (deactivated w)) = Py.Ret (Tracker.total_tokens tr) /\
    (exists cost', fst (Run.bind (Trackers.reset (Session._tracker Sample.session))
                          (fun _ => Session.cost closed) (deactivated w)) = Py.Ret cost' /\
                   (cost' == Tracker.total_cost tr)%Q) /\
    fst (Run.bind (Trackers.reset (Session._tracker Sample.session))
           (fun _ => Session.tokens closed) (deactivated w))
    = Py.Ret (Tracker.total_tokens tr).
Proof.
  cbv zeta.
  apply (session_figures Sample.session
           (fst (Tracker.record (Tracker.__init__ None) (Scenario.event "f" 10 20 0.5%Q)
                   (disk Scenario.fresh)))
           (recorded 0%nat (Tracker.__init__ None) (Scenario.event "f" 10 20 0.5%Q)
              Scenario.fresh)).
  reflexivity.
Defined.

Lemma sdk_exception_passes_through_witness :
  let e := Py.UserError "real openai not available in tests" in
  OpenAI.create (Scenario.kwargs_of "gpt-4o") 3%Q Sample.stubbed
  = (Py.Raise e, Sample.stubbed) /\
  OpenAI.acreate (Scenario.kwargs_of "gpt-4o") 3%Q Sample.stubbed
  = (Py.Raise e, Sample.stubbed) /\
  Google.generate_content (Client.gemini_model "gemini-1.5-pro") 3%Q Sample.stubbed
  = (Py.Raise e, Sample.stubbed).
Proof.
  cbv zeta.
  destruct (sdk_exception_passes_through 0%nat 0%nat Sample.unavailable Sample.unavailable
              Sample.unavailable (Scenario.kwargs_of "gpt-4o")
              (Client.gemini_model "gemini-1.5-pro") 3%Q
              (Py.UserError "real openai not available in tests") Sample.stubbed
              eq_refl eq_refl) as [A [B C]].
  split; [exact (A eq_refl)|]. split; [exact (B eq_refl) | exact (C eq_refl)].
Defined.



Lemma call_without_model_is_recorded_as_unknown_witness :
  let kwargs := {| OpenAISdk.kw_model := None |} in
  exists event,
    fst (OpenAI.create kwargs 5%Q Sample.patched)
    = Py.Ret (Scenario.response_of 1000 200 "ok") /\
    Trackers.events 0%nat (snd (OpenAI.create kwargs 5%Q Sample.patched))
    = Tracker.records (Tracker.__init__ None) ++ [event] /\
    Tracker.model event = "unknown" /\
    Tracker.input_tokens event = 1000%Z /\
    Tracker.output_tokens event = 200%Z /\
    (Tracker.cost_usd event == 0)%Q /\
    Tracker.provider event = "openai".
Proof.
  apply (call_without_model_is_recorded_as_unknown 0%nat (Tracker.__init__ None)
           Scenario.stub_create (Some (OpenAISdk.AsyncNative Scenario.stub_create))
           1000 200 "ok" 5%Q Sample.patched); reflexivity.
Defined.

Lemma leftover_closure_breaks_every_call_witness :
  let reset := snd (Conftest.reset_global_tracker Sample.patched) in
  OpenAI.create (Scenario.kwargs_of "gpt-4o") 5%Q reset = (Py.Raise Py.TypeError, reset) /\
  forall tracker : option tracker_id,
    let again := snd (Interceptor.activate tracker reset) in
    OpenAI.create (Scenario.kwargs_of "gpt-4o") 5%Q again
    = (Py.Raise Py.RecursionError, again).
Proof.
  apply (leftover_closure_breaks_every_call 0%nat
           (OpenAISdk.SyncNative Scenario.stub_create)
           (Some (OpenAISdk.AsyncNative Scenario.stub_create))
           (Scenario.kwargs_of "gpt-4o") 5%Q Sample.patched).
  reflexivity.
Defined.

Lemma gemini_model_name_loses_its_path_witness :
  let name := "models/gemini-1.5-flash" in
  let base := PyStr.last_segment "/" name in
  Google.generate_content (Client.gemini_model name) 9%Q Sample.gemini
  = (Py.Ret (Client.gemini_response 1200 300 "ok"),
     recorded 0%nat (Tracker.__init__ None)
       (Client.gemini_event (_current_function Sample.gemini) base 1200 300 9%Q)
       Sample.gemini) /\
  PyStr.contains_char "/" base = false /\
  (exists dir, name = String.append dir base) /\
  (forall dir leaf, PyStr.contains_char "/" leaf = false ->
     name = String.append dir (String "/" leaf) -> base = leaf).
Proof.
  apply (gemini_model_name_loses_its_path 0%nat (Tracker.__init__ None)
           (fun _ => Py.Ret (Client.gemini_response 1200 300 "ok"))
           "models/gemini-1.5-flash" 1200 300 "ok" 9%Q Sample.gemini); reflexivity.
Defined.

Lemma init_routes_calls_to_a_new_global_tracker_witness :
  let after := snd (Run.bind (Profiler.init "/home/u" true (Some "/tmp/llm"))
                      (fun _ => OpenAI.create (Scenario.kwargs_of "gpt-4o") 4%Q)
                      Scenario.fresh) in
  let event := Scenario.event_of (_current_function Scenario.fresh) "gpt-4o" 1000 200 4%Q in
  _global_tracker after = length (heap Scenario.fresh) /\
  Trackers.events (_global_tracker after) after = [event] /\
  (forall t, (t < length (heap Scenario.fresh))%nat ->
     Trackers.events t after = Trackers.events t Scenario.fresh) /\
  Tracker.load_all (Client.db_path "/home/u" (Some "/tmp/llm")) (disk after)
  = Tracker.load_all (Client.db_path "/home/u" (Some "/tmp/llm")) (disk Scenario.fresh)
    ++ [event].
Proof.
  cbv zeta.
  destruct (init_routes_calls_to_a_new_global_tracker "/home/u" true (Some "/tmp/llm")
              Scenario.sdk_stub Scenario.stub_create "gpt-4o" 1000 200 "ok" 4%Q
              Scenario.fresh eq_refl eq_refl eq_refl) as [A [B [C D]]].
  split; [exact A|]. split; [exact B|]. split; [exact C|].
  apply (D eq_refl). apply not_elem_of_empty.
Defined.

Lemma init_after_a_patch_does_not_rebind_it_witness :
  let after := snd (Run.bind (Profiler.init "/home/u" false None)
                      (fun _ => OpenAI.create (Scenario.kwargs_of "gpt-4o") 4%Q)
                      Sample.patched) in
  _global_tracker after = length (heap Sample.patched) /\
  Trackers.events (_global_tracker after) after = [] /\
  Trackers.events 0%nat after
  = Tracker.records (Tracker.__init__ None)
    ++ [Scenario.event_of (_current_function Sample.patched) "gpt-4o" 1000 200 4%Q].
Proof.
  apply (init_after_a_patch_does_not_rebind_it "/home/u" false None 0%nat
           (Tracker.__init__ None) Scenario.stub_create
           (Some (OpenAISdk.AsyncNative Scenario.stub_create))
           "gpt-4o" 1000 200 "ok" 4%Q Sample.patched); reflexivity.
Defined.

(** One call that used no tokens, of a model with a cheaper alternative,
    is enough for the division by zero. *)
Lemma generate_hints_idle_call_raises :
  Optimizer.generate_hints Sample.idle_ledger Optimizer.CALLS_PER_MINUTE_DEFAULT
  = Optimizer.Err Optimizer.ZeroDivisionError.
Proof. vm_compute. reflexivity. Qed.

Lemma generate_hints_result_is_ordered_witness :
  let hints := Sample.hints_of
                 (Optimizer.generate_hints Sample.ledger
                    Optimizer.CALLS_PER_MINUTE_DEFAULT) in
  Sorted Optimizer.not_after hints /\
  (length hints
   <= 3 * length (Optimizer.group_records (Tracker.records Sample.ledger)))%nat /\
  Forall (fun h => In (Optimizer.severity h) Optimizer.severities /\
                   exists r, In r (Tracker.records Sample.ledger) /\
                             Optimizer.function_name h = Tracker.function_name r /\
                             Optimizer.current_model h = Tracker.model r) hints.
Proof.
  apply (generate_hints_result_is_ordered Sample.ledger
           Optimizer.CALLS_PER_MINUTE_DEFAULT).
  vm_compute. reflexivity.
Defined.

Lemma bar_fills_its_width_witness :
  exists filled : nat,
    (filled <= Z.to_nat 16)%nat /\
    Flamegraph._bar 37.5%Q 16
    = replicate filled Flamegraph.Full ++ replicate (Z.to_nat 16 - filled) Flamegraph.Light /\
    length (Flamegraph._bar 37.5%Q 16) = Z.to_nat 16 /\
    forall pct', (pct' <= 37.5)%Q -> (0 <= pct')%Q ->
      exists filled' : nat, (filled' <= filled)%nat /\
        Flamegraph._bar pct' 16
        = replicate filled' Flamegraph.Full
          ++ replicate (Z.to_nat 16 - filled') Flamegraph.Light.
Proof.
  apply (bar_fills_its_width 37.5%Q 16).
  - vm_compute. discriminate.
  - vm_compute. discriminate.
  - lia.
Defined.
